(** * langchain-prod-agent: the orchestration contract, embedded and checked

    A shallow embedding of the TypeScript sources

      - [src/agent.ts]  createProductionAgent, runAgent, batchProcess
      - [src/tools.ts]  the tool set; the repository carries two renditions of
                        this file, the object-literal ("runtime-friendly") one,
                        embedded in [Module RuntimeTools], and the class-based
                        one, embedded in [Module ClassTools]
      - [src/index.ts]  main, runDemoMode, runBatchMode, runInteractiveMode

    Conventions of the embedding.

      - An [async] function is a computation in the monad [M]: it threads a
        world (console, clock, collaborators) and ends by returning, by
        throwing (a rejected promise) or by terminating the process.
      - The collaborators the repository does not implement (the LangChain
        executor, the Supabase client, the embedding client, the host's
        clock, time zone and number formatting) are parameters; every theorem
        holds for all of their behaviours.  Their calls are total: a promise
        that never settles is outside the model.
      - The numbers the program computes with (the values of
        [data_analysis]) are IEEE 754 doubles, the kernel's [float], with
        their rounding, infinities and NaN.  Numbers that only pass through
        (limits, similarities, configuration) are held as the rational they
        denote, [Q], and time values as integers, as ECMA-262 defines them.
      - Strings are held in UTF-8.  [trim] strips the white space of
        ECMA-262, the Unicode spaces included; the case mappings act on ASCII
        letters, which is all that a comparison with an ASCII word or the
        upper-casing of one depends on. *)

From Stdlib Require Import ZArith QArith Qround Qabs String Ascii List Sorted Permutation Lia.
From Stdlib Require Import Floats.
From stdpp Require Import base option list strings gmap pretty.

Set Warnings "-register-all".

Open Scope string_scope.
Open Scope Z_scope.
Open Scope list_scope.

(** ** JavaScript values *)

(** The values that cross an untyped ([any]) boundary: results and errors of
    the collaborators, metadata, console arguments. *)
Inductive JsVal : Type :=
  | VUndefined
  | VNull
  | VBool (b : bool)
  | VNum (q : Q)                              (* a number that passes through *)
  | VStr (s : string)
  | VError (message : string)                 (* an [instanceof Error] object *)
  | VArr (items : list JsVal)
  | VObj (props : list (string * JsVal)).

(** The outcome of evaluating an expression: a value, or a thrown value. *)
Inductive outcome (A : Type) : Type :=
  | Returned (a : A)
  | Thrown (e : JsVal).
Arguments Returned {A} a.
Arguments Thrown {A} e.

Definition nl : string := String (ascii_of_nat 10) EmptyString.

(** The double-quote character, for string literals that contain it. *)
Definition dq : string := String (ascii_of_nat 34) EmptyString.

(** [String.prototype.repeat] *)
Fixpoint str_repeat (s : string) (n : nat) : string :=
  match n with
  | O => EmptyString
  | S n' => s +:+ str_repeat s n'
  end.

(** Own-property lookup in an object literal. *)
Fixpoint assoc (k : string) (props : list (string * JsVal)) : option JsVal :=
  match props with
  | [] => None
  | (k', v) :: rest => if String.eqb k k' then Some v else assoc k rest
  end.

(** [obj[k] = v]: an existing key keeps its position, a new key goes last. *)
Fixpoint set_prop (k : string) (v : JsVal) (props : list (string * JsVal))
  : list (string * JsVal) :=
  match props with
  | [] => [(k, v)]
  | (k', v') :: rest =>
      if String.eqb k k' then (k, v) :: rest else (k', v') :: set_prop k v rest
  end.

(** Object spread [{...target, ...source}]. *)
Definition spread (target source : list (string * JsVal)) : list (string * JsVal) :=
  fold_left (fun acc kv => set_prop (fst kv) (snd kv) acc) source target.

(** A V8-style TypeError for a property read on [undefined] or [null]. *)
Definition type_error_read (what k : string) : JsVal :=
  VError ("Cannot read properties of " +:+ what +:+ " (reading '" +:+ k +:+ "')").

(** Property read [v.k]. *)
Definition get_prop (v : JsVal) (k : string) : outcome JsVal :=
  match v with
  | VUndefined => Thrown (type_error_read "undefined" k)
  | VNull => Thrown (type_error_read "null" k)
  | VObj props => Returned (default VUndefined (assoc k props))
  | VError m => Returned (if String.eqb k "message" then VStr m else VUndefined)
  | VArr items =>
      Returned (if String.eqb k "length"
                then VNum (inject_Z (Z.of_nat (length items))) else VUndefined)
  | VStr s =>
      Returned (if String.eqb k "length"
                then VNum (inject_Z (Z.of_nat (String.length s))) else VUndefined)
  | _ => Returned VUndefined
  end.

(** ToBoolean *)
Definition truthy (v : JsVal) : bool :=
  match v with
  | VUndefined | VNull => false
  | VBool b => b
  | VNum q => negb (Qeq_bool q 0)
  | VStr s => negb (String.eqb s EmptyString)
  | _ => true
  end.

(** [error instanceof Error ? error.message : 'Unknown error'] *)
Definition error_message (error : JsVal) : string :=
  match error with
  | VError m => m
  | _ => "Unknown error"
  end.

(** ** The effect monad *)

Section Effects.
Context {W : Type}.

(** How a computation ends: normally, by an exception, or by [process.exit]. *)
Inductive res (A : Type) : Type :=
  | Ret (a : A) (w : W)
  | Throw (e : JsVal) (w : W)
  | Exit (code : Z) (w : W).

Definition M (A : Type) : Type := W -> res A.

Definition ret {A} (a : A) : M A := fun w => Ret A a w.

Definition bind {A B} (m : M A) (k : A -> M B) : M B :=
  fun w =>
    match m w with
    | Ret _ a w' => k a w'
    | Throw _ e w' => Throw B e w'
    | Exit _ c w' => Exit B c w'
    end.

Definition throw {A} (e : JsVal) : M A := fun w => Throw A e w.

(** [process.exit(code)] never returns; no [catch] intercepts it. *)
Definition process_exit {A} (code : Z) : M A := fun w => Exit A code w.

(** [try { body } catch (error) { handler }] *)
Definition try_catch {A} (body : M A) (handler : JsVal -> M A) : M A :=
  fun w =>
    match body w with
    | Throw _ e w' => handler e w'
    | r => r
    end.

Definition lift_outcome {A} (o : outcome A) : M A :=
  match o with
  | Returned a => ret a
  | Thrown e => throw e
  end.

(** [for (const x of l) { acc = body x acc }] *)
Fixpoint for_of {A B} (l : list A) (body : A -> B -> M B) (acc : B) : M B :=
  match l with
  | [] => ret acc
  | x :: rest => bind (body x acc) (for_of rest body)
  end.

Definition final_world {A} (r : res A) : W :=
  match r with
  | Ret _ _ w | Throw _ _ w | Exit _ _ w => w
  end.

Definition returned {A} (r : res A) : option A :=
  match r with
  | Ret _ a _ => Some a
  | _ => None
  end.

Definition thrown {A} (r : res A) : option JsVal :=
match r with
| Throw _ e _ => Some e
| _ => None
end.
End Effects.

Arguments res : clear implicits.
Arguments M : clear implicits.
Arguments Ret {W A} a w.
Arguments Throw {W A} e w.
Arguments Exit {W A} code w.

Declare Scope js_scope.
Delimit Scope js_scope with js.
Notation "x <- m ;; k" := (bind m (fun x => k))
  (at level 100, m at next level, right associativity) : js_scope.
Notation "m ;;; k" := (bind m (fun _ => k))
  (at level 100, right associativity) : js_scope.
Open Scope js_scope.

(** ** The host: built-ins of the JavaScript runtime

    Number and date formatting, JSON printing, the host's time zone and the
    engine's bound on the arguments of a call are fixed by the runtime, not
    by the repository; they are fields of a record that every definition
    takes as a parameter. *)
Record JsHost : Type := mkHost {
  Number_toString : Q -> string;          (* Number::toString *)
  Number_toFixed : Q -> nat -> string;    (* Number.prototype.toFixed *)
  JSON_stringify : JsVal -> string;       (* JSON.stringify(v, null, 2) *)
  Date_toISOString : Z -> string;         (* of a valid time value *)
  Date_toLocaleString : Z -> string;
  Date_toLocaleDateString : Z -> string;
  Date_toLocaleTimeString : Z -> string;
  LocalTZA_utc : Z -> Z;                  (* LocalTZA(t, true): offset at the UTC instant t *)
  LocalTZA_local : Z -> Z;                (* LocalTZA(t, false): offset for the local time t *)
  month_start_day : Z -> Z;               (* day number of the first day of the month of day d *)
  spread_error : nat -> option JsVal      (* the RangeError, if any, of a call f(...a) that
                                             spreads an array of that length: engines bound
                                             the number of arguments *)
}.

(** ToString, as a template literal applies it. *)
Fixpoint ToString (host : JsHost) (v : JsVal) : string :=
  match v with
  | VUndefined => "undefined"
  | VNull => "null"
  | VBool true => "true"
  | VBool false => "false"
  | VNum q => Number_toString host q
  | VStr s => s
  | VError m => "Error: " +:+ m
  | VArr items =>
      String.concat ","
        (map (fun x => match x with
                       | VUndefined | VNull => EmptyString
                       | _ => ToString host x
                       end) items)
  | VObj _ => "[object Object]"
  end.

(** ** Dates (ECMA-262, 21.4.1): time values are milliseconds since the epoch *)

Definition msPerDay : Z := 86400000.
Definition Day (t : Z) : Z := t / msPerDay.
Definition TimeWithinDay (t : Z) : Z := t mod msPerDay.
Definition MakeDate (day time : Z) : Z := day * msPerDay + time.
Definition maxTimeValue : Z := 8640000000000000.

(** A Date object holds a time value, or NaN ([None]) when invalid. *)
Definition TimeClip (t : Z) : option Z :=
  if Z.abs t <=? maxTimeValue then Some t else None.

Section Dates.
Variable host : JsHost.

Definition LocalTime (t : Z) : Z := t + LocalTZA_utc host t.
Definition UTC (t : Z) : Z := t - LocalTZA_local host t.

(** [DateFromTime]: the day of the month, 1-based. *)
Definition DateFromTime (t : Z) : Z := Day t - month_start_day host (Day t) + 1.

(** [MakeDay(YearFromTime(t), MonthFromTime(t), dt)]: days overflow linearly
    into the neighbouring months. *)
Definition MakeDay_same_month (t dt : Z) : Z := month_start_day host (Day t) + dt - 1.

(** [Date.prototype.getDate], in local time; NaN on an invalid date. *)
Definition getDate (d : option Z) : option Z :=
  match d with
  | Some tv => Some (DateFromTime (LocalTime tv))
  | None => None
  end.

(** [Date.prototype.setDate(dt)]: the new time value of the object. *)
Definition setDate (d : option Z) (dt : option Z) : option Z :=
  match d, dt with
  | Some tv, Some n =>
      let t := LocalTime tv in
      TimeClip (UTC (MakeDate (MakeDay_same_month t n) (TimeWithinDay t)))
  | _, _ => None
  end.

(** [Date.prototype.toISOString] throws a RangeError on an invalid date. *)
Definition toISOString (d : option Z) : outcome string :=
  match d with
  | Some tv => Returned (Date_toISOString host tv)
  | None => Thrown (VError "Invalid time value")
  end.

Definition toLocaleWith (f : Z -> string) (d : option Z) : string :=
  match d with
  | Some tv => f tv
  | None => "Invalid Date"
  end.
End Dates.

(** ** The world *)

Inductive QueryOp : Type :=
  | OpLimit (n : JsVal)
  | OpEq (column : string) (value : JsVal)
  | OpSingle.

(** What [new AgentExecutor] and [createOpenAIFunctionsAgent] are given. *)
Record ExecutorSpec : Type := mkSpec {
  spec_modelName : string;
  spec_temperature : Q;
  spec_maxTokens : Q;
  spec_openAIApiKey : string;
  spec_prompt : string;
  spec_memoryKey : string;
  spec_tools : list string;
  spec_maxIterations : Q;
  spec_handleParsingErrors : bool;
  spec_verbose : bool
}.

(** Everything the program does that an observer can see, in order. *)
Inductive Event : Type :=
  | ConsoleLog (args : list JsVal)
  | ConsoleError (args : list JsVal)
  | Question (prompt : string)                     (* rl.question *)
  | RlClose
  | SetTimeout (ms : Z)
  | ConstructExecutor (spec : ExecutorSpec)
  | ExecutorInvoke (args : JsVal)                  (* executor.invoke *)
  | EmbedQuery (query : JsVal)                     (* embeddings.embedQuery *)
  | StoreRpc (fn : string) (params : list (string * JsVal))
  | StoreSelect (table columns : string) (ops : list QueryOp)
  | StoreUpsert (table : string) (row : list (string * JsVal)).

(** [S] is the private state of the collaborators (the executor's memory
    buffer, the contents of the hosted store). *)
Record World (S : Type) : Type := mkWorld {
  trace : list Event;
  env : gmap string string;       (* process.env *)
  clock : nat -> Z;               (* the successive readings of the clock *)
  ticks : nat;                    (* how many readings were taken *)
  collab : S
}.
Arguments mkWorld {S} _ _ _ _ _.
Arguments trace {S} _.
Arguments env {S} _.
Arguments clock {S} _.
Arguments ticks {S} _.
Arguments collab {S} _.

Section WorldOps.
Context {S : Type}.

Definition emit (e : Event) : M (World S) unit :=
  fun w => Ret tt (mkWorld (trace w ++ [e]) (env w) (clock w) (ticks w) (collab w)).

Definition console_log (args : list JsVal) : M (World S) unit := emit (ConsoleLog args).
Definition console_error (args : list JsVal) : M (World S) unit := emit (ConsoleError args).

(** [Date.now()] *)
Definition Date_now : M (World S) Z :=
  fun w => Ret (clock w (ticks w))
               (mkWorld (trace w) (env w) (clock w) (Datatypes.S (ticks w)) (collab w)).

(** [new Date()]: the present instant is always a valid date. *)
Definition new_Date : M (World S) (option Z) :=
  t <- Date_now ;; ret (Some t).

(** [process.env[name]], as a truth value: unset and empty are both falsy. *)
Definition env_set (name : string) (w : World S) : bool :=
  match env w !! name with
  | Some v => negb (String.eqb v EmptyString)
  | None => false
  end.

Definition getenv (name : string) : M (World S) (option string) :=
  fun w => Ret (env w !! name) w.

(** A call into a collaborator: the request is observable, the reply and
    the collaborator's next state are its own business. *)
Definition call_collab (request : Event) (serve : S -> outcome JsVal * S)
  : M (World S) JsVal :=
  emit request ;;;
  (fun w =>
     let '(o, s') := serve (collab w) in
     lift_outcome o (mkWorld (trace w) (env w) (clock w) (ticks w) s')).
End WorldOps.

(** ** The tool set: what both renditions of [tools.ts] share *)

(** The arguments of each tool, after its zod schema:
    optional fields are [option]s ([None] is [undefined]). *)
Record DocumentSearchInput : Type := mkDocumentSearchInput {
  query : string;
  search_limit : option Q
}.

Record DatabaseQueryInput : Type := mkDatabaseQueryInput {
  table : string;
  filters : option (list (string * JsVal));
  query_limit : option Q
}.

Record DataAnalysisInput : Type := mkDataAnalysisInput {
  operation : string;
  values : list float
}.

Record ConversationMemoryInput : Type := mkConversationMemoryInput {
  memory_action : string;
  conversationId : string;
  message : option string
}.

(** [days] is read as a whole number of days (the specification's schema
    declares it an integer); fractional day counts are outside the model. *)
Record DateTimeInput : Type := mkDateTimeInput {
  action : string;
  days : option Z;
  format : option string
}.

(** A tool: name, description and handler.  The handler's result is untyped
    at run time, hence a [JsVal]. *)
Record Tool (S : Type) : Type := mkTool {
  name : string;
  description : string;
  input : Type;
  call : input -> M (World S) JsVal
}.
Arguments name {S} _.
Arguments description {S} _.
Arguments input {S} _.
Arguments call {S} _ _.

(** *** Statistics of [data_analysis]

    The values are doubles and the handlers compute on them with the
    operators of the language: [+], [-], [/] and [<] are those of IEEE 754
    binary64, which the kernel's [float] implements. *)

(** [values.length] as a Number (array lengths are below 2^32). *)
Definition Number_of_nat (n : nat) : float :=
  PrimFloat.of_uint63 (Uint63Axioms.of_Z (Z.of_nat n)).

(** The rational a finite double denotes. *)
Definition SF2Q (s : bool) (m : positive) (e : Z) : Q :=
  let n := if s then Z.neg m else Z.pos m in
  match e with
  | Z0 => inject_Z n
  | Z.pos k => inject_Z (n * 2 ^ Z.pos k)
  | Z.neg k => Qmake n (2 ^ k)%positive
  end.

(** Printing a double.  [Number::toString] and [toFixed] print NaN and the
    infinities by their names and -0 as 0 (ECMA-262, 6.1.6.1.20 and 21.1.3.3);
    a finite number is printed from its value, by the host's printer. *)
Definition print_double (print : Q -> string) (x : float) : string :=
  match Prim2SF x with
  | S754_nan => "NaN"
  | S754_infinity false => "Infinity"
  | S754_infinity true => "-Infinity"
  | S754_zero _ => print 0%Q
  | S754_finite s m e => print (SF2Q s m e)
  end.

(** [values.reduce((a, b) => a + b, 0)] *)
Definition reduce_sum (values : list float) : float :=
  fold_left (fun a b => (a + b)%float) values zero.

Definition is_negative_zero (x : float) : bool := PrimFloat.is_zero x && get_sign x.
Definition is_positive_zero (x : float) : bool := PrimFloat.is_zero x && negb (get_sign x).

(** One step of [Math.min] (ECMA-262, 21.3.2.25): NaN wins, then -0 is below
    +0, then the lesser number.  [Math.max] likewise. *)
Definition min_step (lowest number : float) : float :=
  if is_nan lowest || is_nan number then nan
  else if is_negative_zero number && is_positive_zero lowest then number
  else if (number <? lowest)%float then number else lowest.

Definition max_step (highest number : float) : float :=
  if is_nan highest || is_nan number then nan
  else if is_positive_zero number && is_negative_zero highest then number
  else if (highest <? number)%float then number else highest.

(** [Math.min(...values)] and [Math.max(...values)]: the spread passes every
    value as an argument, so the call fails where the engine refuses that
    many; otherwise the values are folded from +Infinity and -Infinity. *)
Definition Math_min (host : JsHost) (values : list float) : outcome float :=
  match spread_error host (length values) with
  | Some e => Thrown e
  | None => Returned (fold_left min_step values infinity)
  end.

Definition Math_max (host : JsHost) (values : list float) : outcome float :=
  match spread_error host (length values) with
  | Some e => Thrown e
  | None => Returned (fold_left max_step values neg_infinity)
  end.

(** [Array.prototype.sort(cmp)].  The language requires a stable sort; the
    sorted array is then determined by [cmp], and a stable insertion sort
    computes it: [x] goes before the first [y] that it does not follow, that
    is, for which [cmp x y] is not above 0 (a NaN from [cmp] counts as 0). *)
Fixpoint sort_insert (cmp : float -> float -> float) (x : float) (sorted : list float)
  : list float :=
  match sorted with
  | [] => [x]
  | y :: rest =>
      if (zero <? cmp x y)%float then y :: sort_insert cmp x rest
      else x :: y :: rest
  end.

Fixpoint Array_sort (cmp : float -> float -> float) (a : list float) : list float :=
  match a with
  | [] => []
  | x :: rest => sort_insert cmp x (Array_sort cmp rest)
  end.

(** [s[i]] on an array of numbers; reads stay within bounds in the handlers
    (a read outside them gives [undefined], NaN in arithmetic). *)
Definition index (s : list float) (i : nat) : float := nth i s nan.

(** The [median] case:
    [const sorted = [...values].sort((a, b) => a - b);
     const mid = Math.floor(sorted.length / 2);
     result = sorted.length % 2 ? sorted[mid] : (sorted[mid - 1] + sorted[mid]) / 2] *)
Definition median (values : list float) : float :=
  let sorted := Array_sort (fun a b => (a - b)%float) values in
  let mid := (length sorted / 2)%nat in
  if negb (Nat.eqb (length sorted mod 2) 0)
  then index sorted mid
  else ((index sorted (mid - 1) + index sorted mid) / two)%float.

(** The [switch (operation)] of both renditions ([tools.ts], lines 46-56 and
    234-257); [None] is the [default:] case. *)
Definition statistic (host : JsHost) (operation : string) (values : list float)
  : outcome (option float) :=
  if String.eqb operation "mean" then
    Returned (Some (reduce_sum values / Number_of_nat (length values))%float)
  else if String.eqb operation "median" then Returned (Some (median values))
  else if String.eqb operation "sum" then Returned (Some (reduce_sum values))
  else if String.eqb operation "count" then Returned (Some (Number_of_nat (length values)))
  else if String.eqb operation "min" then
    match Math_min host values with
    | Returned lo => Returned (Some lo)
    | Thrown e => Thrown e
    end
  else if String.eqb operation "max" then
    match Math_max host values with
    | Returned hi => Returned (Some hi)
    | Thrown e => Thrown e
    end
  else Returned None.

(** [String.prototype.toUpperCase] and [toLowerCase], on ASCII letters.  The
    handlers upper-case one of the six operation names and compare a
    lower-cased line with [exit], [quit] and [help]; no letter outside ASCII
    lower-cases to a letter of these words, so the mapping of the other
    letters plays no part. *)
Definition upper_ascii (c : ascii) : ascii :=
  let n := nat_of_ascii c in
  if (97 <=? n)%nat && (n <=? 122)%nat then ascii_of_nat (n - 32) else c.

Definition lower_ascii (c : ascii) : ascii :=
  let n := nat_of_ascii c in
  if (65 <=? n)%nat && (n <=? 90)%nat then ascii_of_nat (n + 32) else c.

Fixpoint string_map (f : ascii -> ascii) (s : string) : string :=
  match s with
  | EmptyString => EmptyString
  | String c rest => String (f c) (string_map f rest)
  end.

Definition toUpperCase (s : string) : string := string_map upper_ascii s.
Definition toLowerCase (s : string) : string := string_map lower_ascii s.

(** *** The date arithmetic of [datetime]

    [const future = new Date(now); future.setDate(future.getDate() + days)] *)
Definition add_days (host : JsHost) (now : option Z) (days : Z) : option Z :=
  let future := now in
  setDate host future (option_map (fun d => d + days) (getDate host future)).

(** *** Reading a reply [{ data, error }] of the store *)

Definition is_zero (v : JsVal) : bool :=
  match v with
  | VNum q => Qeq_bool q 0
  | _ => false
  end.

(** [!data || data.length === 0] *)
Definition no_rows (data : JsVal) : bool :=
  negb (truthy data) ||
  match get_prop data "length" with
  | Returned len => is_zero len
  | Thrown _ => false
  end.

(** [a.map(f)] with [f] receiving element and index; a TypeError when the
    receiver is no array. *)
Definition Array_map (a : JsVal) (f : JsVal -> nat -> outcome string)
  : outcome (list string) :=
  match a with
  | VArr items =>
      fold_right
        (fun step acc =>
           match step, acc with
           | Returned s, Returned l => Returned (s :: l)
           | Thrown e, _ => Thrown e
           | _, Thrown e => Thrown e
           end)
        (Returned [])
        (imap (fun i x => f x i) items)
  | _ => Thrown (VError "data.map is not a function")
  end.

(** A request to the store or to the embedding client. *)
Definition remote {S : Type} (backend : Event -> S -> outcome JsVal * S) (request : Event)
  : M (World S) JsVal :=
  call_collab request (backend request).

(** [message] or [format] as a truth value: [undefined] and [''] are falsy. *)
Definition nonempty (s : option string) : bool :=
  match s with
  | Some v => negb (String.eqb v EmptyString)
  | None => false
  end.

(** [allowedTables.includes(table)] *)
Definition includes (l : list string) (x : string) : bool :=
  existsb (String.eqb x) l.

(** ** [tools.ts], class-based rendition (lines 89-367) *)
Module ClassTools.
Section Tools.
Variable host : JsHost.
Context {S : Type}.
Variable backend : Event -> S -> outcome JsVal * S.

(** [doc.similarity.toFixed(2)] *)
Definition similarity_toFixed (v : JsVal) : outcome string :=
  match v with
  | VNum q => Returned (Number_toFixed host q 2)
  | VUndefined => Thrown (type_error_read "undefined" "toFixed")
  | VNull => Thrown (type_error_read "null" "toFixed")
  | _ => Thrown (VError "doc.similarity.toFixed is not a function")
  end.

Definition format_result (doc : JsVal) (idx : nat) : outcome string :=
  match get_prop doc "content" with
  | Thrown e => Thrown e
  | Returned content =>
      match get_prop doc "similarity" with
      | Thrown e => Thrown e
      | Returned similarity =>
          match similarity_toFixed similarity with
          | Thrown e => Thrown e
          | Returned sim =>
              Returned ("Result " +:+ pretty (idx + 1)%nat +:+ ":" +:+ nl +:+
                        "Content: " +:+ ToString host content +:+ nl +:+
                        "Similarity: " +:+ sim +:+ nl)
          end
      end
  end.

(** [DocumentSearchTool._call], lines 133-162 *)
Definition DocumentSearchTool_call (input : DocumentSearchInput) : M (World S) JsVal :=
  try_catch
    (let limit := default 5%Q (search_limit input) in
     queryEmbedding <- remote backend (EmbedQuery (VStr (query input))) ;;
     reply <- remote backend
                (StoreRpc "match_documents"
                   [("query_embedding", queryEmbedding);
                    ("match_threshold", VNum (78 # 100));
                    ("match_count", VNum limit)]) ;;
     data <- lift_outcome (get_prop reply "data") ;;
     error <- lift_outcome (get_prop reply "error") ;;
     if truthy error then throw error
     else if no_rows data then ret (VStr "No relevant documents found for your query.")
     else (results <- lift_outcome (Array_map data format_result) ;;
           ret (VStr (String.concat nl results))))
    (fun error =>
       ret (VStr ("Error searching documents: " +:+ error_message error))).

Definition allowedTables : list string :=
  ["documents"; "agent_conversations"; "document_chunks"].

(** [DatabaseQueryTool._call], lines 179-208.  The builder calls
    [from], [select], [limit] and [eq] only assemble the query; the request
    goes out when the query is awaited. *)
Definition DatabaseQueryTool_call (input : DatabaseQueryInput) : M (World S) JsVal :=
  try_catch
    (let filters := default [] (filters input) in
     let limit := default 10%Q (query_limit input) in
     if negb (includes allowedTables (table input)) then
       ret (VStr ("Error: Table '" +:+ table input +:+ "' is not allowed. Allowed tables: "
                  +:+ String.concat ", " allowedTables))
     else
       (let query := [OpLimit (VNum limit)] in
        let query :=
          fold_left (fun q kv => (q ++ [OpEq (fst kv) (snd kv)])%list) filters query in
        reply <- remote backend (StoreSelect (table input) "*" query) ;;
        data <- lift_outcome (get_prop reply "data") ;;
        error <- lift_outcome (get_prop reply "error") ;;
        if truthy error then throw error
        else if no_rows data then ret (VStr "No data found matching your criteria.")
        else ret (VStr (JSON_stringify host data))))
    (fun error =>
       ret (VStr ("Error querying database: " +:+ error_message error))).

(** [DataAnalysisTool._call], lines 224-263 *)
Definition DataAnalysisTool_call (input : DataAnalysisInput) : M (World S) JsVal :=
  try_catch
    (if Nat.eqb (length (values input)) 0 then
       ret (VStr "Error: No values provided for analysis.")
     else
       (computed <- lift_outcome (statistic host (operation input) (values input)) ;;
        match computed with
        | None => ret (VStr "Error: Invalid operation.")
        | Some result =>
            ret (VStr (toUpperCase (operation input) +:+ ": "
                       +:+ print_double (fun q => Number_toFixed host q 2) result))
        end))
    (fun error =>
       ret (VStr ("Error performing analysis: " +:+ error_message error))).

(** [data?.messages] *)
Definition optional_messages (data : JsVal) : JsVal :=
  match get_prop data "messages" with
  | Returned v => v
  | Thrown _ => VUndefined
  end.

(** [ConversationMemoryTool._call], lines 280-316 *)
Definition ConversationMemoryTool_call (input : ConversationMemoryInput)
  : M (World S) JsVal :=
  try_catch
    (if String.eqb (memory_action input) "save" then
       (if negb (nonempty (message input)) then
          ret (VStr "Error: Message is required for save action.")
        else
          (now <- new_Date ;;
           updated_at <- lift_outcome (toISOString host now) ;;
           reply <- remote backend
                      (StoreUpsert "agent_conversations"
                         [("id", VStr (conversationId input));
                          ("messages", VStr (default EmptyString (message input)));
                          ("updated_at", VStr updated_at)]) ;;
           error <- lift_outcome (get_prop reply "error") ;;
           if truthy error then throw error
           else ret (VStr "Conversation saved successfully.")))
     else if String.eqb (memory_action input) "retrieve" then
       (reply <- remote backend
                   (StoreSelect "agent_conversations" "messages"
                      [OpEq "id" (VStr (conversationId input)); OpSingle]) ;;
        data <- lift_outcome (get_prop reply "data") ;;
        error <- lift_outcome (get_prop reply "error") ;;
        if truthy error then throw error
        else
          let messages := optional_messages data in
          ret (if truthy messages then messages
               else VStr "No conversation history found."))
     else ret (VStr "Error: Invalid action."))
    (fun error =>
       ret (VStr ("Error with conversation memory: " +:+ error_message error))).

(** [DateTimeTool._call], lines 333-357 *)
Definition DateTimeTool_call (input : DateTimeInput) : M (World S) JsVal :=
  try_catch
    (now <- new_Date ;;
     if String.eqb (action input) "current" then
       (iso <- lift_outcome (toISOString host now) ;;
        ret (VStr ("Current date and time: " +:+ iso)))
     else
       match String.eqb (action input) "add_days", days input with
       | true, Some d =>
           let future := add_days host now d in
           iso <- lift_outcome (toISOString host future) ;;
           ret (VStr ("Date after " +:+ pretty d +:+ " days: " +:+ iso))
       | _, _ =>
           if String.eqb (action input) "format" && nonempty (format input) then
             ret (VStr ("Formatted date: "
                        +:+ toLocaleWith (Date_toLocaleDateString host) now +:+ " "
                        +:+ toLocaleWith (Date_toLocaleTimeString host) now))
           else ret (VStr "Error: Invalid action or missing parameters.")
       end)
    (fun error =>
       ret (VStr ("Error with datetime: " +:+ error_message error))).

Definition DocumentSearchTool : Tool S :=
  mkTool S "document_search"
    "Search through company documents and knowledge base using semantic search. Use this when you need to find specific information from documents."
    DocumentSearchInput DocumentSearchTool_call.

Definition DatabaseQueryTool : Tool S :=
  mkTool S "database_query"
    "Query the database for structured data like user records, transactions, or metrics. Only read operations are allowed."
    DatabaseQueryInput DatabaseQueryTool_call.

Definition DataAnalysisTool : Tool S :=
  mkTool S "data_analysis"
    "Perform statistical analysis on data: calculate mean, median, sum, trends, etc."
    DataAnalysisInput DataAnalysisTool_call.

Definition ConversationMemoryTool : Tool S :=
  mkTool S "conversation_memory"
    "Save and retrieve conversation history for maintaining context across sessions."
    ConversationMemoryInput ConversationMemoryTool_call.

Definition DateTimeTool : Tool S :=
  mkTool S "datetime"
    "Get current date and time, or perform date calculations."
    DateTimeInput DateTimeTool_call.

(** lines 361-367 *)
Definition allTools : list (Tool S) :=
  [DocumentSearchTool; DatabaseQueryTool; DataAnalysisTool;
   ConversationMemoryTool; DateTimeTool].
End Tools.
End ClassTools.

(** ** [tools.ts], object-literal rendition (lines 1-87)

    Handlers take [input: any]; [None] stands for a missing argument object,
    which [input || {}] turns into one without fields. *)
Module RuntimeTools.
Section Tools.
Variable host : JsHost.
Context {S : Type}.
Variable backend : Event -> S -> outcome JsVal * S.

(** The module-level clients: [null] unless the environment names them
    (lines 13-17). *)
Definition supabase (w : World S) : bool :=
  env_set "SUPABASE_URL" w && env_set "SUPABASE_KEY" w.

Definition embeddings (w : World S) : bool := env_set "OPENAI_API_KEY" w.

Definition format_result (d : JsVal) (i : nat) : outcome string :=
  match get_prop d "content" with
  | Thrown e => Thrown e
  | Returned content =>
      Returned ("Result " +:+ pretty (i + 1)%nat +:+ ": " +:+ ToString host content)
  end.

(** [DocumentSearchTool.call], lines 23-35 *)
Definition DocumentSearchTool_call (input : option DocumentSearchInput)
  : M (World S) JsVal :=
  fun w =>
    if negb (supabase w) || negb (embeddings w) then
      ret (VStr "Document search not configured.") w
    else
      (let query := match input with
                    | Some i => VStr (query i)
                    | None => VUndefined
                    end in
       let limit := default 5%Q (input ≫= search_limit) in
       queryEmbedding <- remote backend (EmbedQuery query) ;;
       reply <- remote backend
                  (StoreRpc "match_documents"
                     [("query_embedding", queryEmbedding);
                      ("match_threshold", VNum (78 # 100));
                      ("match_count", VNum limit)]) ;;
       data <- lift_outcome (get_prop reply "data") ;;
       error <- lift_outcome (get_prop reply "error") ;;
       if truthy error then throw error
       else if no_rows data then ret (VStr "No relevant documents found.")
       else (results <- lift_outcome (Array_map data format_result) ;;
             ret (VStr (String.concat nl results)))) w.

(** [DataAnalysisTool.call], lines 42-58; [None] values are not an array. *)
Definition DataAnalysisTool_call (input : option DataAnalysisInput)
  : M (World S) JsVal :=
  match input with
  | None => ret (VStr "No values provided.")
  | Some i =>
      if Nat.eqb (length (values i)) 0 then ret (VStr "No values provided.")
      else
        (computed <- lift_outcome (statistic host (operation i) (values i)) ;;
         match computed with
         | None => ret (VStr "Invalid operation.")
         | Some result =>
             ret (VStr (operation i +:+ ": "
                        +:+ print_double (Number_toString host) result))
         end)
  end.

(** [DateTimeTool.call], lines 65-71 *)
Definition DateTimeTool_call (input : option DateTimeInput) : M (World S) JsVal :=
  now <- new_Date ;;
  let action := option_map action input in
  let days := input ≫= days in
  match action with
  | Some a =>
      if String.eqb a "current" then
        (iso <- lift_outcome (toISOString host now) ;;
         ret (VStr ("Current date and time: " +:+ iso)))
      else
        match String.eqb a "add_days", days with
        | true, Some d =>
            let future := add_days host now d in
            iso <- lift_outcome (toISOString host future) ;;
            ret (VStr ("Date after " +:+ pretty d +:+ " days: " +:+ iso))
        | _, _ =>
            ret (VStr ("Formatted date: "
                       +:+ toLocaleWith (Date_toLocaleString host) now))
        end
  | None =>
      ret (VStr ("Formatted date: " +:+ toLocaleWith (Date_toLocaleString host) now))
  end.

(** [ConversationMemoryTool.call], lines 78-82 *)
Definition ConversationMemoryTool_call (input : option ConversationMemoryInput)
  : M (World S) JsVal :=
  match option_map memory_action input with
  | Some a =>
      if String.eqb a "save" then ret (VStr "Conversation saved (stub).")
      else ret (VStr "No conversation history (stub).")
  | None => ret (VStr "No conversation history (stub).")
  end.

Definition DocumentSearchTool : Tool S :=
  mkTool S "document_search"
    "Search company documents using semantic search (Supabase)"
    (option DocumentSearchInput) DocumentSearchTool_call.

Definition DataAnalysisTool : Tool S :=
  mkTool S "data_analysis"
    "Perform basic stats: mean, median, sum, min, max, count"
    (option DataAnalysisInput) DataAnalysisTool_call.

Definition DateTimeTool : Tool S :=
  mkTool S "datetime"
    "Get the current date/time or add days"
    (option DateTimeInput) DateTimeTool_call.

Definition ConversationMemoryTool : Tool S :=
  mkTool S "conversation_memory"
    "Save or retrieve conversation messages (stub)"
    (option ConversationMemoryInput) ConversationMemoryTool_call.

(** line 85 *)
Definition allTools : list (Tool S) :=
  [DocumentSearchTool; DataAnalysisTool; DateTimeTool; ConversationMemoryTool].
End Tools.
End RuntimeTools.

(** ** [agent.ts] *)

Record AgentConfig : Type := mkAgentConfig {
  temperature : option Q;
  maxTokens : option Q;
  modelName : option string;
  verbose : option bool;
  maxIterations : option Q
}.

(** The executor, as far as this repository uses it: one entry point,
    [invoke], which answers a request from its private state and may throw. *)
Record AgentExecutor (S : Type) : Type := mkExecutor {
  invoke_fn : JsVal -> S -> outcome JsVal * S
}.
Arguments mkExecutor {S} _.
Arguments invoke_fn {S} _ _ _.

(** What [runAgent] returns.  [duration] and [metadata] exist on the success
    object only, [error] on the failure object only. *)
Record ExecutionResult : Type := mkResult {
  success : bool;
  output : JsVal;
  error : option string;
  duration : option Z;
  metadata : option JsVal
}.

Definition fallback_output : string :=
  "I encountered an error processing your request. Please try again or rephrase your question.".

Definition rule (n : nat) : string := str_repeat "━" n.

Section Agent.
Variable host : JsHost.
Context {S : Type}.
(** What LangChain builds from a specification; construction may throw. *)
Variable langchain : ExecutorSpec -> outcome (AgentExecutor S).
(** The names of the imported [allTools]. *)
Variable tools : list string.

(** [createProductionAgent], lines 35-92 *)
Definition createProductionAgent (config : AgentConfig)
  : M (World S) (AgentExecutor S) :=
  let temperature := default (7 # 10)%Q (temperature config) in
  let maxTokens := default 2000%Q (maxTokens config) in
  let modelName := default "gpt-4" (modelName config) in
  let verbose := default true (verbose config) in
  let maxIterations := default 5%Q (maxIterations config) in
  key <- getenv "OPENAI_API_KEY" ;;
  if negb (nonempty key) then
    throw (VError "OPENAI_API_KEY environment variable is required")
  else
    (now <- new_Date ;;
     iso <- lift_outcome (toISOString host now) ;;
     let systemPrompt :=
       "You are a professional AI assistant powered by advanced language models and equipped with specialized tools."
       +:+ nl +:+ "Current datetime: " +:+ iso in
     let spec :=
       mkSpec modelName temperature maxTokens (default EmptyString key) systemPrompt
              "chat_history" tools maxIterations true verbose in
     emit (ConstructExecutor spec) ;;;
     lift_outcome (langchain spec)).

(** The argument of [executor.invoke]: [{ input, ...metadata }] *)
Definition invoke_args (input : string) (metadata : option (list (string * JsVal)))
  : JsVal :=
  VObj (spread [("input", VStr input)] (default [] metadata)).

Definition invoke (executor : AgentExecutor S) (args : JsVal) : M (World S) JsVal :=
  call_collab (ExecutorInvoke args) (invoke_fn executor args).

(** [runAgent], lines 97-134 *)
Definition runAgent (executor : AgentExecutor S) (input : string)
    (metadata : option (list (string * JsVal))) : M (World S) ExecutionResult :=
  try_catch
    (console_log [VStr (nl +:+ "🤖 Processing: " +:+ input)] ;;;
     console_log [VStr (rule 60)] ;;;
     startTime <- Date_now ;;
     result <- invoke executor (invoke_args input metadata) ;;
     endTime <- Date_now ;;
     let duration := endTime - startTime in
     console_log [VStr (nl +:+ "✅ Response generated in");
                  VNum (inject_Z duration); VStr "ms"] ;;;
     console_log [VStr (rule 60)] ;;;
     output <- lift_outcome (get_prop result "output") ;;
     ret (mkResult true output None (Some duration) (Some result)))
    (fun error =>
       console_error [VStr (nl +:+ "❌ Agent Error:"); error] ;;;
       ret (mkResult false (VStr fallback_output) (Some (error_message error))
                     None None)).

(** [queries.entries()] *)
Definition entries {A} (l : list A) : list (nat * A) := imap (fun i x => (i, x)) l.

(** [batchProcess], lines 139-156 *)
Definition batchProcess (executor : AgentExecutor S) (queries : list string)
  : M (World S) (list ExecutionResult) :=
  console_log [VStr (nl +:+ "📦 Batch processing " +:+ pretty (length queries)
                     +:+ " queries...")] ;;;
  results <-
    for_of (entries queries)
      (fun '(index, query) results =>
         console_log [VStr (nl +:+ "[" +:+ pretty (index + 1)%nat +:+ "/"
                            +:+ pretty (length queries) +:+ "] Processing...")] ;;;
         result <- runAgent executor query None ;;
         ret (results ++ [result])%list)
      [] ;;
  console_log [VStr (nl +:+ "✅ Batch processing complete!" +:+ nl)] ;;;
  ret results.
End Agent.

(** ** [index.ts] *)

(** White space, as [String.prototype.trim] strips it: the WhiteSpace and
    LineTerminator code points of ECMA-262 (tab, line feed, vertical tab,
    form feed, carriage return, space, U+00A0, U+1680, U+2000 to U+200A,
    U+2028, U+2029, U+202F, U+205F, U+3000, U+FEFF).  Strings are held in
    UTF-8, so a white-space code point is one, two or three bytes. *)
Definition is_space (c : ascii) : bool :=
  let n := nat_of_ascii c in
  Nat.eqb n 32 || ((9 <=? n)%nat && (n <=? 13)%nat).

(** U+00A0 is C2 A0. *)
Definition is_space2 (c1 c2 : ascii) : bool :=
  Nat.eqb (nat_of_ascii c1) 194 && Nat.eqb (nat_of_ascii c2) 160.

(** U+1680 is E1 9A 80; U+2000 to U+200A, U+2028, U+2029 and U+202F are
    E2 80 80 to E2 80 8A, E2 80 A8, E2 80 A9 and E2 80 AF; U+205F is
    E2 81 9F; U+3000 is E3 80 80; U+FEFF is EF BB BF. *)
Definition is_space3 (c1 c2 c3 : ascii) : bool :=
  let n1 := nat_of_ascii c1 in
  let n2 := nat_of_ascii c2 in
  let n3 := nat_of_ascii c3 in
  (Nat.eqb n1 225 && Nat.eqb n2 154 && Nat.eqb n3 128)
  || (Nat.eqb n1 226 && Nat.eqb n2 128
      && (((128 <=? n3)%nat && (n3 <=? 138)%nat)
          || Nat.eqb n3 168 || Nat.eqb n3 169 || Nat.eqb n3 175))
  || (Nat.eqb n1 226 && Nat.eqb n2 129 && Nat.eqb n3 159)
  || (Nat.eqb n1 227 && Nat.eqb n2 128 && Nat.eqb n3 128)
  || (Nat.eqb n1 239 && Nat.eqb n2 187 && Nat.eqb n3 191).

(** [trimStart]: leading white-space code points are dropped. *)
Fixpoint trimStart (s : string) : string :=
  match s with
  | EmptyString => EmptyString
  | String c1 rest1 =>
      if is_space c1 then trimStart rest1
      else
        match rest1 with
        | EmptyString => s
        | String c2 rest2 =>
            if is_space2 c1 c2 then trimStart rest2
            else
              match rest2 with
              | EmptyString => s
              | String c3 rest3 =>
                  if is_space3 c1 c2 c3 then trimStart rest3 else s
              end
        end
  end.

(** Every code point is white space (in particular, the empty string). *)
Fixpoint blank (s : string) : bool :=
  match s with
  | EmptyString => true
  | String c1 rest1 =>
      if is_space c1 then blank rest1
      else
        match rest1 with
        | EmptyString => false
        | String c2 rest2 =>
            if is_space2 c1 c2 then blank rest2
            else
              match rest2 with
              | EmptyString => false
              | String c3 rest3 => is_space3 c1 c2 c3 && blank rest3
              end
        end
  end.

(** [trimEnd]: the string is cut where only white space follows.  (No white
    space starts at a continuation byte, so the cut falls between two code
    points.) *)
Fixpoint trimEnd (s : string) : string :=
  match s with
  | EmptyString => EmptyString
  | String c rest => if blank s then EmptyString else String c (trimEnd rest)
  end.

Definition trim (s : string) : string := trimEnd (trimStart s).

Definition requiredEnvVars : list string :=
  ["OPENAI_API_KEY"; "SUPABASE_URL"; "SUPABASE_KEY"; "LANGSMITH_API_KEY"].

Definition demoQueries : list string :=
  ["What is the current date and time?";
   "Calculate the mean of these numbers: 10, 20, 30, 40, 50";
   "Search for documents about " +:+ dq +:+ "AI and machine learning" +:+ dq].

Definition batchQueries : list string :=
  ["What tools do you have available?";
   "Calculate the sum of 100, 200, and 300";
   "Get the current datetime"].

(** [`${v}`] of an optional string *)
Definition show_optional (v : option string) : string := default "undefined" v.

(** [`${result.duration}`] *)
Definition show_duration (d : option Z) : string :=
  match d with
  | Some n => pretty n
  | None => "undefined"
  end.

Section Index.
Variable host : JsHost.
Context {S : Type}.
Variable langchain : ExecutorSpec -> outcome (AgentExecutor S).
Variable tools : list string.

(** [requiredEnvVars.filter(varName => !process.env[varName])] *)
Definition missing_env_vars : M (World S) (list string) :=
  fun w => Ret (List.filter (fun varName => negb (env_set varName w)) requiredEnvVars) w.

(** [runDemoMode], lines 82-109 *)
Definition runDemoMode (agent : AgentExecutor S) : M (World S) unit :=
  console_log [VStr ("🎯 Running Demo Mode..." +:+ nl)] ;;;
  console_log [VStr (rule 70)] ;;;
  for_of demoQueries
    (fun query _ =>
       result <- runAgent agent query None ;;
       (if success result then
          console_log [VStr (nl +:+ "💬 Response:"); output result] ;;;
          console_log [VStr ("⏱️  Duration: " +:+ show_duration (duration result) +:+ "ms")]
        else
          console_log [VStr (nl +:+ "❌ Error:");
                       match error result with
                       | Some m => VStr m
                       | None => VUndefined
                       end]) ;;;
       console_log [VStr (nl +:+ rule 70 +:+ nl)] ;;;
       emit (SetTimeout 1000))
    tt ;;;
  console_log [VStr (nl +:+ "✅ Demo completed!" +:+ nl)].

(** [runBatchMode], lines 114-136 *)
Definition runBatchMode (agent : AgentExecutor S) : M (World S) unit :=
  console_log [VStr ("📦 Running Batch Mode..." +:+ nl)] ;;;
  results <- batchProcess agent batchQueries ;;
  console_log [VStr (nl +:+ "📊 Batch Results Summary:")] ;;;
  console_log [VStr (rule 70)] ;;;
  for_of (entries results)
    (fun '(idx, result) _ =>
       console_log [VStr (nl +:+ pretty (idx + 1)%nat +:+ ". "
                          +:+ (if success result then "✅ Success" else "❌ Failed"))] ;;;
       if success result then
         console_log [VStr ("   Duration: " +:+ show_duration (duration result) +:+ "ms")]
       else ret tt)
    tt ;;;
  console_log [VStr nl].

Definition help_lines : list string :=
  [nl +:+ "🛠️  Available Tools:";
   "  1. Document Search - Find information in documents";
   "  2. Database Queries - Query structured data";
   "  3. Data Analysis - Calculate statistics";
   "  4. Conversation Memory - Remember chat history";
   "  5. DateTime - Get current time and date info" +:+ nl].

(** [askQuestion], lines 155-188.  [lines] are the answers the reader
    delivers to the successive prompts, one entry per answered prompt (a
    line typed while no prompt is pending is dropped by [readline] and is
    not among them); once they are used up the last prompt stays
    unanswered. *)
Fixpoint askQuestion (agent : AgentExecutor S) (lines : list string)
  : M (World S) unit :=
  emit (Question "You: ") ;;;
  match lines with
  | [] => ret tt
  | input :: rest =>
      let query := trim input in
      if String.eqb query EmptyString then askQuestion agent rest
      else if String.eqb (toLowerCase query) "exit"
              || String.eqb (toLowerCase query) "quit" then
        console_log [VStr (nl +:+ "👋 Goodbye! Thanks for using the agent." +:+ nl)] ;;;
        emit RlClose ;;;
        process_exit 0
      else if String.eqb (toLowerCase query) "help" then
        for_of help_lines (fun line _ => console_log [VStr line]) tt ;;;
        askQuestion agent rest
      else
        (result <- runAgent agent query None ;;
         console_log [VStr (nl +:+ "Agent:"); output result] ;;;
         console_log [VStr (nl +:+ rule 70 +:+ nl)] ;;;
         askQuestion agent rest)
  end.

(** [runInteractiveMode], lines 141-191.  The callbacks of [rl.question] run
    after [main] has returned; here they run in place, which orders the
    events the same way, since [main] does nothing after this call. *)
Definition runInteractiveMode (agent : AgentExecutor S) (lines : list string)
  : M (World S) unit :=
  console_log [VStr "💬 Interactive Mode - Chat with your AI Agent!"] ;;;
  console_log [VStr (rule 70)] ;;;
  console_log [VStr (nl +:+ "Commands:")] ;;;
  console_log [VStr "  - Type your question and press Enter"] ;;;
  console_log [VStr ("  - Type " +:+ dq +:+ "exit" +:+ dq +:+ " or " +:+ dq +:+ "quit" +:+ dq +:+ " to stop")] ;;;
  console_log [VStr ("  - Type " +:+ dq +:+ "help" +:+ dq +:+ " to see available tools")] ;;;
  console_log [VStr (nl +:+ rule 70 +:+ nl)] ;;;
  askQuestion agent lines.

(** [main], lines 23-77 *)
Definition main (lines : list string) : M (World S) unit :=
  console_log [VStr (nl +:+ "🚀 LangChain Production Agent Starting...")] ;;;
  console_log [VStr (rule 70)] ;;;
  try_catch
    (missingVars <- missing_env_vars ;;
     (if (0 <? length missingVars)%nat then
        console_error [VStr (nl +:+ "❌ Missing required environment variables:")] ;;;
        for_of missingVars
          (fun varName _ => console_error [VStr ("   - " +:+ varName)]) tt ;;;
        console_error [VStr (nl +:+ "Please check your .env file and add the missing keys.")] ;;;
        console_error [VStr ("See README.md for instructions on getting API keys." +:+ nl)] ;;;
        process_exit 1
      else ret tt) ;;;
     console_log [VStr "✅ Environment variables loaded"] ;;;
     console_log [VStr "✅ LangSmith tracing enabled"] ;;;
     project <- getenv "LANGSMITH_PROJECT" ;;
     console_log [VStr ("✅ Project: " +:+ show_optional project)] ;;;
     console_log [VStr (rule 70)] ;;;
     console_log [VStr (nl +:+ "🤖 Initializing AI Agent...")] ;;;
     agent <- createProductionAgent host langchain tools
                (mkAgentConfig (Some (7 # 10)%Q) None (Some "gpt-4") (Some true) (Some 5%Q)) ;;
     console_log [VStr ("✅ Agent initialized successfully!" +:+ nl)] ;;;
     mode <- getenv "AGENT_MODE" ;;
     let mode := if nonempty mode then default EmptyString mode else "interactive" in
     if String.eqb mode "demo" then runDemoMode agent
     else if String.eqb mode "batch" then runBatchMode agent
     else runInteractiveMode agent lines)
    (fun error =>
       console_error [VStr (nl +:+ "❌ Fatal Error:"); error] ;;;
       console_error [VStr (nl +:+ "Please check your configuration and try again." +:+ nl)] ;;;
       process_exit 1).
End Index.

(** ** Sample hosts and collaborators, for the closed examples *)

Definition pad (width : nat) (s : string) : string :=
  str_repeat "0" (width - String.length s) +:+ s.

(** Fixed-point notation with [digits] decimals, ties away from zero. *)
Definition fixed_decimal (q : Q) (digits : nat) : string :=
  let scale := 10 ^ Z.of_nat digits in
  let n := Qfloor (Qabs q * inject_Z scale + (1 # 2))%Q in
  (if Qle_bool 0 q then EmptyString else "-")
  +:+ pretty (n / scale)
  +:+ (if Nat.eqb digits 0 then EmptyString else "." +:+ pad digits (pretty (n mod scale))).

(** Whole numbers in decimal; other numbers with six decimals. *)
Definition plain_number (q : Q) : string :=
  if Qeq_bool q (inject_Z (Qfloor q)) then pretty (Qfloor q) else fixed_decimal q 6.

(** The proleptic Gregorian calendar: year, month (1-12) and day of the month
    (1-31) of a day number. *)
Definition civil (day : Z) : Z * Z * Z :=
  let z := day + 719468 in
  let era := z / 146097 in
  let doe := z - era * 146097 in
  let yoe := (doe - doe / 1460 + doe / 36524 - doe / 146096) / 365 in
  let doy := doe - (365 * yoe + yoe / 4 - yoe / 100) in
  let mp := (5 * doy + 2) / 153 in
  let d := doy - (153 * mp + 2) / 5 + 1 in
  let m := if mp <? 10 then mp + 3 else mp - 9 in
  let y := yoe + era * 400 + (if m <=? 2 then 1 else 0) in
  (y, m, d).

Definition gregorian_month_start (day : Z) : Z :=
  let '(_, _, d) := civil day in day - (d - 1).

(** [YYYY-MM-DDTHH:mm:ss.sssZ] *)
Definition iso_string (t : Z) : string :=
  let '(y, m, d) := civil (Day t) in
  let ms := TimeWithinDay t in
  (if (0 <=? y) && (y <=? 9999) then pad 4 (pretty y)
   else (if y <? 0 then "-" else "+") +:+ pad 6 (pretty (Z.abs y)))
  +:+ "-" +:+ pad 2 (pretty m) +:+ "-" +:+ pad 2 (pretty d)
  +:+ "T" +:+ pad 2 (pretty (ms / 3600000))
  +:+ ":" +:+ pad 2 (pretty (ms / 60000 mod 60))
  +:+ ":" +:+ pad 2 (pretty (ms / 1000 mod 60))
  +:+ "." +:+ pad 3 (pretty (ms mod 1000)) +:+ "Z".

Definition msPerHour : Z := 3600000.

(** An engine that refuses to spread more than 65535 arguments, with V8's
    message. *)
Definition stack_limit (n : nat) : option JsVal :=
  if Z.of_nat n <=? 65535 then None
  else Some (VError "Maximum call stack size exceeded").

(** A host in a zone of constant offset (in hours). *)
Definition fixed_zone_host (hours : Z) : JsHost :=
  mkHost plain_number fixed_decimal (fun _ => "[...]")
         iso_string iso_string iso_string iso_string
         (fun _ => hours * msPerHour) (fun _ => hours * msPerHour)
         gregorian_month_start stack_limit.

Definition utc_host : JsHost := fixed_zone_host 0.

(** The two offset transitions of America/New_York in 2025:
    2025-03-09T07:00:00Z (02:00 EST becomes 03:00 EDT) and
    2025-11-02T06:00:00Z (02:00 EDT becomes 01:00 EST). *)
Definition dst_start_2025 : Z := 1741503600000.
Definition dst_end_2025 : Z := 1762063200000.

(** A host in America/New_York, valid for instants of 2025.  A local time
    that is skipped or repeated by a transition is read with the offset in
    force before the transition (ECMA-262, LocalTZA). *)
Definition new_york_host : JsHost :=
  mkHost plain_number fixed_decimal (fun _ => "[...]")
         iso_string iso_string iso_string iso_string
         (fun t => if t <? dst_start_2025 then -5 * msPerHour
                   else if t <? dst_end_2025 then -4 * msPerHour
                   else -5 * msPerHour)
         (fun tl => if tl <? dst_start_2025 - 4 * msPerHour then -5 * msPerHour
                    else if tl <? dst_end_2025 - 4 * msPerHour then -4 * msPerHour
                    else -5 * msPerHour)
         gregorian_month_start stack_limit.

(** An executor whose invocation always fails. *)
Definition throwing_executor : AgentExecutor unit :=
  mkExecutor (fun _ s => (Thrown (VError "model unavailable"), s)).

(** An executor that answers with its input. *)
Definition echo_executor : AgentExecutor unit :=
  mkExecutor (fun args s =>
    match get_prop args "input" with
    | Returned v => (Returned (VObj [("output", v)]), s)
    | Thrown e => (Thrown e, s)
    end).

(** An executor with memory: it fails on its second invocation only. *)
Definition flaky_executor : AgentExecutor nat :=
  mkExecutor (fun args n =>
    (if Nat.eqb n 1 then Thrown (VError "iteration limit")
     else Returned (VObj [("output", VStr "ok")]), S n)).

(** A store whose remote procedure reports an error. *)
Definition store_error : JsVal :=
  VObj [("message", VStr "function match_documents does not exist");
        ("code", VStr "42883")].

Definition failing_backend (request : Event) (s : unit) : outcome JsVal * unit :=
  match request with
  | EmbedQuery _ => (Returned (VArr [VNum (1 # 10); VNum (2 # 10)]), s)
  | _ => (Returned (VObj [("data", VNull); ("error", store_error)]), s)
  end.

Definition full_env : gmap string string :=
  list_to_map [("OPENAI_API_KEY", "sk-test"); ("SUPABASE_URL", "https://example.supabase.co");
               ("SUPABASE_KEY", "anon"); ("LANGSMITH_API_KEY", "ls-test")].

(** A world whose clock reads 2025-11-02T06:30:00Z. *)
Definition repeated_hour_world : World unit :=
  mkWorld [] ∅ (fun _ => 1762065000000) 0 ().

(** A world whose wall clock is set back by a second between two readings. *)
Definition clock_set_back_world : World unit :=
  mkWorld [] ∅ (fun n => 1749988800000 - 1000 * Z.of_nat n) 0 ().

(** A clock that advances one second per reading from 2025-06-15T12:00:00Z. *)
Definition sample_clock (n : nat) : Z := 1749988800000 + 1000 * Z.of_nat n.

Definition sample_world {S : Type} (environment : gmap string string) (s : S) : World S :=
  mkWorld [] environment sample_clock 0 s.

(** ** Observations on traces *)

(** The arguments of the executor invocations, in order. *)
Definition invocations (tr : list Event) : list JsVal :=
  omap (fun e => match e with
                 | ExecutorInvoke args => Some args
                 | _ => None
                 end) tr.

Definition is_console (e : Event) : bool :=
  match e with
  | ConsoleLog _ | ConsoleError _ => true
  | _ => false
  end.

(** The requests that reach the store or the embedding client. *)
Definition is_remote (e : Event) : bool :=
  match e with
  | EmbedQuery _ | StoreRpc _ _ | StoreSelect _ _ _ | StoreUpsert _ _ => true
  | _ => false
  end.

(** A sequence of numbers proper: no NaN among them. *)
Definition numbers (v : list float) : Prop := Forall (fun x => is_nan x = false) v.

(** The order of the numbers, as [<=] tests it. *)
Definition at_most (a b : float) : Prop := (a <=? b)%float = true.

(** The rank of a double in the order of the numbers: the comparisons of two
    numbers are those of their ranks (NaN has none; both zeros have rank 0). *)
Definition SFord (x : spec_float) : Z :=
  match x with
  | S754_nan => 0
  | S754_zero _ => 0
  | S754_infinity s => cond_Zopp s (2099 * 2 ^ 53)
  | S754_finite s m e => cond_Zopp s ((e + 1074) * 2 ^ 53 + Z.pos m)
  end.

Definition ord (x : float) : Z := SFord (Prim2SF x).

(** The insertion of the sort, deciding by rank: on numbers it is the
    insertion that the comparator [a - b] decides. *)
Fixpoint insert_by_rank (x : float) (sorted : list float) : list float :=
  match sorted with
  | [] => [x]
  | y :: rest =>
      if ord y <? ord x then y :: insert_by_rank x rest else x :: y :: rest
  end.

Fixpoint sort_by_rank (a : list float) : list float :=
  match a with
  | [] => []
  | x :: rest => insert_by_rank x (sort_by_rank rest)
  end.

Definition rank_le (a b : float) : Prop := ord a <= ord b.
Definition same_rank (a b : float) : Prop := ord a = ord b.

(** Two doubles that print alike up to the sign of zero: equal numbers, or
    NaN on both sides. *)
Definition same_double (x y : float) : Prop :=
  (x =? y)%float = true \/ (is_nan x = true /\ is_nan y = true).

(** Two doubles that are one, or the two zeros. *)
Definition alike (x y : spec_float) : Prop :=
  x = y \/ exists s s', x = S754_zero s /\ y = S754_zero s'.

(** A double of a given sign that is neither zero nor NaN. *)
Definition signed (s : bool) (x : spec_float) : Prop :=
  (exists m e, x = S754_finite s m e) \/ x = S754_infinity s.

(** The world after some more events, a number of clock readings, and a
    change of the collaborators' state. *)
Definition advance {S : Type} (events : list Event) (readings : nat) (s : S) (w : World S)
  : World S :=
  mkWorld (trace w ++ events) (env w) (clock w) (readings + ticks w) s.

(** The failure object of [runAgent]. *)
Definition failure_result (e : JsVal) : ExecutionResult :=
  mkResult false (VStr fallback_output) (Some (error_message e)) None None.

(** The console lines of [runAgent] and [batchProcess]. *)
Definition processing_lines (input : string) : list Event :=
  [ConsoleLog [VStr (nl +:+ "🤖 Processing: " +:+ input)]; ConsoleLog [VStr (rule 60)]].

Definition generated_lines (d : Z) : list Event :=
  [ConsoleLog [VStr (nl +:+ "✅ Response generated in"); VNum (inject_Z d); VStr "ms"];
   ConsoleLog [VStr (rule 60)]].

Definition agent_error_line (e : JsVal) : Event :=
  ConsoleError [VStr (nl +:+ "❌ Agent Error:"); e].

Definition progress_line (index total : nat) : Event :=
  ConsoleLog [VStr (nl +:+ "[" +:+ pretty (index + 1)%nat +:+ "/" +:+ pretty total
                    +:+ "] Processing...")].

(** The batch, in the specification's words: the wrapper is applied once per
    query, one after the other in input order, each turn starting in the
    world the previous one left; every turn contributes its result. *)
Inductive batch_turns {S : Type} (executor : AgentExecutor S) (total : nat)
  : nat -> list string -> World S -> list ExecutionResult -> World S -> Prop :=
  | batch_done (i : nat) (w : World S) :
      batch_turns executor total i [] w [] w
  | batch_turn (i : nat) (q : string) (qs : list string) (w w' w'' : World S)
      (r : ExecutionResult) (rs : list ExecutionResult) :
      runAgent executor q None (advance [progress_line i total] 0 (collab w) w) = Ret r w' ->
      batch_turns executor total (Datatypes.S i) qs w' rs w'' ->
      batch_turns executor total i (q :: qs) w (r :: rs) w''.

(** The console lines of [main] before it gives up. *)
Definition startup_lines : list Event :=
  [ConsoleLog [VStr (nl +:+ "🚀 LangChain Production Agent Starting...")];
   ConsoleLog [VStr (rule 70)]].

Definition missing_configuration_lines (missingVars : list string) : list Event :=
  ConsoleError [VStr (nl +:+ "❌ Missing required environment variables:")]
  :: map (fun varName => ConsoleError [VStr ("   - " +:+ varName)]) missingVars
  ++ [ConsoleError [VStr (nl +:+ "Please check your .env file and add the missing keys.")];
      ConsoleError [VStr ("See README.md for instructions on getting API keys." +:+ nl)]].

Definition env_without_openai_key : gmap string string :=
  list_to_map [("SUPABASE_URL", "https://example.supabase.co");
               ("SUPABASE_KEY", "anon"); ("LANGSMITH_API_KEY", "ls-test")].

(** The lines of a session that reach the executor: blank lines and [help]
    are skipped, [exit] and [quit] end the session. *)
Fixpoint session_queries (lines : list string) : list string :=
  match lines with
  | [] => []
  | input :: rest =>
      let query := trim input in
      if String.eqb query EmptyString then session_queries rest
      else if String.eqb (toLowerCase query) "exit"
              || String.eqb (toLowerCase query) "quit" then []
      else if String.eqb (toLowerCase query) "help" then session_queries rest
      else query :: session_queries rest
  end.

(** A computation that never terminates the process. *)
Definition never_exits {W A : Type} (m : M W A) : Prop :=
  forall w c w', m w <> Exit c w'.

(** The world after one reading of the clock. *)
Definition tick {S : Type} (w : World S) : World S :=
  mkWorld (trace w) (env w) (clock w) (Datatypes.S (ticks w)) (collab w).

(** ** Further sample collaborators and observations *)

(** An executor whose invocation resolves to [undefined]. *)
Definition silent_executor : AgentExecutor unit :=
  mkExecutor (fun _ s => (Returned VUndefined, s)).

(** An executor that records how often it was invoked and echoes the
    request it was given. *)
Definition counting_executor : AgentExecutor nat :=
  mkExecutor (fun args n => (Returned (VObj [("output", args)]), Datatypes.S n)).

(** The pauses requested through [setTimeout], in order. *)
Definition timeouts (tr : list Event) : list Z :=
  omap (fun e => match e with
                 | SetTimeout ms => Some ms
                 | _ => None
                 end) tr.

(** The executors constructed, in order. *)
Definition constructions (tr : list Event) : list ExecutorSpec :=
  omap (fun e => match e with
                 | ConstructExecutor spec => Some spec
                 | _ => None
                 end) tr.

(** A computation that only writes to the console: it returns, and the
    world differs by console events alone. *)
Definition console_only {S A : Type} (m : M (World S) A) : Prop :=
  forall w, exists a es,
    m w = Ret a (advance es 0 (collab w) w) /\ Forall (fun e => is_console e = true) es.

(** Whether a session reaches an [exit] or [quit] command. *)
Fixpoint session_exits (lines : list string) : bool :=
  match lines with
  | [] => false
  | input :: rest =>
      let query := trim input in
      if String.eqb query EmptyString then session_exits rest
      else if String.eqb (toLowerCase query) "exit"
              || String.eqb (toLowerCase query) "quit" then true
      else session_exits rest
  end.

(** The specification [createProductionAgent] hands to LangChain, given the
    credential and the clock reading of the construction. *)
Definition agent_spec (host : JsHost) (tools : list string) (config : AgentConfig)
    (key : string) (now : Z) : ExecutorSpec :=
  mkSpec (default "gpt-4" (modelName config))
         (default (7 # 10)%Q (temperature config))
         (default 2000%Q (maxTokens config))
         key
         ("You are a professional AI assistant powered by advanced language models and equipped with specialized tools."
          +:+ nl +:+ "Current datetime: " +:+ Date_toISOString host now)
         "chat_history" tools
         (default 5%Q (maxIterations config))
         true
         (default true (verbose config)).

(** The configuration [main] passes to the factory. *)
Definition main_config : AgentConfig :=
  mkAgentConfig (Some (7 # 10)%Q) None (Some "gpt-4") (Some true) (Some 5%Q).

(** The operating mode [main] selects: [process.env.AGENT_MODE || 'interactive']. *)
Definition selected_mode {S : Type} (w : World S) : string :=
  if nonempty (env w !! "AGENT_MODE") then default EmptyString (env w !! "AGENT_MODE")
  else "interactive".

(** A computation that terminates the process only with a status in [P]. *)
Definition exits_with {W A : Type} (P : Z -> Prop) (m : M W A) : Prop :=
  forall w c w', m w = Exit c w' -> P c.

(** ** The smoke test ([test-agent.js]) *)

(** The object [runAgent] returns, as [console.log] is given it. *)
Definition result_object (r : ExecutionResult) : JsVal :=
  if success r then
    VObj [("success", VBool true); ("output", output r);
          ("duration", match duration r with
                       | Some d => VNum (inject_Z d)
                       | None => VUndefined
                       end);
          ("metadata", default VUndefined (metadata r))]
  else
    VObj [("success", VBool false);
          ("error", match error r with
                    | Some m => VStr m
                    | None => VUndefined
                    end);
          ("output", output r)].

Section TestAgent.
Variable host : JsHost.
Context {S : Type}.
Variable langchain : ExecutorSpec -> outcome (AgentExecutor S).
Variable tools : list string.

(** [testAgent], lines 6-23 *)
Definition testAgent : M (World S) unit :=
  console_log [VStr "Starting test..."] ;;;
  try_catch
    (console_log [VStr "Creating agent..."] ;;;
     agent <- createProductionAgent host langchain tools
                (mkAgentConfig (Some (7 # 10)%Q) None (Some "gpt-4") (Some true) None) ;;
     console_log [VStr "Agent created! Testing with a simple query..."] ;;;
     result <- runAgent agent "Hello, what is your name?" None ;;
     console_log [VStr "Result:"; result_object result])
    (fun error => console_error [VStr "Error:"; error]).
End TestAgent.

(** The console lines of [main] once the configuration is complete. *)
Definition ready_lines (project : option string) : list Event :=
  [ConsoleLog [VStr "✅ Environment variables loaded"];
   ConsoleLog [VStr "✅ LangSmith tracing enabled"];
   ConsoleLog [VStr ("✅ Project: " +:+ show_optional project)];
   ConsoleLog [VStr (rule 70)];
   ConsoleLog [VStr (nl +:+ "🤖 Initializing AI Agent...")]].

(** The two lines of the handler of [main]. *)
Definition fatal_lines (e : JsVal) : list Event :=
  [ConsoleError [VStr (nl +:+ "❌ Fatal Error:"); e];
   ConsoleError [VStr (nl +:+ "Please check your configuration and try again." +:+ nl)]].

(** The queries a run of [main] sends to the executor, by mode. *)
Definition mode_queries (mode : string) (lines : list string) : list string :=
  if String.eqb mode "demo" then demoQueries
  else if String.eqb mode "batch" then batchQueries
  else session_queries lines.

(** Whether a run of [main] ends by [process.exit(0)]: only an interactive
    session does, at [exit] or [quit]. *)
Definition mode_exits (mode : string) (lines : list string) : bool :=
  if String.eqb mode "demo" then false
  else if String.eqb mode "batch" then false
  else session_exits lines.

(** A complete configuration that selects the batch mode. *)
Definition batch_env : gmap string string := <["AGENT_MODE" := "batch"]> full_env.

(** The two statuses [main] can end the process with. *)
Definition main_status (c : Z) : Prop := c = 0 \/ c = 1.

(** A reply of the store, with the fields supabase-js gives it. *)
Definition store_reply (data err : JsVal) : JsVal :=
  VObj [("error", err); ("data", data); ("count", VNull);
        ("status", VNum 200); ("statusText", VStr "OK")].

(** A store without matching rows. *)
Definition empty_backend (request : Event) (s : unit) : outcome JsVal * unit :=
  match request with
  | EmbedQuery _ => (Returned (VArr [VNum (1 # 10); VNum (2 # 10)]), s)
  | _ => (Returned (store_reply (VArr []) VNull), s)
  end.

(** A row of [match_documents], as the store returns it. *)
Definition match_row (row : string * Q) : JsVal :=
  VObj [("id", VNum 7); ("content", VStr (fst row));
        ("metadata", VObj [("source", VStr "handbook")]); ("similarity", VNum (snd row))].

(** A store whose similarity search finds two documents. *)
Definition two_rows : list (string * Q) :=
  [("Refunds are issued within 14 days.", (91 # 100)%Q);
   ("Contact support to request a refund.", (83 # 100)%Q)].

Definition rows_backend (request : Event) (s : unit) : outcome JsVal * unit :=
  match request with
  | EmbedQuery _ => (Returned (VArr [VNum (1 # 10); VNum (2 # 10)]), s)
  | _ => (Returned (store_reply (VArr (map match_row two_rows)) VNull), s)
  end.

(** A store that refuses every request. *)
Definition refusing_backend (request : Event) (s : unit) : outcome JsVal * unit :=
  (Returned (VObj [("error", VObj [("message", VStr "permission denied"); ("code", VStr "42501")]);
                   ("data", VNull); ("count", VNull);
                   ("status", VNum 403); ("statusText", VStr "Forbidden")]), s).

(** What a row of a search shows: its content, and content with similarity. *)
Definition has_content (doc content : JsVal) : Prop :=
  get_prop doc "content" = Returned content.

Definition has_content_and_similarity (doc : JsVal) (row : JsVal * Q) : Prop :=
  get_prop doc "content" = Returned (fst row) /\
  get_prop doc "similarity" = Returned (VNum (snd row)).

(** An embedding client that is out of order. *)
Definition embedding_down (request : Event) (s : unit) : outcome JsVal * unit :=
  (Thrown (VError "401 Incorrect API key provided"), s).

(** The request [document_search] sends to the store. *)
Definition match_documents_request (embedding : JsVal) (limit : option Q) : Event :=
  StoreRpc "match_documents"
    [("query_embedding", embedding);
     ("match_threshold", VNum (78 # 100));
     ("match_count", VNum (default 5%Q limit))].

(** The read [database_query] sends to the store. *)
Definition select_request (input : DatabaseQueryInput) : Event :=
  StoreSelect (table input) "*"
    (OpLimit (VNum (default 10%Q (query_limit input)))
     :: map (fun kv => OpEq (fst kv) (snd kv)) (default [] (filters input))).

(** Two results that agree: the same number (as [===] compares numbers), the
    same exception, or no result on either side. *)
Definition same_number (a b : outcome (option float)) : Prop :=
  match a, b with
  | Returned (Some x), Returned (Some y) => same_double x y
  | Returned None, Returned None => True
  | Thrown e, Thrown e' => e = e'
  | _, _ => False
  end.

(** The six operations of [data_analysis]. *)
Definition operations : list string := ["mean"; "median"; "sum"; "count"; "min"; "max"].

(** The row [conversation_memory] writes when it saves, and the read it
    sends when it retrieves. *)
Definition save_request (host : JsHost) (conversation message : string) (now : Z) : Event :=
  StoreUpsert "agent_conversations"
    [("id", VStr conversation);
     ("messages", VStr message);
     ("updated_at", VStr (Date_toISOString host now))].

Definition retrieve_request (conversation : string) : Event :=
  StoreSelect "agent_conversations" "messages" [OpEq "id" (VStr conversation); OpSingle].

(** A store that holds one conversation. *)
Definition history_backend (request : Event) (s : unit) : outcome JsVal * unit :=
  (Returned (store_reply (VObj [("messages", VStr "Where is my order?")]) VNull), s).

(** A handler that leaves the collaborators alone: no request, no change of
    their state. *)
Definition offline {S A : Type} (m : M (World S) A) : Prop :=
  forall w, trace (final_world (m w)) = trace w /\ collab (final_world (m w)) = collab w.

(** White space beyond ASCII, in UTF-8: U+00A0 (no-break space), U+3000
    (ideographic space) and U+FEFF (byte order mark). *)
Definition nbsp : string :=
  String (ascii_of_nat 194) (String (ascii_of_nat 160) EmptyString).

Definition ideographic_space : string :=
  String (ascii_of_nat 227) (String (ascii_of_nat 128) (String (ascii_of_nat 128) EmptyString)).

Definition byte_order_mark : string :=
  String (ascii_of_nat 239) (String (ascii_of_nat 187) (String (ascii_of_nat 191) EmptyString)).

(** A line of white space only, and a padded command. *)
Definition white_line : string :=
  nbsp +:+ " " +:+ ideographic_space +:+ byte_order_mark +:+ String (ascii_of_nat 9) EmptyString.

Definition padded_exit : string := ideographic_space +:+ "Exit" +:+ nbsp.

(** * Theorems *)

(** ** The effect monad and the world *)

Lemma advance_advance {S : Type} (es es' : list Event) (n n' : nat) (s s' : S) (w : World S) :
  advance es' n' s' (advance es n s w) = advance (es ++ es') (n' + n) s' w.
Proof.
  unfold advance; cbn [trace env clock ticks collab].
  f_equal; [symmetry; apply app_assoc | lia].
Qed.

Lemma advance_nothing {S : Type} (w : World S) : advance [] 0 (collab w) w = w.
Proof. destruct w; unfold advance; cbn. by rewrite app_nil_r. Qed.

Lemma emit_advance {S : Type} (e : Event) (w : World S) :
  emit e w = Ret tt (advance [e] 0 (collab w) w).
Proof. reflexivity. Qed.

Lemma invocations_app (t1 t2 : list Event) :
  invocations (t1 ++ t2) = invocations t1 ++ invocations t2.
Proof. unfold invocations. apply omap_app. Qed.

(** ** [runAgent] *)

Section RunAgent.
Context {S : Type}.
Variable executor : AgentExecutor S.

(** The three ways a turn can go: the invocation throws; it returns a value
    whose [output] can be read; it returns [undefined] or [null], and the
    read of [output] throws inside the [try]. *)
Lemma runAgent_eval (input : string) (metadata : option (list (string * JsVal)))
    (w : World S) :
  runAgent executor input metadata w =
    let args := invoke_args input metadata in
    let d := clock w (Datatypes.S (ticks w)) - clock w (ticks w) in
    match invoke_fn executor args (collab w) with
    | (Thrown e, s') =>
        Ret (failure_result e)
            (advance (processing_lines input ++ [ExecutorInvoke args; agent_error_line e])
                     1 s' w)
    | (Returned result, s') =>
        match get_prop result "output" with
        | Returned out =>
            Ret (mkResult true out None (Some d) (Some result))
                (advance (processing_lines input ++ ExecutorInvoke args :: generated_lines d)
                         2 s' w)
        | Thrown e =>
            Ret (failure_result e)
                (advance (processing_lines input ++ ExecutorInvoke args :: generated_lines d
                            ++ [agent_error_line e])
                         2 s' w)
        end
    end.
Proof.
  unfold runAgent, try_catch, bind, console_log, invoke, call_collab, bind, emit,
    Date_now, advance.
  cbn [trace env clock ticks collab].
  destruct (invoke_fn executor (invoke_args input metadata) (collab w)) as [[result|e] s'];
    cbn [lift_outcome ret throw trace env clock ticks collab].
  - destruct (get_prop result "output") as [out|e];
      cbn [lift_outcome ret throw trace env clock ticks collab];
      unfold failure_result; f_equal; f_equal;
      cbn [trace env clock ticks collab];
      rewrite <- ?app_assoc; reflexivity.
  - unfold failure_result; f_equal; f_equal; cbn [trace env clock ticks collab];
    rewrite <- ?app_assoc; reflexivity.
Qed.

(** A turn always returns, and invokes the executor exactly once. *)
Lemma runAgent_returns (input : string) (metadata : option (list (string * JsVal)))
    (w : World S) :
  exists r w',
    runAgent executor input metadata w = Ret r w' /\
    invocations (trace w') = invocations (trace w) ++ [invoke_args input metadata] /\
    env w' = env w.
Proof.
  rewrite runAgent_eval. cbv zeta.
  destruct (invoke_fn executor _ (collab w)) as [[result|e] s'];
    [destruct (get_prop result "output") as [out|e]|];
    eexists _, _; (split; [reflexivity|]);
    unfold advance; cbn [trace env]; rewrite invocations_app; split; reflexivity.
Qed.
End RunAgent.

(** C1. [runAgent] returns an execution result for every executor, input and
    metadata, whatever the invocation does; when the invocation throws, the
    result has [success = false] and the fixed fallback text as [output], and
    the exception stops there. *)
Theorem runAgent_contains_failures {S : Type} (executor : AgentExecutor S)
    (input : string) (metadata : option (list (string * JsVal))) (w : World S) :
  (exists r w', runAgent executor input metadata w = Ret r w') /\
  (forall e s',
      invoke_fn executor (invoke_args input metadata) (collab w) = (Thrown e, s') ->
      exists r w',
        runAgent executor input metadata w = Ret r w' /\
        success r = false /\
        output r = VStr "I encountered an error processing your request. Please try again or rephrase your question." /\
        error r = Some (error_message e)).
Proof.
  split.
  - destruct (runAgent_returns executor input metadata w) as (r & w' & H & _).
    by exists r, w'.
  - intros e s' Hthrow. rewrite runAgent_eval. cbv zeta. rewrite Hthrow.
    eexists _, _. split; [reflexivity|]. by cbn.
Qed.

Lemma runAgent_contains_failures_witness :
  exists r w',
    runAgent throwing_executor "hello" None (sample_world ∅ ()) = Ret r w' /\
    success r = false /\
    output r = VStr "I encountered an error processing your request. Please try again or rephrase your question." /\
    error r = Some "model unavailable".
Proof.
  exact (proj2 (runAgent_contains_failures throwing_executor "hello" None (sample_world ∅ ()))
               (VError "model unavailable") () eq_refl).
Defined.

(** C7, as stated, fails: the failure object of [runAgent] carries no
    duration at all; and on success the duration is the difference of two
    readings of the wall clock, negative when the clock was set back between
    them. *)
Lemma runAgent_failure_has_no_duration :
  (exists r,
      returned (runAgent throwing_executor "hello" None (sample_world ∅ ())) = Some r /\
      success r = false /\
      ~ (exists d : Z, duration r = Some d /\ 0 <= d)) /\
  (exists r,
      returned (runAgent echo_executor "hello" None clock_set_back_world) = Some r /\
      success r = true /\
      duration r = Some (-1000)).
Proof.
  split.
  - exists (failure_result (VError "model unavailable")).
    split; [vm_compute; reflexivity|]. split; [reflexivity|].
    intros (d & Hd & _). discriminate Hd.
  - exists (mkResult true (VStr "hello") None (Some (-1000))
                     (Some (VObj [("output", VStr "hello")]))).
    split; [vm_compute; reflexivity|]. split; reflexivity.
Qed.

(** C7, amended.  A success result carries [duration], the difference of the
    clock readings after and before the invocation (an integer, non-negative
    when the clock did not run backwards), no [error], and the [output]
    property of the invocation's result; a failure result carries [error] and
    the fallback [output], and no [duration]. *)
Theorem runAgent_result_shape {S : Type} (executor : AgentExecutor S)
    (input : string) (meta : option (list (string * JsVal))) (w : World S)
    (r : ExecutionResult) :
  returned (runAgent executor input meta w) = Some r ->
  (success r = true ->
     duration r = Some (clock w (Datatypes.S (ticks w)) - clock w (ticks w)) /\
     (clock w (ticks w) <= clock w (Datatypes.S (ticks w)) ->
        exists d, duration r = Some d /\ 0 <= d) /\
     error r = None /\
     exists result, metadata r = Some result /\ get_prop result "output" = Returned (output r)) /\
  (success r = false ->
     duration r = None /\
     (exists m, error r = Some m) /\
     output r = VStr fallback_output).
Proof.
  rewrite runAgent_eval. cbv zeta.
  destruct (invoke_fn executor _ (collab w)) as [[result|e] s'];
    [destruct (get_prop result "output") as [out|e] eqn:Hout|];
    intros [= <-]; cbn [success duration error output metadata failure_result];
    (split; [intros Hs|intros Hf]); try discriminate.
  - split; [reflexivity|]. split; [|split; [reflexivity|by exists result]].
    intros Hclock. eexists. split; [reflexivity|lia].
  - split; [reflexivity|]. split; [by eexists|reflexivity].
  - split; [reflexivity|]. split; [by eexists|reflexivity].
Qed.

Lemma runAgent_result_shape_witness :
  exists r,
    returned (runAgent echo_executor "hello" None (sample_world ∅ ())) = Some r /\
    duration r = Some 1000 /\ error r = None /\ output r = VStr "hello".
Proof.
  set (r := mkResult true (VStr "hello") None (Some 1000)
                     (Some (VObj [("output", VStr "hello")]))).
  assert (Hrun : returned (runAgent echo_executor "hello" None (sample_world ∅ ())) = Some r)
    by (vm_compute; reflexivity).
  exists r. split; [exact Hrun|].
  destruct (runAgent_result_shape echo_executor "hello" None (sample_world ∅ ()) r Hrun)
    as [Hs _].
  destruct (Hs eq_refl) as (Hd & _ & He & _).
  split; [exact Hd|]. split; [exact He|reflexivity].
Defined.

(** ** [batchProcess] *)

Section BatchProcess.
Context {S : Type}.
Variable executor : AgentExecutor S.

(** The loop, from any iteration on: the remaining queries each add one
    result to the ones collected so far. *)
Lemma batch_loop (total : nat) (qs : list string) :
  forall (k : nat) (acc : list ExecutionResult) (w : World S),
  exists rs w',
    for_of (imap (fun i x => ((k + i)%nat, x)) qs)
      (fun '(index, query) results =>
         console_log [VStr (nl +:+ "[" +:+ pretty (index + 1)%nat +:+ "/"
                            +:+ pretty total +:+ "] Processing...")] ;;;
         result <- runAgent executor query None ;;
         ret (results ++ [result]))
      acc w = Ret (acc ++ rs) w' /\
    batch_turns executor total k qs w rs w' /\
    length rs = length qs /\
    invocations (trace w') =
      invocations (trace w) ++ map (fun q => invoke_args q None) qs.
Proof.
  induction qs as [|q qs IH]; intros k acc w.
  - exists [], w. cbn. rewrite !app_nil_r. repeat split. constructor.
  - cbn [imap for_of].
    destruct (runAgent_returns executor q None
                (advance [progress_line k total] 0 (collab w) w))
      as (r & w1 & Hrun & Hinv & _).
    destruct (IH (Datatypes.S k) (acc ++ [r]) w1) as (rs & w' & Hloop & Hturns & Hlen & Hinv').
    exists (r :: rs), w'. split; [|split; [|split]].
    + unfold bind at 1. unfold bind at 1. unfold console_log. rewrite emit_advance.
      replace (k + 0)%nat with k by lia. fold (progress_line k total).
      unfold bind at 1. rewrite Hrun. unfold ret at 1.
      rewrite <- app_assoc in Hloop. cbn [app] in Hloop. rewrite <- Hloop.
      f_equal. apply imap_ext. intros i x _. cbn. f_equal. lia.
    + econstructor; eassumption.
    + cbn. by rewrite Hlen.
    + rewrite Hinv', Hinv. unfold advance. cbn [trace].
      rewrite invocations_app. cbn. rewrite app_nil_r, <- app_assoc. reflexivity.
Qed.

(** In a chain of turns the i-th result is the wrapper's result on the
    i-th query. *)
Lemma batch_turns_lookup (total : nat) (qs : list string) :
  forall (k : nat) (w w' : World S) (rs : list ExecutionResult),
  batch_turns executor total k qs w rs w' ->
  forall (i : nat) (q : string),
    qs !! i = Some q ->
    exists r wi wi',
      rs !! i = Some r /\ runAgent executor q None wi = Ret r wi'.
Proof.
  intros k w w' rs Hturns.
  induction Hturns as [k0 w0|k0 q0 qs0 w0 w1 w2 r rs0 Hrun _ IH].
  - intros j q Hq. discriminate Hq.
  - intros [|j] q Hq; cbn in Hq.
    + injection Hq as <-. eexists r, _, w1. split; [reflexivity|exact Hrun].
    + by apply IH.
Qed.
End BatchProcess.

(** C2. [batchProcess] returns one result per query: the result list is as
    long as the query list, its i-th entry is what [runAgent] returned for
    the i-th query, the turns run one after the other in input order (each
    starts in the world the previous one left, and the executor is invoked
    with the queries in order), and a failed turn is collected like any
    other, so that every later query still gets its turn. *)
Theorem batchProcess_one_result_per_query {S : Type} (executor : AgentExecutor S)
    (queries : list string) (w : World S) :
  exists results w1 w',
    batchProcess executor queries w = Ret results w' /\
    length results = length queries /\
    batch_turns executor (length queries) 0 queries
      (advance [ConsoleLog [VStr (nl +:+ "📦 Batch processing " +:+ pretty (length queries)
                                  +:+ " queries...")]] 0 (collab w) w)
      results w1 /\
    w' = advance [ConsoleLog [VStr (nl +:+ "✅ Batch processing complete!" +:+ nl)]]
                 0 (collab w1) w1 /\
    invocations (trace w') =
      invocations (trace w) ++ map (fun q => invoke_args q None) queries /\
    (forall i q,
        queries !! i = Some q ->
        exists r wi wi',
          results !! i = Some r /\ runAgent executor q None wi = Ret r wi').
Proof.
  set (w0 := advance [ConsoleLog [VStr (nl +:+ "📦 Batch processing "
                                       +:+ pretty (length queries) +:+ " queries...")]]
                     0 (collab w) w).
  destruct (batch_loop executor (length queries) queries 0%nat [] w0)
    as (rs & w1 & Hloop & Hturns & Hlen & Hinv).
  exists rs, w1, (advance [ConsoleLog [VStr (nl +:+ "✅ Batch processing complete!" +:+ nl)]]
                          0 (collab w1) w1).
  split; [|split; [exact Hlen|split; [exact Hturns|split; [reflexivity|split]]]].
  - unfold batchProcess, entries. unfold bind at 1. unfold console_log at 1.
    rewrite emit_advance. fold w0. unfold bind at 1.
    cbn [app] in Hloop. cbn [Nat.add] in Hloop. rewrite Hloop.
    unfold bind, console_log. rewrite emit_advance. reflexivity.
  - unfold advance at 1. cbn [trace]. rewrite invocations_app, Hinv.
    subst w0. unfold advance. cbn [trace]. rewrite invocations_app. cbn.
    by rewrite !app_nil_r.
  - eapply batch_turns_lookup; eassumption.
Qed.

Lemma batchProcess_one_result_per_query_witness :
  exists results w',
    batchProcess flaky_executor ["q1"; "q2"; "q3"] (sample_world ∅ 0%nat) = Ret results w' /\
    map success results = [true; false; true] /\
    invocations (trace w') = map (fun q => invoke_args q None) ["q1"; "q2"; "q3"].
Proof.
  destruct (batchProcess_one_result_per_query flaky_executor ["q1"; "q2"; "q3"]
              (sample_world ∅ 0%nat))
    as (results & w1 & w' & Hrun & _ & _ & _ & Hinv & Hlookup).
  destruct (Hlookup 1%nat "q2" eq_refl) as (r & _ & _ & _ & _).
  exists results, w'. split; [exact Hrun|]. split; [|exact Hinv].
  apply (f_equal returned) in Hrun. vm_compute in Hrun.
  injection Hrun as <-. reflexivity.
Defined.

(** ** [main] *)

Lemma for_of_emit {S A : Type} (f : A -> Event) (l : list A) :
  forall w : World S,
    for_of l (fun x _ => emit (f x)) () w = Ret () (advance (map f l) 0 (collab w) w).
Proof.
  induction l as [|x l IH]; intros w.
  - cbn. by rewrite advance_nothing.
  - cbn [for_of map]. unfold bind. rewrite emit_advance, IH, advance_advance.
    reflexivity.
Qed.

Lemma env_set_advance {S : Type} (v : string) (es : list Event) (n : nat) (s : S)
    (w : World S) :
  env_set v (advance es n s w) = env_set v w.
Proof. reflexivity. Qed.

Lemma missing_env_vars_advance {S : Type} (es : list Event) (n : nat) (s : S) (w : World S) :
  missing_env_vars (advance es n s w) =
    Ret (List.filter (fun v => negb (env_set v w)) requiredEnvVars) (advance es n s w).
Proof. reflexivity. Qed.

(** [createProductionAgent] checks the credential itself, before it builds
    anything: without it, it throws an error that names the variable. *)
Lemma createProductionAgent_requires_key (host : JsHost) {S : Type}
    (langchain : ExecutorSpec -> outcome (AgentExecutor S)) (tools : list string)
    (config : AgentConfig) (w : World S) :
  env_set "OPENAI_API_KEY" w = false ->
  createProductionAgent host langchain tools config w =
    Throw (VError "OPENAI_API_KEY environment variable is required") w.
Proof.
  intros Hunset. unfold createProductionAgent, bind, getenv. cbv zeta.
  change (nonempty (env w !! "OPENAI_API_KEY")) with (env_set "OPENAI_API_KEY" w).
  by rewrite Hunset.
Qed.

(** C8. When one of the four required variables (OPENAI_API_KEY among them)
    is unset or empty, [main] ends the process with status 1 after printing,
    on the error stream, one line per missing variable that names it; up to
    that point it has only written to the console: no executor was
    constructed, no collaborator was called, the clock was not read. *)
Theorem main_exits_on_missing_configuration (host : JsHost) {S : Type}
    (langchain : ExecutorSpec -> outcome (AgentExecutor S)) (tools lines : list string)
    (w : World S) :
  (exists v, v ∈ requiredEnvVars /\ env_set v w = false) ->
  exists w',
    main host langchain tools lines w = Exit 1 w' /\
    trace w' =
      trace w ++ startup_lines
      ++ missing_configuration_lines
           (List.filter (fun v => negb (env_set v w)) requiredEnvVars) /\
    (forall v, v ∈ requiredEnvVars -> env_set v w = false ->
               ConsoleError [VStr ("   - " +:+ v)] ∈ trace w') /\
    Forall (fun e => is_console e = true) (drop (length (trace w)) (trace w')) /\
    collab w' = collab w /\ ticks w' = ticks w.
Proof.
  intros (v0 & Hin0 & Hset0).
  set (missing := List.filter (fun v => negb (env_set v w)) requiredEnvVars).
  assert (Hmem : forall v, v ∈ requiredEnvVars -> env_set v w = false -> v ∈ missing).
  { intros v Hin Hset. apply list_elem_of_In, filter_In. split.
    - by apply list_elem_of_In.
    - by rewrite Hset. }
  assert (Hlen : (0 <? length missing)%nat = true).
  { apply Nat.ltb_lt. specialize (Hmem v0 Hin0 Hset0).
    destruct missing; [by apply elem_of_nil in Hmem|cbn; lia]. }
  exists (advance (startup_lines ++ missing_configuration_lines missing) 0 (collab w) w).
  split; [|split; [reflexivity|split; [|split; [|split; reflexivity]]]].
  - unfold main. unfold bind at 1. unfold console_log at 1. rewrite emit_advance.
    unfold bind at 1. unfold console_log at 1. rewrite emit_advance, advance_advance.
    unfold try_catch. unfold bind at 1. rewrite missing_env_vars_advance.
    fold missing. unfold bind at 1. rewrite Hlen.
    unfold bind at 1. unfold console_error at 1. rewrite emit_advance.
    unfold bind at 1. unfold console_error at 1.
    rewrite (for_of_emit (fun varName => ConsoleError [VStr ("   - " +:+ varName)])).
    unfold bind at 1. unfold console_error at 1. rewrite emit_advance.
    unfold bind at 1. unfold console_error at 1. rewrite emit_advance.
    unfold process_exit. f_equal.
    unfold advance, missing_configuration_lines, startup_lines.
    cbn [trace env clock ticks collab]. f_equal.
    rewrite <- !app_assoc. reflexivity.
  - intros v Hin Hset. unfold advance. cbn [trace].
    apply elem_of_app. right. apply elem_of_app. right.
    unfold missing_configuration_lines. apply elem_of_cons. right.
    apply elem_of_app. left.
    apply (list_elem_of_fmap_2 (fun varName => ConsoleError [VStr ("   - " +:+ varName)])).
    by apply Hmem.
  - unfold advance. cbn [trace]. rewrite drop_app_length.
    apply Forall_app. split; [repeat constructor|].
    unfold missing_configuration_lines. constructor; [reflexivity|].
    apply Forall_app. split; [|repeat constructor].
    apply Forall_forall. intros e He.
    apply list_elem_of_fmap in He as (v & -> & _). reflexivity.
Qed.

Lemma main_exits_on_missing_configuration_witness :
  exists w',
    main utc_host (fun _ => Returned echo_executor) [] []
         (sample_world env_without_openai_key ()) = Exit 1 w' /\
    ConsoleError [VStr "   - OPENAI_API_KEY"] ∈ trace w'.
Proof.
  assert (Hin : "OPENAI_API_KEY" ∈ requiredEnvVars) by (apply elem_of_cons; by left).
  assert (Hset : env_set "OPENAI_API_KEY" (sample_world env_without_openai_key ()) = false)
    by (vm_compute; reflexivity).
  destruct (main_exits_on_missing_configuration utc_host (fun _ => Returned echo_executor)
              [] [] (sample_world env_without_openai_key ())
              (ex_intro _ "OPENAI_API_KEY" (conj Hin Hset)))
    as (w' & Hexit & _ & Hnamed & _).
  exists w'. split; [exact Hexit|]. exact (Hnamed "OPENAI_API_KEY" Hin Hset).
Defined.

(** ** [runInteractiveMode] *)

Lemma string_length_ind (P : string -> Prop) :
  (forall s, (forall t, (String.length t < String.length s)%nat -> P t) -> P s) ->
  forall s, P s.
Proof.
  intros Hstep s. remember (String.length s) as n eqn:Hn.
  revert s Hn. induction n as [n IH] using lt_wf_ind. intros s ->.
  apply Hstep. intros t Ht. by apply (IH _ Ht).
Qed.

Lemma trimStart_eq (s : string) :
  trimStart s =
    match s with
    | EmptyString => EmptyString
    | String c1 rest1 =>
        if is_space c1 then trimStart rest1
        else
          match rest1 with
          | EmptyString => s
          | String c2 rest2 =>
              if is_space2 c1 c2 then trimStart rest2
              else
                match rest2 with
                | EmptyString => s
                | String c3 rest3 =>
                    if is_space3 c1 c2 c3 then trimStart rest3 else s
                end
          end
    end.
Proof. by destruct s. Qed.

Lemma blank_eq (s : string) :
  blank s =
    match s with
    | EmptyString => true
    | String c1 rest1 =>
        if is_space c1 then blank rest1
        else
          match rest1 with
          | EmptyString => false
          | String c2 rest2 =>
              if is_space2 c1 c2 then blank rest2
              else
                match rest2 with
                | EmptyString => false
                | String c3 rest3 => is_space3 c1 c2 c3 && blank rest3
                end
          end
    end.
Proof. by destruct s. Qed.

Lemma trimStart_blank (s : string) : blank s = true -> trimStart s = EmptyString.
Proof.
  induction s as [s IH] using string_length_ind.
  rewrite blank_eq, trimStart_eq. destruct s as [|c1 rest1]; [reflexivity|].
  destruct (is_space c1); [intros H; apply IH; [cbn; lia|exact H]|].
  destruct rest1 as [|c2 rest2]; [discriminate|].
  destruct (is_space2 c1 c2); [intros H; apply IH; [cbn; lia|exact H]|].
  destruct rest2 as [|c3 rest3]; [discriminate|].
  destruct (is_space3 c1 c2 c3); [intros H; apply IH; [cbn; lia|exact H]|discriminate].
Qed.

Lemma trim_blank (s : string) : blank s = true -> trim s = EmptyString.
Proof. intros H. unfold trim. by rewrite trimStart_blank. Qed.

Lemma blank_trimStart (s : string) : blank (trimStart s) = blank s.
Proof.
  induction s as [s IH] using string_length_ind.
  rewrite (blank_eq s), (trimStart_eq s). destruct s as [|c1 rest1]; [reflexivity|].
  destruct (is_space c1) eqn:H1; [apply IH; cbn; lia|].
  destruct rest1 as [|c2 rest2]; [by rewrite blank_eq, H1|].
  destruct (is_space2 c1 c2) eqn:H2; [apply IH; cbn; lia|].
  destruct rest2 as [|c3 rest3]; [by rewrite blank_eq, H1, H2|].
  destruct (is_space3 c1 c2 c3) eqn:H3; [apply IH; cbn; lia|].
  by rewrite blank_eq, H1, H2, H3.
Qed.

(** [!input.trim()] holds exactly of the lines made of white space only. *)
Lemma trim_empty_iff (s : string) : trim s = EmptyString <-> blank s = true.
Proof.
  split; [|apply trim_blank].
  unfold trim. intros Hempty. rewrite <- blank_trimStart.
  destruct (trimStart s) as [|c rest]; [reflexivity|].
  cbn [trimEnd] in Hempty. by destruct (blank (String c rest)).
Qed.

(** Lines of Unicode white space are skipped and a command padded with it is
    recognised: nothing of such a session reaches the executor. *)
Lemma session_unicode_space :
  trim white_line = EmptyString /\
  trim padded_exit = "Exit" /\
  session_queries [nbsp; white_line; padded_exit; "never read"] = [] /\
  session_exits [nbsp; white_line; padded_exit; "never read"] = true.
Proof. repeat split. Qed.

Section Interactive.
Context {S : Type}.
Variable agent : AgentExecutor S.

(** One prompt and one line of input. *)
Lemma askQuestion_cons (input : string) (rest : list string) (w : World S) :
  askQuestion agent (input :: rest) w =
    let w1 := advance [Question "You: "] 0 (collab w) w in
    let query := trim input in
    if String.eqb query EmptyString then askQuestion agent rest w1
    else if String.eqb (toLowerCase query) "exit"
            || String.eqb (toLowerCase query) "quit" then
      Exit 0 (advance [ConsoleLog [VStr (nl +:+ "👋 Goodbye! Thanks for using the agent." +:+ nl)];
                       RlClose] 0 (collab w1) w1)
    else if String.eqb (toLowerCase query) "help" then
      askQuestion agent rest
        (advance (map (fun line => ConsoleLog [VStr line]) help_lines) 0 (collab w1) w1)
    else
      match runAgent agent query None w1 with
      | Ret result w2 =>
          askQuestion agent rest
            (advance [ConsoleLog [VStr (nl +:+ "Agent:"); output result];
                      ConsoleLog [VStr (nl +:+ rule 70 +:+ nl)]] 0 (collab w2) w2)
      | Throw e w2 => Throw e w2
      | Exit c w2 => Exit c w2
      end.
Proof.
  cbn [askQuestion]. unfold bind at 1. rewrite emit_advance. cbv zeta.
  destruct (String.eqb (trim input) EmptyString); [reflexivity|].
  destruct (String.eqb (toLowerCase (trim input)) "exit"
            || String.eqb (toLowerCase (trim input)) "quit").
  { unfold bind, console_log. rewrite !emit_advance, advance_advance. reflexivity. }
  destruct (String.eqb (toLowerCase (trim input)) "help").
  { unfold bind at 1. unfold console_log.
    rewrite (for_of_emit (fun line => ConsoleLog [VStr line])). reflexivity. }
  unfold bind at 1.
  destruct (runAgent agent (trim input) None _) as [result w2|e w2|c w2]; [|reflexivity..].
  unfold bind, console_log. rewrite !emit_advance, advance_advance. reflexivity.
Qed.

(** Over a whole session the executor is invoked with exactly the lines that
    are neither blank nor commands, in order. *)
Lemma askQuestion_invocations (lines : list string) :
  forall w : World S,
    invocations (trace (final_world (askQuestion agent lines w))) =
      invocations (trace w) ++ map (fun q => invoke_args q None) (session_queries lines).
Proof.
  induction lines as [|input rest IH]; intros w.
  - cbn. rewrite invocations_app. cbn. by rewrite !app_nil_r.
  - rewrite askQuestion_cons. cbv zeta. cbn [session_queries].
    destruct (String.eqb (trim input) EmptyString).
    { rewrite IH. unfold advance. cbn [trace]. rewrite invocations_app. cbn.
      by rewrite app_nil_r. }
    destruct (String.eqb (toLowerCase (trim input)) "exit"
              || String.eqb (toLowerCase (trim input)) "quit").
    { cbn. rewrite !invocations_app. cbn. by rewrite !app_nil_r. }
    destruct (String.eqb (toLowerCase (trim input)) "help").
    { rewrite IH. unfold advance. cbn [trace]. rewrite !invocations_app.
      cbn. by rewrite !app_nil_r. }
    destruct (runAgent_returns agent (trim input) None
                (advance [Question "You: "] 0 (collab w) w))
      as (r & w2 & Hrun & Hinv & _).
    rewrite Hrun, IH. unfold advance at 1. cbn [trace].
    rewrite invocations_app, Hinv. unfold advance. cbn [trace].
    rewrite invocations_app. cbn. rewrite !app_nil_r, <- app_assoc. reflexivity.
Qed.
End Interactive.

(** C10. In interactive mode a line that is empty or all white space (every
    code point that [trim] strips, the Unicode spaces included) is skipped:
    handling it consists of the prompt alone, after which the loop goes on
    with the next line; the executor is not invoked for it and nothing is
    printed, so the session invokes the executor exactly as it would without
    that line.  By [trim_empty_iff] these are all the lines the code skips on
    its [!query] test. *)
Theorem askQuestion_skips_blank_line {S : Type} (agent : AgentExecutor S)
    (input : string) (rest : list string) (w : World S) :
  blank input = true ->
  askQuestion agent (input :: rest) w =
    askQuestion agent rest (advance [Question "You: "] 0 (collab w) w) /\
  invocations (trace (final_world (askQuestion agent (input :: rest) w))) =
    invocations (trace (final_world (askQuestion agent rest w))).
Proof.
  intros Hblank. split.
  - rewrite askQuestion_cons. cbv zeta. by rewrite (trim_blank _ Hblank).
  - rewrite !askQuestion_invocations. cbn [session_queries].
    by rewrite (trim_blank _ Hblank).
Qed.

Lemma askQuestion_skips_blank_line_witness :
  invocations (trace (final_world
    (askQuestion echo_executor ["   "; white_line; "hello"] (sample_world ∅ ())))) =
  invocations (trace (final_world
    (askQuestion echo_executor ["hello"] (sample_world ∅ ())))).
Proof.
  rewrite (proj2 (askQuestion_skips_blank_line echo_executor "   " [white_line; "hello"]
                    (sample_world ∅ ()) eq_refl)).
  exact (proj2 (askQuestion_skips_blank_line echo_executor white_line ["hello"]
                  (sample_world ∅ ()) eq_refl)).
Defined.

(** ** The tool set *)

Create HintDb effects.

Lemma never_exits_ret {W A : Type} (a : A) : never_exits (W := W) (ret a).
Proof. intros w c w' H. discriminate H. Qed.

Lemma never_exits_throw {W A : Type} (e : JsVal) : never_exits (W := W) (A := A) (throw e).
Proof. intros w c w' H. discriminate H. Qed.

Lemma never_exits_lift_outcome {W A : Type} (o : outcome A) :
  never_exits (W := W) (lift_outcome o).
Proof. destruct o; intros w c w' H; discriminate H. Qed.

Lemma never_exits_bind {W A B : Type} (m : M W A) (k : A -> M W B) :
  never_exits m -> (forall a, never_exits (k a)) -> never_exits (bind m k).
Proof.
  intros Hm Hk w c w'. unfold bind.
  destruct (m w) as [a w1|e w1|c1 w1] eqn:Hmw.
  - apply Hk.
  - discriminate.
  - by apply Hm in Hmw.
Qed.

Lemma never_exits_emit {S : Type} (e : Event) : never_exits (emit (S := S) e).
Proof. intros w c w' H. discriminate H. Qed.

Lemma never_exits_new_Date {S : Type} : never_exits (new_Date (S := S)).
Proof. intros w c w' H. discriminate H. Qed.

Lemma never_exits_remote {S : Type} (backend : Event -> S -> outcome JsVal * S)
    (request : Event) :
  never_exits (remote backend request).
Proof.
  intros w c w'. unfold remote, call_collab, bind, emit. cbn [collab].
  destruct (backend request (collab w)) as [[v|e] s']; discriminate.
Qed.

Lemma remote_eval {S : Type} (backend : Event -> S -> outcome JsVal * S)
    (request : Event) (w : World S) :
  remote backend request w =
    match backend request (collab w) with
    | (Returned v, s') => Ret v (advance [request] 0 s' w)
    | (Thrown e, s') => Throw e (advance [request] 0 s' w)
    end.
Proof.
  unfold remote, call_collab, bind, emit, advance. cbn [trace env clock ticks collab].
  by destruct (backend request (collab w)) as [[v|e] s'].
Qed.

#[export] Hint Resolve never_exits_ret never_exits_throw never_exits_lift_outcome
  never_exits_emit never_exits_new_Date never_exits_remote : effects.

(** A [try] whose handler returns makes the whole block return. *)
Lemma try_catch_returns {W A : Type} (body : M W A) (handler : JsVal -> M W A) :
  never_exits body ->
  (forall e w, exists a w', handler e w = Ret a w') ->
  forall w, exists a w', try_catch body handler w = Ret a w'.
Proof.
  intros Hbody Hhandler w. unfold try_catch.
  destruct (body w) as [a w1|e w1|c w1] eqn:Hb.
  - by exists a, w1.
  - apply Hhandler.
  - by apply Hbody in Hb.
Qed.

Ltac never_exits_step :=
  first
    [ solve [eauto with effects]
    | match goal with
      | |- never_exits (if ?b then _ else _) => destruct b
      | |- never_exits (match ?x with _ => _ end) => destruct x
      | |- never_exits (let _ := _ in _) => cbv zeta
      end
    | apply never_exits_bind; [|intros ?] ].

Ltac never_exits := repeat never_exits_step.

Section ClassToolsFacts.
Variable host : JsHost.
Context {S : Type}.
Variable backend : Event -> S -> outcome JsVal * S.

(** Every handler of the class-based rendition converts what is thrown
    inside it into a string. *)
Lemma class_tools_return :
  Forall (fun t : Tool S => forall (i : input t) (w : World S),
            exists v w', call t i w = Ret v w')
         (ClassTools.allTools host backend).
Proof.
  unfold ClassTools.allTools.
  repeat constructor; intros i w; cbn [call];
    apply try_catch_returns; try (intros e w0; by eexists _, _).
  - never_exits.
  - never_exits.
  - never_exits.
  - never_exits.
  - never_exits.
Qed.

(** What [database_query] adds to the trace is at most one read, of the
    table it was asked for, and only when that table is on the allow-list. *)
Lemma database_query_trace (input : DatabaseQueryInput) (w : World S) :
  trace (final_world (ClassTools.DatabaseQueryTool_call host backend input w)) = trace w \/
  exists ops,
    includes ClassTools.allowedTables (table input) = true /\
    trace (final_world (ClassTools.DatabaseQueryTool_call host backend input w)) =
      trace w ++ [StoreSelect (table input) "*" ops].
Proof.
  unfold ClassTools.DatabaseQueryTool_call, try_catch. cbv zeta.
  destruct (includes ClassTools.allowedTables (table input)) eqn:Hallowed;
    [right|left; reflexivity].
  eexists. split; [reflexivity|].
  cbn [negb]. unfold bind at 1. rewrite remote_eval.
  destruct (backend _ (collab w)) as [[reply|e] s'];
    cbn [lift_outcome]; unfold bind, ret, throw; [|reflexivity].
  destruct (get_prop reply "data") as [data|e]; cbn [lift_outcome]; unfold ret, throw;
    [|reflexivity].
  destruct (get_prop reply "error") as [err|e]; cbn [lift_outcome]; unfold ret, throw;
    [|reflexivity].
  destruct (truthy err); [reflexivity|]. destruct (no_rows data); reflexivity.
Qed.
End ClassToolsFacts.

Lemma includes_false (l : list string) (x : string) : x ∉ l -> includes l x = false.
Proof.
  intros Hnot. unfold includes. apply not_true_is_false. intros Hex.
  apply existsb_exists in Hex as (y & Hy & Heq).
  apply String.eqb_eq in Heq as <-. by apply Hnot, list_elem_of_In.
Qed.

(** C5. For a table outside the allow-list {documents, agent_conversations,
    document_chunks}, [database_query] answers with the rejection text and
    leaves the world as it found it: nothing is sent to the store, so every
    event of the trace afterwards was in it before. *)
Theorem database_query_rejects_unlisted_table (host : JsHost) {S : Type}
    (backend : Event -> S -> outcome JsVal * S) (input : DatabaseQueryInput)
    (w : World S) :
  table input ∉ ["documents"; "agent_conversations"; "document_chunks"] ->
  ClassTools.DatabaseQueryTool_call host backend input w =
    Ret (VStr ("Error: Table '" +:+ table input +:+
               "' is not allowed. Allowed tables: documents, agent_conversations, document_chunks"))
        w /\
  forall e,
    e ∈ trace (final_world (ClassTools.DatabaseQueryTool_call host backend input w)) ->
    e ∈ trace w.
Proof.
  intros Hnot.
  assert (Hcall : ClassTools.DatabaseQueryTool_call host backend input w =
    Ret (VStr ("Error: Table '" +:+ table input +:+
               "' is not allowed. Allowed tables: documents, agent_conversations, document_chunks"))
        w).
  { unfold ClassTools.DatabaseQueryTool_call, try_catch. cbv zeta.
    rewrite (includes_false ClassTools.allowedTables _ Hnot). reflexivity. }
  split; [exact Hcall|]. by rewrite Hcall.
Qed.

Lemma database_query_rejects_unlisted_table_witness :
  ClassTools.DatabaseQueryTool_call utc_host failing_backend
    (mkDatabaseQueryInput "users" None None) (sample_world full_env ()) =
  Ret (VStr "Error: Table 'users' is not allowed. Allowed tables: documents, agent_conversations, document_chunks")
      (sample_world full_env ()).
Proof.
  refine (proj1 (database_query_rejects_unlisted_table utc_host failing_backend
                   (mkDatabaseQueryInput "users" None None) (sample_world full_env ()) _)).
  cbn [table]. intros Hin. repeat (apply elem_of_cons in Hin as [Heq|Hin]; [discriminate Heq|]).
  by apply elem_of_nil in Hin.
Defined.

(** C6: the two renditions of [allTools].  The class-based export has the
    five tools of the specification; the object-literal export has four, and
    [database_query] is not among them. *)
Theorem allTools_members (host : JsHost) {S : Type}
    (backend : Event -> S -> outcome JsVal * S) :
  map name (ClassTools.allTools host backend) =
    ["document_search"; "database_query"; "data_analysis"; "conversation_memory"; "datetime"] /\
  length (ClassTools.allTools host backend) = 5%nat /\
  map name (RuntimeTools.allTools (S := S) host backend) =
    ["document_search"; "data_analysis"; "datetime"; "conversation_memory"] /\
  length (RuntimeTools.allTools (S := S) host backend) = 4%nat.
Proof. repeat split. Qed.

(** [data_analysis] on no values: an explanatory string whatever the
    operation, in both renditions. *)
Lemma data_analysis_empty (host : JsHost) {S : Type} (op : string) (w : World S) :
  ClassTools.DataAnalysisTool_call host (mkDataAnalysisInput op []) w =
    Ret (VStr "Error: No values provided for analysis.") w /\
  RuntimeTools.DataAnalysisTool_call host (Some (mkDataAnalysisInput op [])) w =
    Ret (VStr "No values provided.") w.
Proof. split; reflexivity. Qed.

(** When the store reports an error, the object-literal [document_search]
    throws it ([if (error) throw error], with no handler around it). *)
Lemma runtime_document_search_rethrows (host : JsHost) {S : Type}
    (backend : Event -> S -> outcome JsVal * S) (input : option DocumentSearchInput)
    (w : World S) (embedding reply data err : JsVal) (s1 s2 : S) :
  RuntimeTools.supabase w = true -> RuntimeTools.embeddings w = true ->
  backend (EmbedQuery (match input with Some i => VStr (query i) | None => VUndefined end))
          (collab w) = (Returned embedding, s1) ->
  backend (StoreRpc "match_documents"
             [("query_embedding", embedding); ("match_threshold", VNum (78 # 100));
              ("match_count", VNum (default 5%Q (input ≫= search_limit)))]) s1
    = (Returned reply, s2) ->
  get_prop reply "data" = Returned data ->
  get_prop reply "error" = Returned err ->
  truthy err = true ->
  thrown (RuntimeTools.DocumentSearchTool_call host backend input w) = Some err.
Proof.
  intros Hs He Hembed Hrpc Hdata Herr Htruthy.
  unfold RuntimeTools.DocumentSearchTool_call. rewrite Hs, He. cbn [negb orb]. cbv zeta.
  unfold bind at 1. rewrite remote_eval, Hembed.
  unfold bind at 1. rewrite remote_eval. cbn [collab advance]. rewrite Hrpc.
  unfold bind. rewrite Hdata, Herr. cbn [lift_outcome]. unfold ret. rewrite Htruthy.
  reflexivity.
Qed.

(** C3, at the failing input: with the store configured and its remote
    procedure reporting an error, the object-literal [document_search] lets
    the error cross the tool boundary as an exception, where the class-based
    one answers with a string. *)
Theorem document_search_store_error :
  thrown (RuntimeTools.DocumentSearchTool_call utc_host failing_backend
            (Some (mkDocumentSearchInput "refunds" (Some 2%Q)))
            (sample_world full_env ())) = Some store_error /\
  returned (ClassTools.DocumentSearchTool_call utc_host failing_backend
              (mkDocumentSearchInput "refunds" (Some 2%Q))
              (sample_world full_env ())) =
    Some (VStr "Error searching documents: Unknown error").
Proof. split; vm_compute; reflexivity. Qed.

(** ** IEEE 754 doubles

    The kernel's [float] is specified through [Prim2SF] by the axioms of
    [FloatAxioms]; what the handlers need of the order of the doubles is
    derived from that specification. *)

Lemma digits2_bounds (m : positive) :
  2 ^ (Z.pos (digits2_pos m) - 1) <= Z.pos m < 2 ^ Z.pos (digits2_pos m).
Proof.
  induction m as [m IH|m IH|]; cbn [digits2_pos]; [| |cbn; lia].
  - rewrite Pos2Z.inj_succ.
    replace (Z.succ (Z.pos (digits2_pos m)) - 1) with (Z.succ (Z.pos (digits2_pos m) - 1)) by lia.
    rewrite !Z.pow_succ_r by lia.
    replace (Z.succ (Z.pos (digits2_pos m) - 1)) with (Z.pos (digits2_pos m)) by lia.
    replace (2 ^ Z.pos (digits2_pos m)) with (2 * 2 ^ (Z.pos (digits2_pos m) - 1)) in *
      by (rewrite <- Z.pow_succ_r by lia; f_equal; lia).
    lia.
  - rewrite Pos2Z.inj_succ.
    replace (Z.succ (Z.pos (digits2_pos m)) - 1) with (Z.succ (Z.pos (digits2_pos m) - 1)) by lia.
    rewrite !Z.pow_succ_r by lia.
    replace (Z.succ (Z.pos (digits2_pos m) - 1)) with (Z.pos (digits2_pos m)) by lia.
    replace (2 ^ Z.pos (digits2_pos m)) with (2 * 2 ^ (Z.pos (digits2_pos m) - 1)) in *
      by (rewrite <- Z.pow_succ_r by lia; f_equal; lia).
    lia.
Qed.

(** A finite double: the exponent is in range and the mantissa has 53 bits,
    or fewer at the least exponent. *)
Lemma valid_finite (s : bool) (m : positive) (e : Z) :
  valid_binary (S754_finite s m e) = true ->
  -1074 <= e <= 971 /\ Z.pos m < 2 ^ 53 /\ (-1074 < e -> 2 ^ 52 <= Z.pos m).
Proof.
  unfold SpecFloat.valid_binary, bounded, canonical_mantissa, fexp.
  change (SpecFloat.emin prec emax) with (-1074). change prec with 53. change emax with 1024.
  intros H. apply andb_prop in H as [Hc He]. apply Z.eqb_eq in Hc. apply Z.leb_le in He.
  pose proof (digits2_bounds m) as [Hlo Hhi].
  set (d := Z.pos (digits2_pos m)) in *.
  assert (Hd : d <= 53) by lia.
  split; [lia|]. split.
  - apply Z.lt_le_trans with (2 ^ d); [exact Hhi|]. apply Z.pow_le_mono_r; lia.
  - intros Hnorm. assert (d = 53) as Heq by lia. rewrite Heq in Hlo. exact Hlo.
Qed.

Lemma SFcompare_ord (x y : spec_float) :
  valid_binary x = true -> valid_binary y = true ->
  x <> S754_nan -> y <> S754_nan ->
  SFcompare x y = Some (SFord x ?= SFord y).
Proof.
  intros Hx Hy Hnx Hny.
  destruct x as [sx|sx| |sx mx ex], y as [sy|sy| |sy my ey]; try done;
    try apply valid_finite in Hx as (Hex & Hmx & _);
    try apply valid_finite in Hy as (Hey & Hmy & _);
    cbn [SFcompare SFord cond_Zopp]; change (2 ^ 53) with 9007199254740992 in *;
    f_equal; symmetry;
    try (destruct sx); try (destruct sy); cbn [cond_Zopp];
    try reflexivity;
    try (apply Z.compare_lt_iff; lia); try (apply Z.compare_gt_iff; lia);
    change PosDef.Pos.compare_cont with Pos.compare_cont;
    rewrite Pos.compare_cont_spec; cbn [Pos.switch_Eq]; rewrite Pos2Z.inj_compare;
    destruct (Z.compare_spec ex ey) as [->|Hlt|Hgt];
    try (apply Z.compare_lt_iff; lia); try (apply Z.compare_gt_iff; lia);
    destruct (Z.compare_spec (Z.pos mx) (Z.pos my)) as [Heq|Hlt|Hgt]; cbn [CompOpp];
    first [apply Z.compare_eq_iff; lia|apply Z.compare_lt_iff; lia|apply Z.compare_gt_iff; lia].
Qed.

(** [SFcompare] through the rank, for the three tests. *)
Lemma SFltb_ord (x y : spec_float) :
  valid_binary x = true -> valid_binary y = true ->
  x <> S754_nan -> y <> S754_nan ->
  SFltb x y = (SFord x <? SFord y).
Proof.
  intros Hx Hy Hnx Hny. unfold SFltb, Z.ltb. rewrite (SFcompare_ord x y Hx Hy Hnx Hny).
  by destruct (SFord x ?= SFord y).
Qed.

Lemma SFleb_ord (x y : spec_float) :
  valid_binary x = true -> valid_binary y = true ->
  x <> S754_nan -> y <> S754_nan ->
  SFleb x y = (SFord x <=? SFord y).
Proof.
  intros Hx Hy Hnx Hny. unfold SFleb, Z.leb. rewrite (SFcompare_ord x y Hx Hy Hnx Hny).
  by destruct (SFord x ?= SFord y).
Qed.

Lemma SFeqb_ord (x y : spec_float) :
  valid_binary x = true -> valid_binary y = true ->
  x <> S754_nan -> y <> S754_nan ->
  SFeqb x y = (SFord x =? SFord y).
Proof.
  intros Hx Hy Hnx Hny. unfold SFeqb. rewrite (SFcompare_ord x y Hx Hy Hnx Hny).
  destruct (Z.compare_spec (SFord x) (SFord y)) as [Heq|Hlt|Hgt]; symmetry;
    [apply Z.eqb_eq|apply Z.eqb_neq|apply Z.eqb_neq]; lia.
Qed.

(** *** Rounding keeps the sign *)

Lemma shr_m_of_loc (m : Z) (l : location) : shr_m (shr_record_of_loc m l) = m.
Proof. by destruct l as [|[]]. Qed.

Lemma shr_1_digits (mrs : shr_record) (p : positive) :
  shr_m mrs = Z.pos p -> 1 < Z.pos (digits2_pos p) ->
  exists q, shr_m (shr_1 mrs) = Z.pos q /\
            Z.pos (digits2_pos q) = Z.pos (digits2_pos p) - 1.
Proof.
  destruct mrs as [m r s]. cbn [shr_m]. intros -> Hd.
  destruct p as [p|p|]; cbn [shr_1 shr_m digits2_pos] in *.
  - exists p. split; [reflexivity|lia].
  - exists p. split; [reflexivity|lia].
  - lia.
Qed.

Lemma iter_shr_1_digits (k : positive) :
  forall (mrs : shr_record) (p : positive),
    shr_m mrs = Z.pos p -> Z.pos k < Z.pos (digits2_pos p) ->
    exists q, shr_m (SpecFloat.iter_pos shr_1 k mrs) = Z.pos q /\
              Z.pos (digits2_pos q) = Z.pos (digits2_pos p) - Z.pos k.
Proof.
  induction k as [k IH|k IH|]; intros mrs p Hm Hk; cbn [SpecFloat.iter_pos].
  - destruct (shr_1_digits mrs p Hm) as (q1 & Hq1 & Hd1); [lia|].
    destruct (IH _ q1 Hq1) as (q2 & Hq2 & Hd2); [lia|].
    destruct (IH _ q2 Hq2) as (q3 & Hq3 & Hd3); [lia|].
    exists q3. split; [exact Hq3|lia].
  - destruct (IH _ p Hm) as (q1 & Hq1 & Hd1); [lia|].
    destruct (IH _ q1 Hq1) as (q2 & Hq2 & Hd2); [lia|].
    exists q2. split; [exact Hq2|lia].
  - apply shr_1_digits; [exact Hm|lia].
Qed.

Lemma shr_fexp_positive (m : positive) (e : Z) (l : location) :
  -1074 <= e ->
  exists q, shr_m (fst (shr_fexp prec emax (Z.pos m) e l)) = Z.pos q /\
            -1074 <= snd (shr_fexp prec emax (Z.pos m) e l).
Proof.
  intros He. unfold shr_fexp, shr, fexp, Zdigits2.
  change (SpecFloat.emin prec emax) with (-1074). change prec with 53.
  destruct (Z.max (Z.pos (digits2_pos m) + e - 53) (-1074) - e) as [|k|k] eqn:Hn;
    cbn [fst snd].
  - exists m. by rewrite shr_m_of_loc.
  - destruct (iter_shr_1_digits k (shr_record_of_loc (Z.pos m) l) m) as (q & Hq & _).
    + apply shr_m_of_loc.
    + lia.
    + exists q. split; [exact Hq|lia].
  - exists m. by rewrite shr_m_of_loc.
Qed.

Lemma round_nearest_even_positive (p : positive) (l : location) :
  exists q, round_nearest_even (Z.pos p) l = Z.pos q.
Proof.
  destruct l as [|[]]; cbn [round_nearest_even]; try (by eexists).
  destruct (Z.even (Z.pos p)); by eexists.
Qed.

(** A number that is not zero rounds to a finite number or to an infinity
    of its sign. *)
Lemma binary_round_aux_signed (s : bool) (m : positive) (e : Z) (l : location) :
  -1074 <= e -> signed s (binary_round_aux prec emax s (Z.pos m) e l).
Proof.
  intros He. unfold binary_round_aux.
  destruct (shr_fexp_positive m e l He) as (q1 & Hq1 & He1).
  destruct (shr_fexp prec emax (Z.pos m) e l) as [mrs1 e1]. cbn [fst snd] in Hq1, He1.
  rewrite Hq1.
  destruct (round_nearest_even_positive q1 (loc_of_shr_record mrs1)) as (q2 & ->).
  destruct (shr_fexp_positive q2 e1 loc_Exact He1) as (q3 & Hq3 & _).
  destruct (shr_fexp prec emax (Z.pos q2) e1 loc_Exact) as [mrs2 e2]. cbn [fst] in Hq3.
  rewrite Hq3. destruct (e2 <=? emax - prec); [left; by eexists _, _|by right].
Qed.

Lemma binary_round_signed (s : bool) (m : positive) (e : Z) :
  -1074 <= e -> signed s (binary_round prec emax s m e).
Proof.
  intros He. unfold binary_round.
  destruct (shl_align m e (fexp prec emax (Z.pos (digits2_pos m) + e))) as [mz ez] eqn:Hal.
  apply binary_round_aux_signed.
  unfold shl_align, fexp in Hal. change (SpecFloat.emin prec emax) with (-1074) in Hal.
  destruct (Z.max _ _ - e) eqn:Hd; injection Hal as <- <-; lia.
Qed.

Lemma SFltb_zero_signed (s : bool) (x : spec_float) :
  signed s x -> SFltb (S754_zero false) x = negb s.
Proof. intros [(m & e & ->)| ->]; by destruct s. Qed.

(** The aligned mantissas of two numbers. *)
Lemma shl_align_value (m : positive) (e e' : Z) :
  e' <= e -> Z.pos (fst (shl_align m e e')) = Z.pos m * 2 ^ (e - e').
Proof.
  intros Hle. unfold shl_align. destruct (e' - e) as [|d|d] eqn:Hd; cbn [fst].
  - replace (e - e') with 0 by lia. cbn. lia.
  - lia.
  - replace (e - e') with (Z.pos d) by lia.
    change (Pos.iter xO m d) with (shift_pos d m). rewrite shift_pos_correct.
    rewrite Z.pow_pos_fold. lia.
Qed.

Lemma aligned_order (mx my : positive) (ex ey : Z) :
  -1074 <= ex -> -1074 <= ey ->
  Z.pos mx < 2 ^ 53 -> Z.pos my < 2 ^ 53 ->
  (-1074 < ex -> 2 ^ 52 <= Z.pos mx) -> (-1074 < ey -> 2 ^ 52 <= Z.pos my) ->
  let X := Z.pos (fst (shl_align mx ex (Z.min ex ey))) in
  let Y := Z.pos (fst (shl_align my ey (Z.min ex ey))) in
  let ox := (ex + 1074) * 2 ^ 53 + Z.pos mx in
  let oy := (ey + 1074) * 2 ^ 53 + Z.pos my in
  (X < Y <-> ox < oy) /\ (X = Y <-> ox = oy).
Proof.
  intros Hex Hey Hmx Hmy Hnx Hny. cbv zeta.
  rewrite !shl_align_value by lia.
  change (2 ^ 53) with 9007199254740992 in *. change (2 ^ 52) with 4503599627370496 in *.
  destruct (Z.lt_trichotomy ex ey) as [Hlt|[->|Hgt]].
  - rewrite Z.min_l by lia. replace (ex - ex) with 0 by lia. rewrite Z.pow_0_r, Z.mul_1_r.
    assert (Hp : 2 <= 2 ^ (ey - ex)).
    { change 2 with (2 ^ 1) at 1. apply Z.pow_le_mono_r; lia. }
    assert (Hbig : Z.pos my * 2 <= Z.pos my * 2 ^ (ey - ex)) by (apply Z.mul_le_mono_nonneg_l; lia).
    lia.
  - rewrite Z.min_id. replace (ey - ey) with 0 by lia. rewrite Z.pow_0_r, !Z.mul_1_r. lia.
  - rewrite Z.min_r by lia. replace (ey - ey) with 0 by lia. rewrite Z.pow_0_r, Z.mul_1_r.
    assert (Hp : 2 <= 2 ^ (ex - ey)).
    { change 2 with (2 ^ 1) at 1. apply Z.pow_le_mono_r; lia. }
    assert (Hbig : Z.pos mx * 2 <= Z.pos mx * 2 ^ (ex - ey)) by (apply Z.mul_le_mono_nonneg_l; lia).
    lia.
Qed.

(** The comparator of the sort: the sign of a difference tells the order. *)
Lemma SFsub_sign (x y : spec_float) :
  valid_binary x = true -> valid_binary y = true ->
  x <> S754_nan -> y <> S754_nan ->
  SFltb (S754_zero false) (SFsub prec emax x y) = (SFord y <? SFord x).
Proof.
  intros Hx Hy Hnx Hny.
  destruct x as [sx|sx| |sx mx ex], y as [sy|sy| |sy my ey]; try done;
    try apply valid_finite in Hx as (Hex & Hmx & Hnormx);
    try apply valid_finite in Hy as (Hey & Hmy & Hnormy);
    cbn [SFsub SFord]; change (2 ^ 53) with 9007199254740992 in *;
    try (destruct sx); try (destruct sy); cbn [cond_Zopp negb]; try reflexivity;
    try (cbn; symmetry; first [apply Z.ltb_lt; lia|apply Z.ltb_ge; lia]).
  all: pose proof (aligned_order mx my ex ey) as Hal; cbv zeta in Hal;
    change (2 ^ 53) with 9007199254740992 in Hal;
    destruct Hal as (Hlt & Heq); try lia;
    unfold binary_normalize;
    match goal with
    | |- context [match ?M with Z0 => _ | Z.pos _ => _ | Z.neg _ => _ end] =>
        destruct M as [|p|p] eqn:HM
    end;
    [ cbn; symmetry; apply Z.ltb_ge; lia
    | rewrite (SFltb_zero_signed false) by (apply binary_round_signed; lia);
      cbn [negb]; symmetry; apply Z.ltb_lt; lia
    | rewrite (SFltb_zero_signed true) by (apply binary_round_signed; lia);
      cbn [negb]; symmetry; apply Z.ltb_ge; lia ].
Qed.

(** *** Doubles through their specification *)

Lemma is_nan_spec (x : float) : is_nan x = false <-> Prim2SF x <> S754_nan.
Proof.
  unfold is_nan. rewrite FloatAxioms.eqb_spec. split.
  - intros H Hnan. rewrite Hnan in H. discriminate.
  - intros Hx. rewrite (SFeqb_ord _ _ (Prim2SF_valid x) (Prim2SF_valid x) Hx Hx).
    by rewrite Z.eqb_refl.
Qed.

Lemma ltb_ord (x y : float) :
  is_nan x = false -> is_nan y = false -> (x <? y)%float = (ord x <? ord y).
Proof.
  intros Hx Hy. rewrite FloatAxioms.ltb_spec. apply is_nan_spec in Hx, Hy.
  by apply SFltb_ord; try apply Prim2SF_valid.
Qed.

Lemma leb_ord (x y : float) :
  is_nan x = false -> is_nan y = false -> (x <=? y)%float = (ord x <=? ord y).
Proof.
  intros Hx Hy. rewrite FloatAxioms.leb_spec. apply is_nan_spec in Hx, Hy.
  by apply SFleb_ord; try apply Prim2SF_valid.
Qed.

Lemma eqb_ord (x y : float) :
  is_nan x = false -> is_nan y = false -> (x =? y)%float = (ord x =? ord y).
Proof.
  intros Hx Hy. rewrite FloatAxioms.eqb_spec. apply is_nan_spec in Hx, Hy.
  by apply SFeqb_ord; try apply Prim2SF_valid.
Qed.

Lemma at_most_ord (x y : float) :
  is_nan x = false -> is_nan y = false -> at_most x y <-> ord x <= ord y.
Proof. intros Hx Hy. unfold at_most. rewrite (leb_ord x y Hx Hy). apply Z.leb_le. Qed.

(** [a - b] is above 0 exactly when [a] is above [b]: the comparator of the
    sort orders the numbers as [<] does. *)
Lemma sub_sign (x y : float) :
  is_nan x = false -> is_nan y = false ->
  (zero <? x - y)%float = (ord y <? ord x).
Proof.
  intros Hx Hy. rewrite FloatAxioms.ltb_spec, FloatAxioms.sub_spec. apply is_nan_spec in Hx, Hy.
  change (Prim2SF zero) with (S754_zero false).
  by apply SFsub_sign; try apply Prim2SF_valid.
Qed.

(** Numbers of one rank are one number, or the two zeros. *)
Lemma SFord_inj (x y : spec_float) :
  valid_binary x = true -> valid_binary y = true ->
  x <> S754_nan -> y <> S754_nan ->
  SFord x = SFord y ->
  x = y \/ exists s s', x = S754_zero s /\ y = S754_zero s'.
Proof.
  intros Hx Hy Hnx Hny.
  destruct x as [sx|sx| |sx mx ex], y as [sy|sy| |sy my ey]; try done;
    try apply valid_finite in Hx as (Hex & Hmx & _);
    try apply valid_finite in Hy as (Hey & Hmy & _);
    cbn [SFord]; change (2 ^ 53) with 9007199254740992 in *;
    try (destruct sx); try (destruct sy); cbn [cond_Zopp]; intros Hord;
    try lia; try (by left); try (right; by eexists _, _).
  all: left; assert (ex = ey) as -> by lia; f_equal; lia.
Qed.

Lemma ord_bound (x : float) : - (2099 * 2 ^ 53) <= ord x <= 2099 * 2 ^ 53.
Proof.
  unfold ord. pose proof (Prim2SF_valid x) as Hv.
  destruct (Prim2SF x) as [s|s| |s m e]; cbn [SFord];
    try apply valid_finite in Hv as (He & Hm & _);
    change (2 ^ 53) with 9007199254740992 in *;
    try (destruct s); cbn [cond_Zopp]; lia.
Qed.

(** The double of the greatest rank is +Infinity, that of the least
    -Infinity. *)
Lemma ord_greatest (x : float) :
  is_nan x = false -> ord x = 2099 * 2 ^ 53 -> x = infinity.
Proof.
  intros Hx Hord. apply Prim2SF_inj. change (Prim2SF infinity) with (S754_infinity false).
  apply is_nan_spec in Hx. unfold ord in Hord. pose proof (Prim2SF_valid x) as Hv.
  destruct (Prim2SF x) as [s|s| |s m e]; cbn [SFord] in Hord;
    try apply valid_finite in Hv as (He & Hm & _);
    change (2 ^ 53) with 9007199254740992 in *;
    try (destruct s); cbn [cond_Zopp] in Hord; try lia; done.
Qed.

Lemma ord_least (x : float) :
  is_nan x = false -> ord x = - (2099 * 2 ^ 53) -> x = neg_infinity.
Proof.
  intros Hx Hord. apply Prim2SF_inj.
  change (Prim2SF neg_infinity) with (S754_infinity true).
  apply is_nan_spec in Hx. unfold ord in Hord. pose proof (Prim2SF_valid x) as Hv.
  destruct (Prim2SF x) as [s|s| |s m e]; cbn [SFord] in Hord;
    try apply valid_finite in Hv as (He & Hm & _);
    change (2 ^ 53) with 9007199254740992 in *;
    try (destruct s); cbn [cond_Zopp] in Hord; try lia; done.
Qed.

(** ** [data_analysis]: mean and median *)


Lemma numbers_perm (v v' : list float) : Permutation v v' -> numbers v -> numbers v'.
Proof. intros Hperm Hv. unfold numbers in *. by rewrite <- Hperm. Qed.

Lemma insert_by_rank_perm (x : float) (l : list float) :
  Permutation (insert_by_rank x l) (x :: l).
Proof.
  induction l as [|y l IH]; cbn [insert_by_rank]; [reflexivity|].
  destruct (ord y <? ord x); [|reflexivity].
  rewrite IH. apply perm_swap.
Qed.

Lemma sort_by_rank_perm (l : list float) : Permutation (sort_by_rank l) l.
Proof.
  induction l as [|x l IH]; cbn [sort_by_rank]; [reflexivity|].
  rewrite insert_by_rank_perm. by constructor.
Qed.

(** On numbers the comparator [(a, b) => a - b] sorts by rank. *)
Lemma sort_insert_rank (x : float) (l : list float) :
  numbers (x :: l) ->
  sort_insert (fun a b => (a - b)%float) x l = insert_by_rank x l.
Proof.
  intros Hn. apply Forall_cons in Hn as [Hx Hl].
  induction Hl as [|y l Hy Hl IH]; [reflexivity|].
  cbn [sort_insert insert_by_rank]. rewrite (sub_sign x y Hx Hy), IH. reflexivity.
Qed.

Lemma Array_sort_rank (v : list float) :
  numbers v -> Array_sort (fun a b => (a - b)%float) v = sort_by_rank v.
Proof.
  induction 1 as [|x v Hx Hv IH]; [reflexivity|].
  cbn [Array_sort sort_by_rank]. rewrite IH. apply sort_insert_rank.
  apply Forall_cons. split; [exact Hx|].
  apply (numbers_perm v); [symmetry; apply sort_by_rank_perm|exact Hv].
Qed.

Lemma insert_by_rank_sorted (x : float) (l : list float) :
  StronglySorted rank_le l -> StronglySorted rank_le (insert_by_rank x l).
Proof.
  induction 1 as [|y l Hsorted IH Hall]; cbn [insert_by_rank].
  - repeat constructor.
  - destruct (ord y <? ord x) eqn:Hyx.
    + apply Z.ltb_lt in Hyx. constructor; [exact IH|].
      rewrite (insert_by_rank_perm x l). constructor; [unfold rank_le; lia|exact Hall].
    + apply Z.ltb_ge in Hyx. constructor; [by constructor|].
      constructor; [exact Hyx|].
      eapply Forall_impl; [exact Hall|]. unfold rank_le. intros z Hz. lia.
Qed.

Lemma sort_by_rank_sorted (l : list float) : StronglySorted rank_le (sort_by_rank l).
Proof.
  induction l as [|x l IH]; cbn [sort_by_rank]; [constructor|].
  by apply insert_by_rank_sorted.
Qed.

Lemma sorted_at_most (l : list float) :
  numbers l -> StronglySorted rank_le l -> StronglySorted at_most l.
Proof.
  intros Hn. induction 1 as [|y l Hsorted IH Hall]; [constructor|].
  apply Forall_cons in Hn as [Hy Hl]. constructor; [by apply IH|].
  unfold numbers in Hl. rewrite Forall_forall in Hall, Hl. apply Forall_forall.
  intros z Hz. apply at_most_ord; [exact Hy|by apply Hl|by apply Hall].
Qed.

(** The sort of the [median] case: an ascending rearrangement. *)
Lemma Array_sort_perm (v : list float) :
  numbers v -> Permutation (Array_sort (fun a b => (a - b)%float) v) v.
Proof. intros Hv. rewrite (Array_sort_rank v Hv). apply sort_by_rank_perm. Qed.

Lemma Array_sort_sorted (v : list float) :
  numbers v -> StronglySorted at_most (Array_sort (fun a b => (a - b)%float) v).
Proof.
  intros Hv. rewrite (Array_sort_rank v Hv). apply sorted_at_most.
  - apply (numbers_perm v); [symmetry; apply sort_by_rank_perm|exact Hv].
  - apply sort_by_rank_sorted.
Qed.

Lemma index_lookup (s : list float) (i : nat) :
  (i < length s)%nat -> s !! i = Some (index s i).
Proof.
  intros Hi. unfold index. rewrite nth_lookup.
  destruct (lookup_lt_is_Some_2 s i Hi) as [x ->]. reflexivity.
Qed.

(** Both renditions on values that are given: the statistic, then its
    printed form. *)
Lemma data_analysis_eval (host : JsHost) {S : Type} (op : string) (v : list float)
    (w : World S) :
  v <> [] ->
  ClassTools.DataAnalysisTool_call host (mkDataAnalysisInput op v) w =
    Ret (VStr (match statistic host op v with
               | Returned (Some result) =>
                   toUpperCase op +:+ ": "
                   +:+ print_double (fun q => Number_toFixed host q 2) result
               | Returned None => "Error: Invalid operation."
               | Thrown e => "Error performing analysis: " +:+ error_message e
               end)) w /\
  RuntimeTools.DataAnalysisTool_call host (Some (mkDataAnalysisInput op v)) w =
    match statistic host op v with
    | Returned (Some result) =>
        Ret (VStr (op +:+ ": " +:+ print_double (Number_toString host) result)) w
    | Returned None => Ret (VStr "Invalid operation.") w
    | Thrown e => Throw e w
    end.
Proof.
  intros Hne. destruct v as [|x v]; [done|].
  unfold ClassTools.DataAnalysisTool_call, RuntimeTools.DataAnalysisTool_call, try_catch, bind.
  cbn [values operation length Nat.eqb].
  destruct (statistic host op (x :: v)) as [[result|]|e]; split; reflexivity.
Qed.

(** C4. For a non-empty sequence [v] of doubles, in the arithmetic of the
    language.  [mean] is the sum of [v], added from 0 in array order, divided
    by the length: the result of [sum] divided by the result of [count].  For
    numbers (no NaN among them) [median] is read off an ascending
    rearrangement [sorted] of [v]: the element at index floor(n/2) when n is
    odd, the sum of the elements at indices n/2 - 1 and n/2 divided by 2 when
    n is even.  The class-based rendition prints the result with two
    decimals after the upper-cased name, the object-literal one in the
    shortest form after the name. *)
Theorem data_analysis_mean_median (host : JsHost) {S : Type} (v : list float) (w : World S) :
  v <> [] ->
  (exists sum count r : float,
      statistic host "sum" v = Returned (Some sum) /\
      sum = fold_left (fun a b => (a + b)%float) v zero /\
      statistic host "count" v = Returned (Some count) /\
      count = Number_of_nat (length v) /\
      statistic host "mean" v = Returned (Some r) /\
      r = (sum / count)%float /\
      ClassTools.DataAnalysisTool_call host (mkDataAnalysisInput "mean" v) w =
        Ret (VStr ("MEAN: " +:+ print_double (fun q => Number_toFixed host q 2) r)) w /\
      RuntimeTools.DataAnalysisTool_call host (Some (mkDataAnalysisInput "mean" v)) w =
        Ret (VStr ("mean: " +:+ print_double (Number_toString host) r)) w) /\
  (numbers v ->
   exists (sorted : list float) (r : float),
      Permutation sorted v /\ StronglySorted at_most sorted /\
      statistic host "median" v = Returned (Some r) /\
      ((length v mod 2 = 1)%nat -> sorted !! (length v / 2)%nat = Some r) /\
      ((length v mod 2 = 0)%nat ->
       exists a b, sorted !! (length v / 2 - 1)%nat = Some a /\
                   sorted !! (length v / 2)%nat = Some b /\
                   r = ((a + b) / two)%float) /\
      ClassTools.DataAnalysisTool_call host (mkDataAnalysisInput "median" v) w =
        Ret (VStr ("MEDIAN: " +:+ print_double (fun q => Number_toFixed host q 2) r)) w /\
      RuntimeTools.DataAnalysisTool_call host (Some (mkDataAnalysisInput "median" v)) w =
        Ret (VStr ("median: " +:+ print_double (Number_toString host) r)) w).
Proof.
  intros Hne.
  destruct (data_analysis_eval host "mean" v w Hne) as (Hcmean & Hrmean).
  destruct (data_analysis_eval host "median" v w Hne) as (Hcmedian & Hrmedian).
  split.
  - exists (reduce_sum v), (Number_of_nat (length v)),
      (reduce_sum v / Number_of_nat (length v))%float.
    repeat (split; [reflexivity|]). split; [exact Hcmean|exact Hrmean].
  - intros Hv. set (sorted := Array_sort (fun a b => (a - b)%float) v).
    assert (Hperm : Permutation sorted v) by (by apply Array_sort_perm).
    assert (Hsl : length sorted = length v) by (by rewrite Hperm).
    assert (Hlen : (0 < length v)%nat) by (destruct v; [done|cbn; lia]).
    exists sorted, (median v).
    split; [exact Hperm|]. split; [by apply Array_sort_sorted|]. split; [reflexivity|].
    split; [|split; [|split; [exact Hcmedian|exact Hrmedian]]].
    + intros Hodd. unfold median. fold sorted. cbv zeta. rewrite Hsl, Hodd. cbn [Nat.eqb negb].
      apply index_lookup. rewrite Hsl. apply Nat.div_lt; lia.
    + intros Heven. unfold median. fold sorted. cbv zeta. rewrite Hsl, Heven. cbn [Nat.eqb negb].
      assert (Hmid : (length v / 2 < length v)%nat) by (apply Nat.div_lt; lia).
      exists (index sorted (length v / 2 - 1)), (index sorted (length v / 2)).
      split; [apply index_lookup; lia|]. split; [apply index_lookup; lia|reflexivity].
Qed.

Lemma data_analysis_mean_median_witness :
  ClassTools.DataAnalysisTool_call utc_host
    (mkDataAnalysisInput "mean" [10; 20; 30; 40; 50]%float) (sample_world ∅ ()) =
    Ret (VStr "MEAN: 30.00") (sample_world ∅ ()) /\
  ClassTools.DataAnalysisTool_call utc_host
    (mkDataAnalysisInput "median" [4; 1; 3; 2]%float) (sample_world ∅ ()) =
    Ret (VStr "MEDIAN: 2.50") (sample_world ∅ ()) /\
  RuntimeTools.DataAnalysisTool_call utc_host
    (Some (mkDataAnalysisInput "median" [3; -7; infinity]%float)) (sample_world ∅ ()) =
    Ret (VStr "median: 3") (sample_world ∅ ()).
Proof.
  split; [|split].
  - destruct (data_analysis_mean_median utc_host [10; 20; 30; 40; 50]%float
                (sample_world ∅ ())) as ((sum & count & r & _ & _ & _ & _ & Hr & _ & Hc & _) & _);
      [discriminate|].
    injection Hr as <-. exact Hc.
  - destruct (data_analysis_mean_median utc_host [4; 1; 3; 2]%float (sample_world ∅ ()))
      as (_ & Hmedian); [discriminate|].
    destruct Hmedian as (sorted & r & _ & _ & Hr & _ & _ & Hc & _);
      [repeat constructor|].
    injection Hr as <-. exact Hc.
  - destruct (data_analysis_mean_median utc_host [3; -7; infinity]%float
                (sample_world ∅ ())) as (_ & Hmedian); [discriminate|].
    destruct Hmedian as (sorted & r & _ & _ & Hr & _ & _ & _ & Hc);
      [repeat constructor|].
    injection Hr as <-. exact Hc.
Defined.

(** The arithmetic is that of doubles: a sum rounds, and an average of two
    finite numbers can overflow. *)
Lemma data_analysis_rounds :
  statistic utc_host "sum" [9007199254740992; 1]%float = Returned (Some 9007199254740992%float) /\
  statistic utc_host "mean" [9007199254740992; 1]%float = Returned (Some 4503599627370496%float) /\
  statistic utc_host "median" [0x1.fffffffffffffp+1023; 0x1.fffffffffffffp+1023]%float
    = Returned (Some infinity).
Proof. repeat split. Qed.


(** ** [datetime]: shifting by days *)

(** [setDate(getDate() + days)] moves the local time by whole days, whatever
    the calendar: the day of the month drops out. *)
Lemma add_days_local_shift (host : JsHost) (t d : Z) :
  add_days host (Some t) d = TimeClip (UTC host (LocalTime host t + d * msPerDay)).
Proof.
  unfold add_days, setDate, getDate, option_map. f_equal. f_equal.
  unfold MakeDate, MakeDay_same_month, DateFromTime, Day, TimeWithinDay.
  pose proof (Z.div_mod (LocalTime host t) msPerDay) as Hdm.
  generalize dependent (LocalTime host t / msPerDay).
  generalize dependent (LocalTime host t mod msPerDay).
  intros r q Hdm. unfold msPerDay in *. lia.
Qed.

Lemma TimeClip_in_range (t : Z) : Z.abs t <= maxTimeValue -> TimeClip t = Some t.
Proof. intros H. unfold TimeClip. by rewrite (proj2 (Z.leb_le _ _) H). Qed.

(** In a zone of constant offset the shift is exact. *)
Lemma add_days_constant_offset (host : JsHost) (offset t d : Z) :
  (forall x, LocalTZA_utc host x = offset) ->
  (forall x, LocalTZA_local host x = offset) ->
  Z.abs (t + d * msPerDay) <= maxTimeValue ->
  add_days host (Some t) d = Some (t + d * msPerDay).
Proof.
  intros Hutc Hlocal Hrange. rewrite add_days_local_shift.
  unfold UTC, LocalTime. rewrite Hutc, Hlocal.
  replace (t + offset + d * msPerDay - offset) with (t + d * msPerDay) by lia.
  by apply TimeClip_in_range.
Qed.

Lemma pretty_zero : pretty 0 = "0".
Proof. vm_compute. reflexivity. Qed.

Section DateTimeFacts.
Variable host : JsHost.
Context {S : Type}.

Lemma class_datetime_current (w : World S) :
  ClassTools.DateTimeTool_call host (mkDateTimeInput "current" None None) w =
    Ret (VStr ("Current date and time: " +:+ Date_toISOString host (clock w (ticks w))))
        (tick w).
Proof. reflexivity. Qed.

Lemma runtime_datetime_current (w : World S) :
  RuntimeTools.DateTimeTool_call host (Some (mkDateTimeInput "current" None None)) w =
    Ret (VStr ("Current date and time: " +:+ Date_toISOString host (clock w (ticks w))))
        (tick w).
Proof. reflexivity. Qed.

Lemma class_datetime_add_days (d u : Z) (w : World S) :
  add_days host (Some (clock w (ticks w))) d = Some u ->
  ClassTools.DateTimeTool_call host (mkDateTimeInput "add_days" (Some d) None) w =
    Ret (VStr ("Date after " +:+ pretty d +:+ " days: " +:+ Date_toISOString host u))
        (tick w).
Proof.
  intros Hshift. unfold ClassTools.DateTimeTool_call, try_catch, bind, new_Date, bind,
    Date_now, ret. cbn [action days String.eqb Ascii.eqb Bool.eqb].
  rewrite Hshift. reflexivity.
Qed.

Lemma runtime_datetime_add_days (d u : Z) (w : World S) :
  add_days host (Some (clock w (ticks w))) d = Some u ->
  RuntimeTools.DateTimeTool_call host (Some (mkDateTimeInput "add_days" (Some d) None)) w =
    Ret (VStr ("Date after " +:+ pretty d +:+ " days: " +:+ Date_toISOString host u))
        (tick w).
Proof.
  intros Hshift. unfold RuntimeTools.DateTimeTool_call, bind, new_Date, bind,
    Date_now, ret. cbn [option_map mbind option_bind action days String.eqb Ascii.eqb Bool.eqb].
  rewrite Hshift. reflexivity.
Qed.
End DateTimeFacts.

(** C9, as stated, fails on a host whose zone has offset transitions.  In
    America/New_York, at 2025-11-02T06:30:00Z (01:30 EST, an hour that the
    end of daylight saving time repeats) a shift by zero days yields
    05:30:00Z; from 2025-03-12T06:30:00Z, three days back lands on the
    skipped 02:30 of 2025-03-09, and three days forward from there yields
    07:30:00Z instead of the original instant. *)
Lemma add_days_across_dst :
  add_days new_york_host (Some 1762065000000) 0 = Some (1762065000000 - msPerHour) /\
  add_days new_york_host (Some 1762065000000) 0 <> Some 1762065000000 /\
  add_days new_york_host (add_days new_york_host (Some 1741761000000) (-3)) 3
    = Some (1741761000000 + msPerHour) /\
  add_days new_york_host (add_days new_york_host (Some 1741761000000) (-3)) 3
    <> Some 1741761000000 /\
  returned (ClassTools.DateTimeTool_call new_york_host
              (mkDateTimeInput "current" None None) repeated_hour_world)
    = Some (VStr "Current date and time: 2025-11-02T06:30:00.000Z") /\
  returned (ClassTools.DateTimeTool_call new_york_host
              (mkDateTimeInput "add_days" (Some 0) None) repeated_hour_world)
    = Some (VStr "Date after 0 days: 2025-11-02T05:30:00.000Z").
Proof.
  assert (Hc : returned (ClassTools.DateTimeTool_call new_york_host
                           (mkDateTimeInput "current" None None) repeated_hour_world)
               = Some (VStr "Current date and time: 2025-11-02T06:30:00.000Z"))
    by (vm_compute; reflexivity).
  assert (Ha : returned (ClassTools.DateTimeTool_call new_york_host
                           (mkDateTimeInput "add_days" (Some 0) None) repeated_hour_world)
               = Some (VStr "Date after 0 days: 2025-11-02T05:30:00.000Z"))
    by (vm_compute; reflexivity).
  assert (H0 : add_days new_york_host (Some 1762065000000) 0 = Some (1762065000000 - msPerHour))
    by (vm_compute; reflexivity).
  assert (H3 : add_days new_york_host (add_days new_york_host (Some 1741761000000) (-3)) 3
               = Some (1741761000000 + msPerHour))
    by (vm_compute; reflexivity).
  split; [exact H0|]. split; [rewrite H0; discriminate|].
  split; [exact H3|]. split; [rewrite H3; discriminate|].
  split; [exact Hc|exact Ha].
Qed.

(** The zero-day shift reads the local time of the instant back: it is the
    identity exactly where that reading gives the instant again. *)
Lemma add_days_zero (host : JsHost) (t : Z) :
  Z.abs t <= maxTimeValue ->
  UTC host (LocalTime host t) = t ->
  add_days host (Some t) 0 = Some t.
Proof.
  intros Hrange Hback. rewrite add_days_local_shift.
  replace (LocalTime host t + 0 * msPerDay) with (LocalTime host t) by lia.
  rewrite Hback. by apply TimeClip_in_range.
Qed.

(** C9, amended.  On every host, and while the instants stay within the range
    of Date.  Shifting the base instant by zero days gives the base instant,
    the very instant that [current] reports from the same reading of the
    clock, provided the local time of the base instant reads back as the base
    instant (it is not the second pass of an hour that a clock change
    repeats).  Shifting by -d days and then by d days gives the base instant
    back provided, in addition, the local time d days before the base exists
    (it is not skipped by a clock change).  A zone of constant offset meets
    both conditions at every instant. *)
Theorem add_days_identity_and_inverse (host : JsHost) {S : Type} (t d : Z)
    (w : World S) :
  Z.abs t <= maxTimeValue ->
  UTC host (LocalTime host t) = t ->
  clock w (ticks w) = t ->
  add_days host (Some t) 0 = Some t /\
  (LocalTime host (UTC host (LocalTime host t - d * msPerDay))
     = LocalTime host t - d * msPerDay ->
   Z.abs (UTC host (LocalTime host t - d * msPerDay)) <= maxTimeValue ->
   add_days host (add_days host (Some t) (- d)) d = Some t) /\
  (exists now : string,
    now = Date_toISOString host t /\
    ClassTools.DateTimeTool_call host (mkDateTimeInput "current" None None) w =
      Ret (VStr ("Current date and time: " +:+ now)) (tick w) /\
    ClassTools.DateTimeTool_call host (mkDateTimeInput "add_days" (Some 0) None) w =
      Ret (VStr ("Date after 0 days: " +:+ now)) (tick w) /\
    RuntimeTools.DateTimeTool_call host (Some (mkDateTimeInput "current" None None)) w =
      Ret (VStr ("Current date and time: " +:+ now)) (tick w) /\
    RuntimeTools.DateTimeTool_call host (Some (mkDateTimeInput "add_days" (Some 0) None)) w =
      Ret (VStr ("Date after 0 days: " +:+ now)) (tick w)) /\
  (forall offset,
     (forall x, LocalTZA_utc host x = offset) ->
     (forall x, LocalTZA_local host x = offset) ->
     forall u, UTC host (LocalTime host u) = u /\ LocalTime host (UTC host u) = u).
Proof.
  intros Ht Hback Hclock.
  pose proof (add_days_zero host t Ht Hback) as Hzero.
  split; [exact Hzero|]. split; [|split].
  - intros Hexists Hrange. rewrite (add_days_local_shift host t (- d)).
    replace (LocalTime host t + - d * msPerDay) with (LocalTime host t - d * msPerDay) by lia.
    rewrite (TimeClip_in_range _ Hrange), add_days_local_shift, Hexists.
    replace (LocalTime host t - d * msPerDay + d * msPerDay) with (LocalTime host t) by lia.
    rewrite Hback. by apply TimeClip_in_range.
  - exists (Date_toISOString host t). split; [reflexivity|]. rewrite <- Hclock in *.
    rewrite class_datetime_current, runtime_datetime_current.
    rewrite (class_datetime_add_days host 0 _ w Hzero).
    rewrite (runtime_datetime_add_days host 0 _ w Hzero).
    rewrite pretty_zero. repeat split.
  - intros offset Hutc Hlocal u. unfold UTC, LocalTime. rewrite !Hutc, !Hlocal. lia.
Qed.

(** An instance in America/New_York: from 2025-03-12T16:00:00Z (12:00 EDT)
    five days back is 2025-03-07, 12:00 EST, on the other side of the start
    of daylight saving time. *)
Lemma add_days_identity_and_inverse_witness :
  add_days new_york_host (Some 1741795200000) 0 = Some 1741795200000 /\
  add_days new_york_host (Some 1741795200000) (-5) = Some (1741795200000 - 5 * msPerDay + msPerHour) /\
  add_days new_york_host (add_days new_york_host (Some 1741795200000) (-5)) 5
    = Some 1741795200000.
Proof.
  destruct (add_days_identity_and_inverse new_york_host 1741795200000 5
              (mkWorld [] ∅ (fun _ => 1741795200000) 0 ()))
    as (Hzero & Hround & _).
  - vm_compute. discriminate.
  - reflexivity.
  - reflexivity.
  - split; [exact Hzero|]. split; [vm_compute; reflexivity|].
    apply Hround; [reflexivity|vm_compute; discriminate].
Defined.

(** * Further properties *)

(** ** [agent.ts]: the request, the turn, the factory *)

Lemma assoc_set_prop (k k' : string) (v : JsVal) (props : list (string * JsVal)) :
  assoc k (set_prop k' v props) = if String.eqb k k' then Some v else assoc k props.
Proof.
  induction props as [|[k0 v0] props IH]; cbn [set_prop assoc].
  - by destruct (String.eqb k k').
  - destruct (String.eqb_spec k' k0) as [->|Hne]; cbn [assoc].
    + by destruct (String.eqb k k0).
    + rewrite IH. destruct (String.eqb_spec k k0) as [->|Hne']; [|reflexivity].
      destruct (String.eqb_spec k0 k') as [->|_]; [done|reflexivity].
Qed.

Lemma assoc_app (k : string) (l1 l2 : list (string * JsVal)) :
  assoc k (l1 ++ l2) = match assoc k l1 with
                       | Some v => Some v
                       | None => assoc k l2
                       end.
Proof.
  induction l1 as [|[k0 v0] l1 IH]; cbn [app assoc]; [reflexivity|].
  by destruct (String.eqb k k0).
Qed.

(** In a spread the later source wins, key by key. *)
Lemma assoc_spread (k : string) (source : list (string * JsVal)) :
  forall target,
    assoc k (spread target source) =
      match assoc k (rev source) with
      | Some v => Some v
      | None => assoc k target
      end.
Proof.
  unfold spread. induction source as [|[k0 v0] source IH]; intros target;
    cbn [fold_left rev fst snd]; [reflexivity|].
  rewrite IH, assoc_app, assoc_set_prop. cbn [assoc].
  destruct (assoc k (rev source)); [reflexivity|].
  by destruct (String.eqb k k0).
Qed.

(** X1. What the executor is handed, field by field: a field of the metadata
    is passed through under its name, and a metadata field named [input]
    replaces the caller's input; without such a field the input is the
    caller's, and any other name is [undefined]. *)
Theorem invoke_args_fields (input : string) (meta : option (list (string * JsVal)))
    (k : string) :
  get_prop (invoke_args input meta) k =
    Returned (default (if String.eqb k "input" then VStr input else VUndefined)
                      (assoc k (rev (default [] meta)))).
Proof.
  unfold invoke_args. cbn [get_prop]. f_equal. rewrite assoc_spread. cbn [assoc].
  destruct (assoc k (rev (default [] meta))); [reflexivity|].
  by destruct (String.eqb k "input").
Qed.

(** X2. An invocation that resolves to [undefined] or [null] makes a failed
    turn, although nothing was thrown by the executor: the read of [.output]
    throws inside the [try].  Both clock readings were taken by then, the
    result has no duration, and the executor keeps the state the invocation
    left. *)
Theorem runAgent_empty_result {S : Type} (executor : AgentExecutor S) (input : string)
    (meta : option (list (string * JsVal))) (w : World S) (v : JsVal) (s' : S) :
  invoke_fn executor (invoke_args input meta) (collab w) = (Returned v, s') ->
  v = VUndefined \/ v = VNull ->
  exists r w',
    runAgent executor input meta w = Ret r w' /\
    success r = false /\ output r = VStr fallback_output /\
    (exists m, error r = Some m) /\ duration r = None /\ metadata r = None /\
    ticks w' = (2 + ticks w)%nat /\ collab w' = s'.
Proof.
  intros Hinvoke Hv. rewrite runAgent_eval. cbv zeta. rewrite Hinvoke.
  destruct Hv as [-> | ->]; cbn [get_prop]; eexists _, _;
    (split; [reflexivity|]); cbn; repeat split; by eexists.
Qed.

Lemma runAgent_empty_result_witness :
  exists r w',
    runAgent silent_executor "hello" None (sample_world ∅ ()) = Ret r w' /\
    success r = false /\ output r = VStr fallback_output.
Proof.
  destruct (runAgent_empty_result silent_executor "hello" None (sample_world ∅ ())
              VUndefined () eq_refl (or_introl eq_refl))
    as (r & w' & Hrun & Hs & Ho & _).
  by exists r, w'.
Defined.

(** X3. One turn is one invocation: [runAgent] adds to the trace console
    lines and exactly one executor invocation, with the request built from
    its arguments; it leaves the environment alone, and the executor's state
    afterwards is the one the invocation produced. *)
Theorem runAgent_single_invocation {S : Type} (executor : AgentExecutor S) (input : string)
    (meta : option (list (string * JsVal))) (w : World S) :
  exists r w' events,
    runAgent executor input meta w = Ret r w' /\
    trace w' = trace w ++ events /\
    invocations events = [invoke_args input meta] /\
    Forall (fun e => is_console e = true \/ e = ExecutorInvoke (invoke_args input meta))
           events /\
    env w' = env w /\
    collab w' = snd (invoke_fn executor (invoke_args input meta) (collab w)).
Proof.
  rewrite runAgent_eval. cbv zeta.
  destruct (invoke_fn executor _ (collab w)) as [[result|e] s'];
    [destruct (get_prop result "output") as [out|e]|];
    eexists _, _, _; (split; [reflexivity|]); unfold advance; cbn [trace env collab snd];
    (split; [reflexivity|]); (split; [reflexivity|]);
    (split; [|split; reflexivity]);
    repeat (constructor; [first [by left | by right]|]); constructor.
Qed.

(** X4. When OPENAI_API_KEY is unset or empty, [createProductionAgent]
    throws an error that names the variable, whatever the configuration and
    before anything else happens: the clock is not read, LangChain is not
    asked for an executor, and nothing is written. *)
Theorem createProductionAgent_without_key (host : JsHost) {S : Type}
    (langchain : ExecutorSpec -> outcome (AgentExecutor S)) (tools : list string)
    (config : AgentConfig) (w : World S) :
  env_set "OPENAI_API_KEY" w = false ->
  thrown (createProductionAgent host langchain tools config w) =
    Some (VError "OPENAI_API_KEY environment variable is required") /\
  final_world (createProductionAgent host langchain tools config w) = w.
Proof.
  intros Hunset.
  by rewrite (createProductionAgent_requires_key host langchain tools config w Hunset).
Qed.

Lemma createProductionAgent_without_key_witness :
  thrown (createProductionAgent utc_host (fun _ => Returned echo_executor) []
            (mkAgentConfig None None None None None)
            (sample_world env_without_openai_key ())) =
    Some (VError "OPENAI_API_KEY environment variable is required").
Proof.
  assert (Hunset : env_set "OPENAI_API_KEY" (sample_world env_without_openai_key ()) = false)
    by (vm_compute; reflexivity).
  exact (proj1 (createProductionAgent_without_key utc_host (fun _ => Returned echo_executor) []
                  (mkAgentConfig None None None None None) _ Hunset)).
Defined.

(** X5. With the credential present the factory reads the clock once, asks
    LangChain for one executor and ends as that construction ends (the
    executor is returned, an exception is passed on).  The specification it
    hands over carries the credential, the imported tools, the fields of the
    configuration with the defaults gpt-4, 0.7, 2000, verbose and five
    iterations where a field is omitted, and a system prompt stamped with the
    instant of construction. *)
Theorem createProductionAgent_constructs (host : JsHost) {S : Type}
    (langchain : ExecutorSpec -> outcome (AgentExecutor S)) (tools : list string)
    (config : AgentConfig) (w : World S) (key : string) :
  env w !! "OPENAI_API_KEY" = Some key -> key <> EmptyString ->
  exists spec,
    createProductionAgent host langchain tools config w =
      lift_outcome (langchain spec) (advance [ConstructExecutor spec] 1 (collab w) w) /\
    spec_openAIApiKey spec = key /\ spec_tools spec = tools /\
    spec_modelName spec = default "gpt-4" (modelName config) /\
    spec_temperature spec = default (7 # 10)%Q (temperature config) /\
    spec_maxTokens spec = default 2000%Q (maxTokens config) /\
    spec_maxIterations spec = default 5%Q (maxIterations config) /\
    spec_verbose spec = default true (verbose config) /\
    spec_prompt spec =
      "You are a professional AI assistant powered by advanced language models and equipped with specialized tools."
      +:+ nl +:+ "Current datetime: " +:+ Date_toISOString host (clock w (ticks w)).
Proof.
  intros Hkey Hne.
  assert (Hnonempty : nonempty (Some key) = true).
  { cbn. destruct (String.eqb_spec key EmptyString); [done|reflexivity]. }
  eexists. split.
  - unfold createProductionAgent, bind, getenv. cbv zeta. rewrite Hkey, Hnonempty.
    cbn [negb]. unfold new_Date, bind, Date_now, ret, toISOString, lift_outcome at 1.
    unfold emit, advance. cbn [trace env clock ticks collab default]. reflexivity.
  - repeat split.
Qed.

Lemma createProductionAgent_constructs_witness :
  exists spec,
    constructions
      (trace (final_world
         (createProductionAgent utc_host (fun _ => Returned echo_executor)
            ["document_search"] (mkAgentConfig None None None None None)
            (sample_world full_env ())))) = [spec] /\
    spec_openAIApiKey spec = "sk-test" /\ spec_modelName spec = "gpt-4" /\
    spec_maxTokens spec = 2000%Q.
Proof.
  destruct (createProductionAgent_constructs utc_host (fun _ => Returned echo_executor)
              ["document_search"] (mkAgentConfig None None None None None)
              (sample_world full_env ()) "sk-test")
    as (spec & Hrun & Hk & _ & Hm & _ & Ht & _).
  - vm_compute. reflexivity.
  - discriminate.
  - exists spec. rewrite Hrun. split; [reflexivity|]. by rewrite Hk, Hm, Ht.
Defined.

(** ** [index.ts]: console output, the modes, the entry point *)

Lemma timeouts_app (t1 t2 : list Event) : timeouts (t1 ++ t2) = timeouts t1 ++ timeouts t2.
Proof. unfold timeouts. apply omap_app. Qed.

Lemma constructions_app (t1 t2 : list Event) :
  constructions (t1 ++ t2) = constructions t1 ++ constructions t2.
Proof. unfold constructions. apply omap_app. Qed.

(** Console events are neither invocations, nor pauses, nor constructions. *)
Lemma console_events_silent (es : list Event) :
  Forall (fun e => is_console e = true) es ->
  invocations es = [] /\ timeouts es = [] /\ constructions es = [].
Proof.
  induction 1 as [|e es He _ IH]; [done|].
  destruct IH as (Hi & Ht & Hc). destruct e; try discriminate He; cbn; by rewrite ?Hi, ?Ht, ?Hc.
Qed.

Lemma console_only_ret {S A : Type} (a : A) : console_only (S := S) (ret a).
Proof. intros w. exists a, []. split; [|constructor]. unfold ret. by rewrite advance_nothing. Qed.

Lemma console_only_log {S : Type} (args : list JsVal) :
  console_only (S := S) (console_log args).
Proof. intros w. exists (), [ConsoleLog args]. split; [reflexivity|by repeat constructor]. Qed.

Lemma console_only_error {S : Type} (args : list JsVal) :
  console_only (S := S) (console_error args).
Proof. intros w. exists (), [ConsoleError args]. split; [reflexivity|by repeat constructor]. Qed.

Lemma console_only_bind {S A B : Type} (m : M (World S) A) (k : A -> M (World S) B) :
  console_only m -> (forall a, console_only (k a)) -> console_only (bind m k).
Proof.
  intros Hm Hk w. destruct (Hm w) as (a & es & Hrun & Hes).
  destruct (Hk a (advance es 0 (collab w) w)) as (b & es' & Hrun' & Hes').
  exists b, (es ++ es'). split; [|by apply Forall_app].
  unfold bind. rewrite Hrun, Hrun'. cbn [collab advance]. by rewrite advance_advance.
Qed.

Lemma console_only_for_of {S A B : Type} (l : list A) (body : A -> B -> M (World S) B) :
  (forall x acc, console_only (body x acc)) -> forall acc, console_only (for_of l body acc).
Proof.
  intros Hbody. induction l as [|x l IH]; intros acc; cbn [for_of].
  - apply console_only_ret.
  - apply console_only_bind; [apply Hbody|exact IH].
Qed.

#[export] Hint Resolve console_only_ret console_only_log console_only_error : effects.

Ltac console_only_step :=
  first
    [ solve [eauto with effects]
    | match goal with
      | |- console_only (if ?b then _ else _) => destruct b
      | |- console_only (match ?x with _ => _ end) => destruct x
      | |- console_only (match ?x with _ => _ end _) => destruct x; cbv beta
      | |- console_only (for_of _ _ _) => apply console_only_for_of; intros ? ?
      end
    | apply console_only_bind; [|intros ?] ].

Ltac console_only := repeat console_only_step.

Section Modes.
Context {S : Type}.
Variable agent : AgentExecutor S.

(** What a turn adds to the trace. *)
Lemma runAgent_trace (input : string) (meta : option (list (string * JsVal))) (w : World S) :
  exists r w' events,
    runAgent agent input meta w = Ret r w' /\
    trace w' = trace w ++ events /\
    invocations events = [invoke_args input meta] /\
    timeouts events = [] /\ constructions events = [] /\
    env w' = env w.
Proof.
  rewrite runAgent_eval. cbv zeta.
  destruct (invoke_fn agent _ (collab w)) as [[result|e] s'];
    [destruct (get_prop result "output") as [out|e]|];
    eexists _, _, _; (split; [reflexivity|]); unfold advance; cbn [trace env];
    repeat split.
Qed.

(** The loop of the demo, over any list of queries. *)
Lemma demo_loop (qs : list string) :
  forall w : World S,
  exists w',
    for_of qs
      (fun query (_ : ()) =>
         result <- runAgent agent query None ;;
         (if success result then
            console_log [VStr (nl +:+ "💬 Response:"); output result] ;;;
            console_log [VStr ("⏱️  Duration: " +:+ show_duration (duration result) +:+ "ms")]
          else
            console_log [VStr (nl +:+ "❌ Error:");
                         match error result with
                         | Some m => VStr m
                         | None => VUndefined
                         end]) ;;;
         console_log [VStr (nl +:+ rule 70 +:+ nl)] ;;;
         emit (SetTimeout 1000))
      () w = Ret () w' /\
    invocations (trace w') = invocations (trace w) ++ map (fun q => invoke_args q None) qs /\
    timeouts (trace w') = timeouts (trace w) ++ map (fun _ => 1000) qs /\
    constructions (trace w') = constructions (trace w) /\
    env w' = env w.
Proof.
  induction qs as [|q qs IH]; intros w.
  - exists w. cbn. by rewrite !app_nil_r.
  - cbn [for_of map].
    destruct (runAgent_trace q None w) as (r & w1 & es & Hrun & Htr & Hinv & Hto & Hco & Henv).
    assert (Hrest : exists es',
      ((if success r then
          console_log [VStr (nl +:+ "💬 Response:"); output r] ;;;
          console_log [VStr ("⏱️  Duration: " +:+ show_duration (duration r) +:+ "ms")]
        else
          console_log [VStr (nl +:+ "❌ Error:");
                       match error r with
                       | Some m => VStr m
                       | None => VUndefined
                       end]) ;;;
       console_log [VStr (nl +:+ rule 70 +:+ nl)] ;;;
       emit (SetTimeout 1000)) w1
      = Ret () (advance (es' ++ [SetTimeout 1000]) 0 (collab w1) w1) /\
      Forall (fun e => is_console e = true) es').
    { destruct (success r).
      - exists [ConsoleLog [VStr (nl +:+ "💬 Response:"); output r];
                ConsoleLog [VStr ("⏱️  Duration: " +:+ show_duration (duration r) +:+ "ms")];
                ConsoleLog [VStr (nl +:+ rule 70 +:+ nl)]].
        split; [|by repeat constructor].
        unfold bind, console_log. rewrite !emit_advance, !advance_advance. reflexivity.
      - exists [ConsoleLog [VStr (nl +:+ "❌ Error:");
                            match error r with
                            | Some m => VStr m
                            | None => VUndefined
                            end];
                ConsoleLog [VStr (nl +:+ rule 70 +:+ nl)]].
        split; [|by repeat constructor].
        unfold bind, console_log. rewrite !emit_advance, !advance_advance. reflexivity. }
    destruct Hrest as (es' & Hrest & Hes').
    destruct (console_events_silent es' Hes') as (Hi' & Ht' & Hc').
    destruct (IH (advance (es' ++ [SetTimeout 1000]) 0 (collab w1) w1))
      as (w' & Hloop & Hinv' & Hto' & Hco' & Henv').
    exists w'. split; [|split; [|split; [|split]]].
    + unfold bind at 1. unfold bind at 1. rewrite Hrun. rewrite Hrest. exact Hloop.
    + rewrite Hinv'. unfold advance. cbn [trace]. rewrite Htr, !invocations_app, Hinv, Hi'.
      cbn. by rewrite app_nil_r, <- app_assoc.
    + rewrite Hto'. unfold advance. cbn [trace]. rewrite Htr, !timeouts_app, Hto, Ht'.
      cbn. by rewrite app_nil_r, <- app_assoc.
    + rewrite Hco'. unfold advance. cbn [trace]. rewrite Htr, !constructions_app, Hco, Hc'.
      cbn. by rewrite !app_nil_r.
    + by rewrite Henv'.
Qed.
End Modes.

Lemma bind_log {S A : Type} (args : list JsVal) (k : M (World S) A) (w : World S) :
  (console_log args ;;; k) w = k (advance [ConsoleLog args] 0 (collab w) w).
Proof. reflexivity. Qed.

Lemma bind_ret {W A B : Type} (m : M W A) (k : A -> M W B) (w w' : W) (a : A) :
  m w = Ret a w' -> bind m k w = k a w'.
Proof. intros H. unfold bind. by rewrite H. Qed.

Lemma bind_log_advance {S A : Type} (args : list JsVal) (k : M (World S) A)
    (es : list Event) (n : nat) (s : S) (w : World S) :
  (console_log args ;;; k) (advance es n s w) = k (advance (es ++ [ConsoleLog args]) n s w).
Proof. rewrite bind_log, advance_advance. reflexivity. Qed.

Lemma bind_error_advance {S A : Type} (args : list JsVal) (k : M (World S) A)
    (es : list Event) (n : nat) (s : S) (w : World S) :
  (console_error args ;;; k) (advance es n s w) = k (advance (es ++ [ConsoleError args]) n s w).
Proof.
  unfold bind, console_error. rewrite emit_advance, advance_advance. reflexivity.
Qed.

Lemma bind_getenv_advance {S A : Type} (name : string) (k : option string -> M (World S) A)
    (es : list Event) (n : nat) (s : S) (w : World S) :
  bind (getenv name) k (advance es n s w) = k (env w !! name) (advance es n s w).
Proof. reflexivity. Qed.

Section ModesReturn.
Context {S : Type}.
Variable agent : AgentExecutor S.

Lemma runDemoMode_trace (w : World S) :
  exists w',
    runDemoMode agent w = Ret () w' /\
    invocations (trace w') =
      invocations (trace w) ++ map (fun q => invoke_args q None) demoQueries /\
    timeouts (trace w') = timeouts (trace w) ++ map (fun _ => 1000) demoQueries.
Proof.
  unfold runDemoMode. rewrite !bind_log, advance_advance.
  match goal with
  | |- context [bind (for_of demoQueries _ _) _ ?w0] =>
      destruct (demo_loop agent demoQueries w0) as (w1 & Hloop & Hinv & Hto & _)
  end.
  rewrite (bind_ret _ _ _ _ _ Hloop). unfold console_log. rewrite emit_advance.
  eexists. split; [reflexivity|].
  unfold advance. cbn [trace]. unfold advance in Hinv, Hto. cbn [trace] in Hinv, Hto.
  rewrite !invocations_app, !timeouts_app, Hinv, Hto, !invocations_app, !timeouts_app.
  cbn. by rewrite !app_nil_r.
Qed.

Lemma batchProcess_trace (qs : list string) (w : World S) :
  exists rs w',
    batchProcess agent qs w = Ret rs w' /\
    length rs = length qs /\
    invocations (trace w') = invocations (trace w) ++ map (fun q => invoke_args q None) qs.
Proof.
  set (w0 := advance [ConsoleLog [VStr (nl +:+ "📦 Batch processing "
                                       +:+ pretty (length qs) +:+ " queries...")]]
                     0 (collab w) w).
  destruct (batch_loop agent (length qs) qs 0%nat [] w0) as (rs & w1 & Hloop & _ & Hlen & Hinv).
  exists rs. eexists. split; [|split; [exact Hlen|]].
  - unfold batchProcess, entries. unfold bind at 1. unfold console_log at 1.
    rewrite emit_advance. fold w0. unfold bind at 1.
    cbn [app Nat.add] in Hloop. rewrite Hloop.
    unfold bind, console_log. rewrite emit_advance. reflexivity.
  - unfold advance at 1. cbn [trace]. rewrite invocations_app, Hinv.
    subst w0. unfold advance. cbn [trace]. rewrite invocations_app. cbn.
    by rewrite !app_nil_r.
Qed.

Lemma runBatchMode_trace (w : World S) :
  exists w',
    runBatchMode agent w = Ret () w' /\
    invocations (trace w') =
      invocations (trace w) ++ map (fun q => invoke_args q None) batchQueries.
Proof.
  unfold runBatchMode. rewrite bind_log.
  destruct (batchProcess_trace batchQueries
              (advance [ConsoleLog [VStr ("📦 Running Batch Mode..." +:+ nl)]] 0 (collab w) w))
    as (rs & w1 & Hbatch & _ & Hinv).
  rewrite (bind_ret _ _ _ _ _ Hbatch).
  assert (Hsummary : console_only (S := S)
    (console_log [VStr (nl +:+ "📊 Batch Results Summary:")] ;;;
     console_log [VStr (rule 70)] ;;;
     for_of (entries rs)
       (fun '(idx, result) _ =>
          console_log [VStr (nl +:+ pretty (idx + 1)%nat +:+ ". "
                             +:+ (if success result then "✅ Success" else "❌ Failed"))] ;;;
          if success result then
            console_log [VStr ("   Duration: " +:+ show_duration (duration result) +:+ "ms")]
          else ret tt)
       tt ;;;
     console_log [VStr nl])).
  { console_only. }
  destruct (Hsummary w1) as (u & es & Hrun & Hes). destruct u.
  rewrite Hrun. eexists. split; [reflexivity|].
  unfold advance at 1. cbn [trace]. rewrite invocations_app, Hinv.
  destruct (console_events_silent es Hes) as (-> & _). unfold advance. cbn [trace].
  rewrite invocations_app. cbn. by rewrite !app_nil_r.
Qed.

(** How a session ends: with status 0 at the first [exit] or [quit], and by
    running out of input otherwise. *)
Lemma askQuestion_outcome (lines : list string) :
  forall w : World S,
  exists w',
    askQuestion agent lines w = (if session_exits lines then Exit 0 w' else Ret () w').
Proof.
  induction lines as [|input rest IH]; intros w.
  - cbn. eexists. reflexivity.
  - rewrite askQuestion_cons. cbv zeta. cbn [session_exits].
    destruct (String.eqb (trim input) EmptyString); [apply IH|].
    destruct (String.eqb (toLowerCase (trim input)) "exit"
              || String.eqb (toLowerCase (trim input)) "quit"); [by eexists|].
    destruct (String.eqb (toLowerCase (trim input)) "help"); [apply IH|].
    destruct (runAgent_returns agent (trim input) None
                (advance [Question "You: "] 0 (collab w) w)) as (r & w2 & -> & _).
    apply IH.
Qed.

Lemma runInteractiveMode_trace (lines : list string) (w : World S) :
  exists w',
    runInteractiveMode agent lines w =
      (if session_exits lines then Exit 0 w' else Ret () w') /\
    invocations (trace w') =
      invocations (trace w) ++ map (fun q => invoke_args q None) (session_queries lines).
Proof.
  unfold runInteractiveMode, bind, console_log. rewrite !emit_advance, !advance_advance.
  match goal with
  | |- context [askQuestion agent lines ?w0] =>
      destruct (askQuestion_outcome lines w0) as (w' & Hout);
      pose proof (askQuestion_invocations agent lines w0) as Hinv
  end.
  exists w'. split; [exact Hout|].
  rewrite Hout in Hinv.
  replace (final_world (if session_exits lines then Exit 0 w' else Ret () w')) with w' in Hinv
    by (by destruct (session_exits lines)).
  rewrite Hinv. unfold advance. cbn [trace]. rewrite invocations_app. cbn.
  by rewrite app_nil_r.
Qed.
End ModesReturn.

Section Main.
Variable host : JsHost.
Context {S : Type}.
Variable langchain : ExecutorSpec -> outcome (AgentExecutor S).
Variable tools : list string.

Lemma createProductionAgent_eval (config : AgentConfig) (w : World S) (key : string) :
  env w !! "OPENAI_API_KEY" = Some key -> key <> EmptyString ->
  createProductionAgent host langchain tools config w =
    lift_outcome (langchain (agent_spec host tools config key (clock w (ticks w))))
      (advance [ConstructExecutor (agent_spec host tools config key (clock w (ticks w)))]
               1 (collab w) w).
Proof.
  intros Hkey Hne.
  assert (Hnonempty : nonempty (Some key) = true).
  { cbn. destruct (String.eqb_spec key EmptyString); [done|reflexivity]. }
  unfold createProductionAgent, bind, getenv. cbv zeta. rewrite Hkey, Hnonempty.
  reflexivity.
Qed.

Lemma env_set_key (name : string) (w : World S) :
  env_set name w = true -> exists key, env w !! name = Some key /\ key <> EmptyString.
Proof.
  unfold env_set. destruct (env w !! name) as [key|]; [|discriminate].
  intros Hkey. exists key. split; [reflexivity|]. intros ->. discriminate Hkey.
Qed.

(** [main] with a complete configuration, up to the choice of the mode. *)
Lemma main_configured (lines : list string) (w : World S) (key : string) :
  Forall (fun v => env_set v w = true) requiredEnvVars ->
  env w !! "OPENAI_API_KEY" = Some key ->
  main host langchain tools lines w =
    let spec := agent_spec host tools main_config key (clock w (ticks w)) in
    let before := startup_lines ++ ready_lines (env w !! "LANGSMITH_PROJECT") in
    match langchain spec with
    | Thrown e =>
        Exit 1 (advance (before ++ ConstructExecutor spec :: fatal_lines e) 1 (collab w) w)
    | Returned agent =>
        try_catch
          (if String.eqb (selected_mode w) "demo" then runDemoMode agent
           else if String.eqb (selected_mode w) "batch" then runBatchMode agent
           else runInteractiveMode agent lines)
          (fun error =>
             console_error [VStr (nl +:+ "❌ Fatal Error:"); error] ;;;
             console_error [VStr (nl +:+ "Please check your configuration and try again." +:+ nl)] ;;;
             process_exit 1)
          (advance (before ++ [ConstructExecutor spec;
                               ConsoleLog [VStr ("✅ Agent initialized successfully!" +:+ nl)]])
                   1 (collab w) w)
    end.
Proof.
  intros Hall Hkey.
  assert (Hne : key <> EmptyString).
  { apply Forall_cons in Hall as [Hset _]. destruct (env_set_key _ _ Hset) as (k' & Hk' & Hn).
    congruence. }
  assert (Hmissing : List.filter (fun v => negb (env_set v w)) requiredEnvVars = []).
  { clear Hkey. induction Hall as [|v l Hset _ IH]; [reflexivity|].
    cbn [List.filter]. by rewrite Hset. }
  unfold main. rewrite bind_log, bind_log_advance.
  unfold try_catch at 1. unfold bind at 1. rewrite missing_env_vars_advance, Hmissing.
  cbn [length Nat.ltb Nat.leb]. unfold bind at 1. unfold ret at 1.
  rewrite !bind_log_advance, bind_getenv_advance, !bind_log_advance.
  unfold bind at 1.
  rewrite (createProductionAgent_eval _ _ key); [|exact Hkey|exact Hne].
  cbv zeta. set (spec := agent_spec host tools main_config key (clock w (ticks w))).
  change (agent_spec host tools _ key (clock (advance _ _ _ w) (ticks (advance _ _ _ w))))
    with spec.
  cbn [collab advance].
  destruct (langchain spec) as [agent|e]; cbn [lift_outcome].
  - unfold ret at 1. cbv beta iota.
    rewrite advance_advance, bind_log_advance, bind_getenv_advance.
    unfold try_catch, selected_mode, startup_lines, ready_lines.
    rewrite <- ?app_assoc. cbn [app]. reflexivity.
  - unfold throw at 1. cbv beta iota.
    rewrite advance_advance, !bind_error_advance. unfold process_exit.
    unfold startup_lines, ready_lines, fatal_lines.
    rewrite <- ?app_assoc. cbn [app]. reflexivity.
Qed.
End Main.

(** X6. The demo never stops early: whatever the executor does, [runDemoMode]
    returns after invoking it with the three demo queries in order, and it
    asks for a pause of 1000 ms after each of them. *)
Theorem runDemoMode_completes {S : Type} (agent : AgentExecutor S) (w : World S) :
  exists w',
    runDemoMode agent w = Ret () w' /\
    invocations (trace w') =
      invocations (trace w) ++ map (fun q => invoke_args q None) demoQueries /\
    timeouts (trace w') = timeouts (trace w) ++ [1000; 1000; 1000].
Proof. exact (runDemoMode_trace agent w). Qed.

(** X7. The batch mode never stops early either: [runBatchMode] returns
    after the executor was invoked with the three batch queries in order,
    failed turns included; the summary that follows only writes to the
    console. *)
Theorem runBatchMode_completes {S : Type} (agent : AgentExecutor S) (w : World S) :
  exists w',
    runBatchMode agent w = Ret () w' /\
    invocations (trace w') =
      invocations (trace w) ++ map (fun q => invoke_args q None) batchQueries.
Proof. exact (runBatchMode_trace agent w). Qed.

(** X8. An interactive session as a whole, over the lines that the reader
    hands to the successive prompts (a line typed while a turn is awaited
    reaches no prompt and is not one of them).  The executor is invoked with
    the trimmed text of every such line that is neither white space only nor
    a command, in the order of the prompts, up to the first [exit] or [quit];
    the session ends the process with status 0 if it meets such a command,
    and otherwise returns once the lines are used up.  White space is what
    [trim] strips, the Unicode spaces included. *)
Theorem runInteractiveMode_session {S : Type} (agent : AgentExecutor S)
    (lines : list string) (w : World S) :
  exists w',
    runInteractiveMode agent lines w =
      (if session_exits lines then Exit 0 w' else Ret () w') /\
    invocations (trace w') =
      invocations (trace w) ++ map (fun q => invoke_args q None) (session_queries lines).
Proof. exact (runInteractiveMode_trace agent lines w). Qed.

Lemma toLowerCase_nonempty (s : string) :
  String.eqb (toLowerCase s) "exit" || String.eqb (toLowerCase s) "quit" = true
  \/ String.eqb (toLowerCase s) "help" = true ->
  String.eqb s EmptyString = false.
Proof. destruct s; [cbn; intros [H|H]; discriminate H|reflexivity]. Qed.

(** X9. [exit] and [quit] are recognised whatever their case and the white
    space around them (any code points that [trim] strips, the Unicode spaces
    included): the loop says goodbye, closes the reader and ends the process
    with status 0; the executor is not invoked for that line and the lines
    after it are never read. *)
Theorem askQuestion_exit_command {S : Type} (agent : AgentExecutor S) (input : string)
    (rest : list string) (w : World S) :
  String.eqb (toLowerCase (trim input)) "exit"
  || String.eqb (toLowerCase (trim input)) "quit" = true ->
  askQuestion agent (input :: rest) w =
    Exit 0 (advance [Question "You: ";
                     ConsoleLog [VStr (nl +:+ "👋 Goodbye! Thanks for using the agent." +:+ nl)];
                     RlClose] 0 (collab w) w).
Proof.
  intros Hcmd. rewrite askQuestion_cons. cbv zeta.
  rewrite (toLowerCase_nonempty _ (or_introl Hcmd)), Hcmd, advance_advance. reflexivity.
Qed.

Lemma askQuestion_exit_command_witness :
  askQuestion echo_executor ["  QuiT "; "never read"] (sample_world ∅ ()) =
    Exit 0 (advance [Question "You: ";
                     ConsoleLog [VStr (nl +:+ "👋 Goodbye! Thanks for using the agent." +:+ nl)];
                     RlClose] 0 () (sample_world ∅ ())) /\
  askQuestion echo_executor [padded_exit; "never read"] (sample_world ∅ ()) =
    Exit 0 (advance [Question "You: ";
                     ConsoleLog [VStr (nl +:+ "👋 Goodbye! Thanks for using the agent." +:+ nl)];
                     RlClose] 0 () (sample_world ∅ ())).
Proof.
  split.
  - exact (askQuestion_exit_command echo_executor "  QuiT " ["never read"]
             (sample_world ∅ ()) eq_refl).
  - exact (askQuestion_exit_command echo_executor padded_exit ["never read"]
             (sample_world ∅ ()) eq_refl).
Defined.

(** X10. A failed turn does not end the session: when the invocation for a
    line throws (a line that [trim] does not empty and that is no command),
    the loop prints the fallback text after [Agent:] and goes on with the
    next line, the executor keeping the state the failed invocation left. *)
Theorem askQuestion_survives_failure {S : Type} (agent : AgentExecutor S) (input : string)
    (rest : list string) (w : World S) (e : JsVal) (s' : S) :
  String.eqb (trim input) EmptyString = false ->
  String.eqb (toLowerCase (trim input)) "exit"
  || String.eqb (toLowerCase (trim input)) "quit" = false ->
  String.eqb (toLowerCase (trim input)) "help" = false ->
  invoke_fn agent (invoke_args (trim input) None) (collab w) = (Thrown e, s') ->
  askQuestion agent (input :: rest) w =
    askQuestion agent rest
      (advance (Question "You: " :: processing_lines (trim input)
                ++ [ExecutorInvoke (invoke_args (trim input) None);
                    agent_error_line e;
                    ConsoleLog [VStr (nl +:+ "Agent:"); VStr fallback_output];
                    ConsoleLog [VStr (nl +:+ rule 70 +:+ nl)]])
               1 s' w).
Proof.
  intros Hblank Hexit Hhelp Hthrow. rewrite askQuestion_cons. cbv zeta.
  rewrite Hblank, Hexit, Hhelp, runAgent_eval. cbv zeta. cbn [collab advance].
  rewrite Hthrow, !advance_advance. cbn [output failure_result collab advance].
  reflexivity.
Qed.

Lemma askQuestion_survives_failure_witness :
  invocations (trace (final_world
    (askQuestion flaky_executor ["first"; "second"; "third"] (sample_world ∅ 1%nat)))) =
  map (fun q => invoke_args q None) ["first"; "second"; "third"].
Proof.
  rewrite (askQuestion_survives_failure flaky_executor "first" ["second"; "third"]
             (sample_world ∅ 1%nat) (VError "iteration limit") 2%nat
             eq_refl eq_refl eq_refl eq_refl).
  rewrite askQuestion_invocations. reflexivity.
Defined.

(** ** [main]: outcomes *)

Lemma try_catch_passes {W A : Type} (body : M W A) (handler : JsVal -> M W A) (w : W) :
  (forall e w', body w <> Throw e w') -> try_catch body handler w = body w.
Proof.
  intros Hno. unfold try_catch. destruct (body w) as [a w1|e w1|c w1] eqn:Hb; try reflexivity.
  by destruct (Hno e w1).
Qed.

(** X11. When the configuration is complete but the construction of the
    executor fails, [main] reports the exception as a fatal error and ends
    the process with status 1; the executor was asked for once and never
    invoked. *)
Theorem main_construction_failure (host : JsHost) {S : Type}
    (langchain : ExecutorSpec -> outcome (AgentExecutor S)) (tools lines : list string)
    (w : World S) (e : JsVal) :
  Forall (fun v => env_set v w = true) requiredEnvVars ->
  (forall spec, langchain spec = Thrown e) ->
  exists w',
    main host langchain tools lines w = Exit 1 w' /\
    ConsoleError [VStr (nl +:+ "❌ Fatal Error:"); e] ∈ trace w' /\
    invocations (trace w') = invocations (trace w) /\
    length (constructions (trace w')) = Datatypes.S (length (constructions (trace w))).
Proof.
  intros Hall Hfail.
  pose proof Hall as Hall'. apply Forall_cons in Hall' as [Hset _].
  destruct (env_set_key _ _ Hset) as (key & Hkey & _).
  rewrite (main_configured host langchain tools lines w key Hall Hkey). cbv zeta.
  rewrite Hfail. eexists. split; [reflexivity|]. unfold advance. cbn [trace].
  split; [|split].
  - apply elem_of_app. right. apply elem_of_app. right. apply elem_of_cons. right.
    apply elem_of_cons. by left.
  - rewrite !invocations_app. cbn. by rewrite app_nil_r.
  - rewrite !constructions_app. cbn. rewrite length_app. cbn. lia.
Qed.

Lemma main_construction_failure_witness :
  exists w',
    main utc_host (fun _ => Thrown (VError "prompt must be a template")) [] ["hello"]
         (sample_world full_env ()) = Exit 1 w' /\
    invocations (trace w') = [].
Proof.
  destruct (main_construction_failure utc_host
              (fun _ => Thrown (A := AgentExecutor unit) (VError "prompt must be a template")) [] ["hello"]
              (sample_world full_env ()) (VError "prompt must be a template"))
    as (w' & Hexit & _ & Hinv & _).
  - repeat constructor.
  - reflexivity.
  - exists w'. split; [exact Hexit|exact Hinv].
Defined.

(** X12. With a complete configuration and a constructed executor, [main]
    runs the mode AGENT_MODE names ([demo], [batch], anything else or nothing:
    interactive): the executor receives that mode's queries in order (in the
    interactive mode, those among the lines that the reader hands to the
    prompts), and the process ends with status 0 only from an interactive
    session that met [exit] or [quit]; otherwise [main] returns. *)
Theorem main_runs_selected_mode (host : JsHost) {S : Type}
    (langchain : ExecutorSpec -> outcome (AgentExecutor S)) (tools lines : list string)
    (w : World S) (agent : AgentExecutor S) :
  Forall (fun v => env_set v w = true) requiredEnvVars ->
  (forall spec, langchain spec = Returned agent) ->
  exists w',
    main host langchain tools lines w =
      (if mode_exits (selected_mode w) lines then Exit 0 w' else Ret () w') /\
    invocations (trace w') =
      invocations (trace w)
      ++ map (fun q => invoke_args q None) (mode_queries (selected_mode w) lines).
Proof.
  intros Hall Hbuilt.
  pose proof Hall as Hall'. apply Forall_cons in Hall' as [Hset _].
  destruct (env_set_key _ _ Hset) as (key & Hkey & _).
  rewrite (main_configured host langchain tools lines w key Hall Hkey). cbv zeta.
  rewrite Hbuilt. unfold mode_exits, mode_queries.
  match goal with
  | |- context [try_catch _ _ ?w0] => set (w2 := w0)
  end.
  assert (Hinv2 : invocations (trace w2) = invocations (trace w)).
  { destruct (console_events_silent (startup_lines ++ ready_lines (env w !! "LANGSMITH_PROJECT")))
      as (Hsilent & _); [repeat constructor|].
    subst w2. unfold advance. cbn [trace]. rewrite invocations_app, invocations_app, Hsilent.
    cbn. by rewrite !app_nil_r. }
  destruct (String.eqb (selected_mode w) "demo");
    [|destruct (String.eqb (selected_mode w) "batch")].
  - destruct (runDemoMode_trace agent w2) as (w' & Hrun & Hinv & _).
    exists w'. rewrite try_catch_passes; [|intros e' w''; by rewrite Hrun].
    split; [exact Hrun|]. by rewrite Hinv, Hinv2.
  - destruct (runBatchMode_trace agent w2) as (w' & Hrun & Hinv).
    exists w'. rewrite try_catch_passes; [|intros e' w''; by rewrite Hrun].
    split; [exact Hrun|]. by rewrite Hinv, Hinv2.
  - destruct (runInteractiveMode_trace agent lines w2) as (w' & Hrun & Hinv).
    exists w'. rewrite try_catch_passes;
      [|intros e' w''; rewrite Hrun; by destruct (session_exits lines)].
    split; [exact Hrun|]. by rewrite Hinv, Hinv2.
Qed.

Lemma main_runs_selected_mode_witness :
  (exists w',
     main utc_host (fun _ => Returned flaky_executor) [] ["ignored"]
          (sample_world batch_env 0%nat) = Ret () w' /\
     invocations (trace w') = map (fun q => invoke_args q None) batchQueries) /\
  (exists w',
     main utc_host (fun _ => Returned echo_executor) []
          [nbsp; "hello"; white_line; padded_exit; "never read"]
          (sample_world full_env ()) = Exit 0 w' /\
     invocations (trace w') = [invoke_args "hello" None]).
Proof.
  split.
  - destruct (main_runs_selected_mode utc_host (fun _ => Returned flaky_executor) []
                ["ignored"] (sample_world batch_env 0%nat) flaky_executor)
      as (w' & Hrun & Hinv).
    + repeat constructor.
    + reflexivity.
    + exists w'. split; [exact Hrun|exact Hinv].
  - destruct (main_runs_selected_mode utc_host (fun _ => Returned echo_executor) []
                [nbsp; "hello"; white_line; padded_exit; "never read"]
                (sample_world full_env ()) echo_executor)
      as (w' & Hrun & Hinv).
    + repeat constructor.
    + reflexivity.
    + exists w'. split; [exact Hrun|exact Hinv].
Defined.

Lemma exits_with_never {W A : Type} (P : Z -> Prop) (m : M W A) :
  never_exits m -> exits_with P m.
Proof. intros Hm w c w' Hexit. by apply Hm in Hexit. Qed.

Lemma exits_with_bind {W A B : Type} (P : Z -> Prop) (m : M W A) (k : A -> M W B) :
  exits_with P m -> (forall a, exits_with P (k a)) -> exits_with P (bind m k).
Proof.
  intros Hm Hk w c w'. unfold bind.
  destruct (m w) as [a w1|e w1|c1 w1] eqn:Hmw.
  - apply Hk.
  - discriminate.
  - intros [= <- <-]. by apply Hm in Hmw.
Qed.

Lemma exits_with_try_catch {W A : Type} (P : Z -> Prop) (body : M W A)
    (handler : JsVal -> M W A) :
  exits_with P body -> (forall e, exits_with P (handler e)) ->
  exits_with P (try_catch body handler).
Proof.
  intros Hb Hh w c w'. unfold try_catch.
  destruct (body w) as [a w1|e w1|c1 w1] eqn:Hbw.
  - discriminate.
  - apply Hh.
  - intros [= <- <-]. by apply Hb in Hbw.
Qed.

Lemma exits_with_process_exit {W A : Type} (P : Z -> Prop) (c : Z) :
  P c -> exits_with (W := W) (A := A) P (process_exit c).
Proof. intros Hc w c' w' [= <- _]. exact Hc. Qed.

Lemma never_exits_returns {W A : Type} (m : M W A) :
  (forall w, exists a w', m w = Ret a w') -> never_exits m.
Proof. intros Hm w c w' Hexit. destruct (Hm w) as (a & w1 & Hret). congruence. Qed.

Lemma never_exits_console_only {S A : Type} (m : M (World S) A) :
  console_only m -> never_exits m.
Proof.
  intros Hm. apply never_exits_returns. intros w.
  destruct (Hm w) as (a & es & Hrun & _). by eexists _, _.
Qed.

Lemma never_exits_getenv {S : Type} (name : string) : never_exits (getenv (S := S) name).
Proof. intros w c w' H. discriminate H. Qed.

Lemma never_exits_createProductionAgent (host : JsHost) {S : Type}
    (langchain : ExecutorSpec -> outcome (AgentExecutor S)) (tools : list string)
    (config : AgentConfig) :
  never_exits (createProductionAgent host langchain tools config).
Proof.
  unfold createProductionAgent. cbv zeta.
  apply never_exits_bind; [apply never_exits_getenv|intros key]. never_exits.
Qed.

(** X13. [main] never lets an exception out, and it ends the process with
    status 0 or 1 only: 1 from the configuration check and from its own
    handler, 0 from the interactive session. *)
Theorem main_never_throws (host : JsHost) {S : Type}
    (langchain : ExecutorSpec -> outcome (AgentExecutor S)) (tools lines : list string)
    (w : World S) :
  thrown (main host langchain tools lines w) = None /\
  forall c w', main host langchain tools lines w = Exit c w' -> c = 0 \/ c = 1.
Proof.
  split.
  - unfold main. rewrite bind_log, bind_log_advance. unfold try_catch.
    match goal with
    | |- context [match ?body with Ret _ _ => _ | _ => _ end] => destruct body as [a w1|e w1|c w1]
    end; [reflexivity| |reflexivity].
    unfold bind, console_error. rewrite !emit_advance. reflexivity.
  - intros c w'. revert w c w'. change (exits_with main_status (main host langchain tools lines)).
    unfold main.
    apply exits_with_bind; [apply exits_with_never, never_exits_console_only, console_only_log|].
    intros _.
    apply exits_with_bind; [apply exits_with_never, never_exits_console_only, console_only_log|].
    intros _. apply exits_with_try_catch.
    + apply exits_with_bind; [apply exits_with_never; intros w c w' H; discriminate H|].
      intros missingVars. apply exits_with_bind.
      { destruct (0 <? length missingVars)%nat.
        - apply exits_with_bind;
            [apply exits_with_never, never_exits_console_only, console_only_error|intros _].
          apply exits_with_bind;
            [apply exits_with_never, never_exits_console_only; console_only|intros _].
          apply exits_with_bind;
            [apply exits_with_never, never_exits_console_only, console_only_error|intros _].
          apply exits_with_bind;
            [apply exits_with_never, never_exits_console_only, console_only_error|intros _].
          apply exits_with_process_exit. by right.
        - apply exits_with_never, never_exits_ret. }
      intros _.
      apply exits_with_bind; [apply exits_with_never, never_exits_console_only, console_only_log|].
      intros _.
      apply exits_with_bind; [apply exits_with_never, never_exits_console_only, console_only_log|].
      intros _. apply exits_with_bind; [apply exits_with_never, never_exits_getenv|].
      intros project.
      apply exits_with_bind; [apply exits_with_never, never_exits_console_only, console_only_log|].
      intros _.
      apply exits_with_bind; [apply exits_with_never, never_exits_console_only, console_only_log|].
      intros _.
      apply exits_with_bind; [apply exits_with_never, never_exits_console_only, console_only_log|].
      intros _.
      apply exits_with_bind; [apply exits_with_never, never_exits_createProductionAgent|].
      intros agent.
      apply exits_with_bind; [apply exits_with_never, never_exits_console_only, console_only_log|].
      intros _. apply exits_with_bind; [apply exits_with_never, never_exits_getenv|].
      intros mode.
      destruct (String.eqb _ "demo"); [|destruct (String.eqb _ "batch")].
      * apply exits_with_never, never_exits_returns. intros w.
        destruct (runDemoMode_trace agent w) as (w' & Hrun & _). by eexists _, _.
      * apply exits_with_never, never_exits_returns. intros w.
        destruct (runBatchMode_trace agent w) as (w' & Hrun & _). by eexists _, _.
      * intros w c w' Hexit.
        destruct (runInteractiveMode_trace agent lines w) as (w1 & Hrun & _).
        rewrite Hrun in Hexit. destruct (session_exits lines); [|discriminate Hexit].
        injection Hexit as <- _. by left.
    + intros e.
      apply exits_with_bind;
        [apply exits_with_never, never_exits_console_only, console_only_error|intros _].
      apply exits_with_bind;
        [apply exits_with_never, never_exits_console_only, console_only_error|intros _].
      apply exits_with_process_exit. by right.
Qed.

(** ** The smoke test *)

(** X14. [testAgent] always returns: a failure to create the agent is caught
    and printed, and the one greeting is sent to the executor only when the
    creation succeeded.  In particular, without OPENAI_API_KEY it prints the
    factory's error and invokes nothing. *)
Theorem testAgent_reports (host : JsHost) {S : Type}
    (langchain : ExecutorSpec -> outcome (AgentExecutor S)) (tools : list string)
    (w : World S) :
  exists w',
    testAgent host langchain tools w = Ret () w' /\
    (invocations (trace w') = invocations (trace w) \/
     invocations (trace w') =
       invocations (trace w) ++ [invoke_args "Hello, what is your name?" None]) /\
    (env_set "OPENAI_API_KEY" w = false ->
     invocations (trace w') = invocations (trace w) /\
     ConsoleError [VStr "Error:"; VError "OPENAI_API_KEY environment variable is required"]
       ∈ trace w').
Proof.
  unfold testAgent. rewrite bind_log. unfold try_catch. rewrite bind_log_advance.
  unfold bind at 1.
  destruct (env_set "OPENAI_API_KEY" w) eqn:Hset.
  - destruct (env_set_key _ _ Hset) as (key & Hkey & Hne).
    rewrite (createProductionAgent_eval host langchain tools _
               (advance ([ConsoleLog [VStr "Starting test..."]]
                         ++ [ConsoleLog [VStr "Creating agent..."]]) 0 (collab w) w)
               key Hkey Hne).
    destruct (langchain _) as [agent|e]; cbn [lift_outcome].
    + unfold ret at 1. cbv beta iota. rewrite advance_advance, bind_log_advance.
      match goal with
      | |- context [bind (runAgent agent ?q None) _ ?w0] =>
          destruct (runAgent_trace agent q None w0)
            as (r & w1 & es & Hrun & Htr & Hinv & _)
      end.
      rewrite (bind_ret _ _ _ _ _ Hrun). unfold console_log. rewrite emit_advance.
      eexists. split; [reflexivity|]. split; [right|intros Hunset; discriminate Hunset].
      unfold advance. cbn [trace]. unfold advance in Htr. cbn [trace] in Htr.
      rewrite Htr, !invocations_app, Hinv. cbn. by rewrite !app_nil_r.
    + unfold throw at 1. cbv beta iota. unfold console_error. rewrite emit_advance.
      eexists. split; [reflexivity|]. split; [left|intros Hunset; discriminate Hunset].
      unfold advance. cbn [trace]. rewrite !invocations_app. cbn. by rewrite !app_nil_r.
  - rewrite (createProductionAgent_requires_key host langchain tools _
               (advance ([ConsoleLog [VStr "Starting test..."]]
                         ++ [ConsoleLog [VStr "Creating agent..."]]) 0 (collab w) w)
               Hset).
    unfold console_error. rewrite emit_advance. eexists. split; [reflexivity|].
    assert (Hinv : invocations
              (trace (advance [ConsoleError [VStr "Error:";
                                 VError "OPENAI_API_KEY environment variable is required"]]
                        0
                        (collab (advance ([ConsoleLog [VStr "Starting test..."]]
                                          ++ [ConsoleLog [VStr "Creating agent..."]])
                                         0 (collab w) w))
                        (advance ([ConsoleLog [VStr "Starting test..."]]
                                  ++ [ConsoleLog [VStr "Creating agent..."]])
                                 0 (collab w) w)))
            = invocations (trace w)).
    { unfold advance. cbn [trace]. rewrite !invocations_app. cbn. by rewrite !app_nil_r. }
    split; [by left|]. intros _. split; [exact Hinv|].
    unfold advance. cbn [trace]. apply elem_of_app. right. apply elem_of_cons. by left.
Qed.

Lemma testAgent_reports_witness :
  exists w',
    testAgent utc_host (fun _ => Returned echo_executor) []
      (sample_world env_without_openai_key ()) = Ret () w' /\
    invocations (trace w') = [].
Proof.
  destruct (testAgent_reports utc_host (fun _ => Returned echo_executor) []
              (sample_world env_without_openai_key ()))
    as (w' & Hrun & _ & Hunset).
  assert (Hset : env_set "OPENAI_API_KEY" (sample_world env_without_openai_key ()) = false)
    by (vm_compute; reflexivity).
  destruct (Hunset Hset) as (Hinv & _).
  exists w'. split; [exact Hrun|exact Hinv].
Defined.

(** ** [tools.ts]: [document_search] *)

Lemma collect_returns (items : list JsVal) :
  forall (h : nat -> JsVal -> outcome string) (g : nat -> JsVal -> string),
    (forall i x, items !! i = Some x -> h i x = Returned (g i x)) ->
    fold_right
      (fun step acc =>
         match step, acc with
         | Returned s, Returned l => Returned (s :: l)
         | Thrown e, _ => Thrown e
         | _, Thrown e => Thrown e
         end)
      (Returned []) (imap h items) = Returned (imap g items).
Proof.
  induction items as [|x items IH]; intros h g Hh; [reflexivity|].
  cbn [imap fold_right]. rewrite (Hh 0%nat x eq_refl).
  rewrite (IH (h ∘ Datatypes.S) (g ∘ Datatypes.S)); [reflexivity|].
  intros i y Hy. by apply Hh.
Qed.

(** [map] over an array whose callback never throws. *)
Lemma Array_map_returns (g : JsVal -> nat -> string) (items : list JsVal)
    (f : JsVal -> nat -> outcome string) :
  (forall x i, items !! i = Some x -> f x i = Returned (g x i)) ->
  Array_map (VArr items) f = Returned (imap (fun i x => g x i) items).
Proof.
  intros Hf. unfold Array_map.
  apply (collect_returns items (fun i x => f x i) (fun i x => g x i)).
  intros i x Hx. by apply Hf.
Qed.

(** [map] over rows that the callback formats without throwing. *)
Lemma Array_map_rows {R : Type} (shows : JsVal -> R -> Prop)
    (f : JsVal -> nat -> outcome string) (g : R -> nat -> string)
    (docs : list JsVal) (rows : list R) :
  Forall2 shows docs rows ->
  (forall doc row i, shows doc row -> f doc i = Returned (g row i)) ->
  Array_map (VArr docs) f = Returned (imap (fun i row => g row i) rows).
Proof.
  intros Hrows Hf. unfold Array_map.
  enough (Hgen : forall k,
             fold_right
               (fun step acc =>
                  match step, acc with
                  | Returned s, Returned l => Returned (s :: l)
                  | Thrown e, _ => Thrown e
                  | _, Thrown e => Thrown e
                  end)
               (Returned []) (imap (fun i x => f x (k + i)%nat) docs)
             = Returned (imap (fun i row => g row (k + i)%nat) rows))
    by exact (Hgen 0%nat).
  induction Hrows as [|doc row docs rows Hshow Hrest IH]; intros k; [reflexivity|].
  cbn [imap fold_right]. rewrite (Hf doc row _ Hshow).
  unfold compose.
  rewrite (imap_ext _ (fun i x => f x (Datatypes.S k + i)%nat) docs)
    by (intros i x _; cbn; f_equal; lia).
  rewrite (IH (Datatypes.S k)). f_equal. f_equal.
  apply imap_ext. intros i x _. cbn. f_equal. lia.
Qed.

Lemma no_rows_nonempty (docs : list JsVal) : docs <> [] -> no_rows (VArr docs) = false.
Proof. intros Hne. destruct docs as [|doc docs]; [done|]. reflexivity. Qed.

Section DocumentSearchFacts.
Variable host : JsHost.
Context {S : Type}.
Variable backend : Event -> S -> outcome JsVal * S.

(** The two renditions up to the answer of the store.  The reply is read by
    destructuring, [const { data, error } = ...]: whatever other fields it
    has play no part. *)
Lemma class_document_search_eval (input : DocumentSearchInput) (w : World S)
    (embedding reply data err : JsVal) (s1 s2 : S) :
  backend (EmbedQuery (VStr (query input))) (collab w) = (Returned embedding, s1) ->
  backend (match_documents_request embedding (search_limit input)) s1
    = (Returned reply, s2) ->
  get_prop reply "data" = Returned data ->
  get_prop reply "error" = Returned err ->
  ClassTools.DocumentSearchTool_call host backend input w =
    let w' := advance [EmbedQuery (VStr (query input));
                       match_documents_request embedding (search_limit input)] 0 s2 w in
    if truthy err then
      Ret (VStr ("Error searching documents: " +:+ error_message err)) w'
    else if no_rows data then
      Ret (VStr "No relevant documents found for your query.") w'
    else
      match Array_map data (ClassTools.format_result host) with
      | Returned results => Ret (VStr (String.concat nl results)) w'
      | Thrown e => Ret (VStr ("Error searching documents: " +:+ error_message e)) w'
      end.
Proof.
  intros Hembed Hrpc Hdata Herr. unfold ClassTools.DocumentSearchTool_call, try_catch.
  cbv zeta. unfold bind at 1. rewrite remote_eval, Hembed.
  unfold bind at 1. rewrite remote_eval. cbn [collab advance].
  fold (match_documents_request embedding (search_limit input)). rewrite Hrpc.
  unfold bind at 1. rewrite Hdata. cbn [lift_outcome].
  unfold ret at 1. unfold bind at 1. rewrite Herr. cbn [lift_outcome]. unfold ret at 1.
  rewrite advance_advance.
  destruct (truthy err); [reflexivity|]. destruct (no_rows data); [reflexivity|].
  unfold bind. destruct (Array_map data _); reflexivity.
Qed.

Lemma runtime_document_search_eval (input : DocumentSearchInput) (w : World S)
    (embedding reply data err : JsVal) (s1 s2 : S) :
  RuntimeTools.supabase w = true -> RuntimeTools.embeddings w = true ->
  backend (EmbedQuery (VStr (query input))) (collab w) = (Returned embedding, s1) ->
  backend (match_documents_request embedding (search_limit input)) s1
    = (Returned reply, s2) ->
  get_prop reply "data" = Returned data ->
  get_prop reply "error" = Returned err ->
  RuntimeTools.DocumentSearchTool_call host backend (Some input) w =
    let w' := advance [EmbedQuery (VStr (query input));
                       match_documents_request embedding (search_limit input)] 0 s2 w in
    if truthy err then Throw err w'
    else if no_rows data then Ret (VStr "No relevant documents found.") w'
    else
      match Array_map data (RuntimeTools.format_result host) with
      | Returned results => Ret (VStr (String.concat nl results)) w'
      | Thrown e => Throw e w'
      end.
Proof.
  intros Hs He Hembed Hrpc Hdata Herr. unfold RuntimeTools.DocumentSearchTool_call.
  rewrite Hs, He. cbn [negb orb]. cbv zeta.
  unfold bind at 1. rewrite remote_eval, Hembed.
  unfold bind at 1. rewrite remote_eval. cbn [collab advance mbind option_bind].
  fold (match_documents_request embedding (search_limit input)). rewrite Hrpc.
  unfold bind at 1. rewrite Hdata. cbn [lift_outcome].
  unfold ret at 1. unfold bind at 1. rewrite Herr. cbn [lift_outcome]. unfold ret at 1.
  rewrite advance_advance.
  destruct (truthy err); [reflexivity|]. destruct (no_rows data); [reflexivity|].
  unfold bind. destruct (Array_map data _); reflexivity.
Qed.
End DocumentSearchFacts.

(** X15. A search that finds nothing: when the reply of the store, whatever
    its other fields, carries no error ([error] is falsy) and no rows
    ([data] is falsy or has length 0), both renditions of [document_search]
    return their fixed sentence, after one embedding request and one call of
    [match_documents]. *)
Theorem document_search_no_rows (host : JsHost) {S : Type}
    (backend : Event -> S -> outcome JsVal * S) (input : DocumentSearchInput)
    (w : World S) (embedding reply data err : JsVal) (s1 s2 : S) :
  backend (EmbedQuery (VStr (query input))) (collab w) = (Returned embedding, s1) ->
  backend (match_documents_request embedding (search_limit input)) s1
    = (Returned reply, s2) ->
  get_prop reply "data" = Returned data ->
  get_prop reply "error" = Returned err ->
  truthy err = false ->
  no_rows data = true ->
  ClassTools.DocumentSearchTool_call host backend input w =
    Ret (VStr "No relevant documents found for your query.")
        (advance [EmbedQuery (VStr (query input));
                  match_documents_request embedding (search_limit input)] 0 s2 w) /\
  (RuntimeTools.supabase w = true -> RuntimeTools.embeddings w = true ->
   RuntimeTools.DocumentSearchTool_call host backend (Some input) w =
     Ret (VStr "No relevant documents found.")
         (advance [EmbedQuery (VStr (query input));
                   match_documents_request embedding (search_limit input)] 0 s2 w)).
Proof.
  intros Hembed Hrpc Hdata Herr Hok Hnone. split.
  - rewrite (class_document_search_eval host backend input w embedding reply data err s1 s2
               Hembed Hrpc Hdata Herr).
    cbv zeta. by rewrite Hok, Hnone.
  - intros Hs He.
    rewrite (runtime_document_search_eval host backend input w embedding reply data err s1 s2
               Hs He Hembed Hrpc Hdata Herr).
    cbv zeta. by rewrite Hok, Hnone.
Qed.

Lemma document_search_no_rows_witness :
  returned (ClassTools.DocumentSearchTool_call utc_host empty_backend
              (mkDocumentSearchInput "refunds" (Some 2%Q)) (sample_world full_env ()))
    = Some (VStr "No relevant documents found for your query.") /\
  returned (RuntimeTools.DocumentSearchTool_call utc_host empty_backend
              (Some (mkDocumentSearchInput "refunds" (Some 2%Q))) (sample_world full_env ()))
    = Some (VStr "No relevant documents found.").
Proof.
  destruct (document_search_no_rows utc_host empty_backend
              (mkDocumentSearchInput "refunds" (Some 2%Q)) (sample_world full_env ())
              (VArr [VNum (1 # 10); VNum (2 # 10)]) (store_reply (VArr []) VNull)
              (VArr []) VNull () ()
              eq_refl eq_refl eq_refl eq_refl eq_refl eq_refl)
    as (Hclass & Hruntime).
  split.
  - by rewrite Hclass.
  - rewrite Hruntime; [reflexivity| |]; vm_compute; reflexivity.
Defined.

(** X16. What the class-based [document_search] sends out.  It first asks
    for the embedding of the query; if that fails it answers with the error
    text and the store is never called; if it succeeds, exactly one call of
    [match_documents] follows, with the embedding, the threshold 0.78 and the
    requested count (5 when no limit is given), whatever the store then
    answers. *)
Theorem class_document_search_requests (host : JsHost) {S : Type}
    (backend : Event -> S -> outcome JsVal * S) (input : DocumentSearchInput)
    (w : World S) :
  (forall e s1,
      backend (EmbedQuery (VStr (query input))) (collab w) = (Thrown e, s1) ->
      ClassTools.DocumentSearchTool_call host backend input w =
        Ret (VStr ("Error searching documents: " +:+ error_message e))
            (advance [EmbedQuery (VStr (query input))] 0 s1 w)) /\
  (forall embedding s1,
      backend (EmbedQuery (VStr (query input))) (collab w) = (Returned embedding, s1) ->
      trace (final_world (ClassTools.DocumentSearchTool_call host backend input w)) =
        trace w ++ [EmbedQuery (VStr (query input));
                    match_documents_request embedding (search_limit input)]).
Proof.
  split.
  - intros e s1 Hembed. unfold ClassTools.DocumentSearchTool_call, try_catch. cbv zeta.
    unfold bind at 1. by rewrite remote_eval, Hembed.
  - intros embedding s1 Hembed. unfold ClassTools.DocumentSearchTool_call, try_catch.
    cbv zeta. unfold bind at 1. rewrite remote_eval, Hembed.
    unfold bind at 1. rewrite remote_eval. cbn [collab advance].
    fold (match_documents_request embedding (search_limit input)).
    destruct (backend _ s1) as [[reply|e] s2]; rewrite advance_advance; [|reflexivity].
    unfold bind at 1.
    destruct (get_prop reply "data") as [data|e]; cbn [lift_outcome]; [|reflexivity].
    unfold ret at 1. unfold bind at 1.
    destruct (get_prop reply "error") as [err|e]; cbn [lift_outcome]; [|reflexivity].
    unfold ret at 1.
    destruct (truthy err); [reflexivity|].
    destruct (no_rows data); [reflexivity|].
    unfold bind. destruct (Array_map data _); reflexivity.
Qed.

Lemma class_document_search_requests_witness :
  returned (ClassTools.DocumentSearchTool_call utc_host embedding_down
              (mkDocumentSearchInput "refunds" None) (sample_world full_env ()))
    = Some (VStr "Error searching documents: 401 Incorrect API key provided") /\
  trace (final_world (ClassTools.DocumentSearchTool_call utc_host rows_backend
                        (mkDocumentSearchInput "refunds" None) (sample_world full_env ())))
    = [EmbedQuery (VStr "refunds");
       match_documents_request (VArr [VNum (1 # 10); VNum (2 # 10)]) None].
Proof.
  split.
  - destruct (class_document_search_requests utc_host embedding_down
                (mkDocumentSearchInput "refunds" None) (sample_world full_env ()))
      as (Hdown & _).
    by rewrite (Hdown (VError "401 Incorrect API key provided") () eq_refl).
  - destruct (class_document_search_requests utc_host rows_backend
                (mkDocumentSearchInput "refunds" None) (sample_world full_env ()))
      as (_ & Hup).
    exact (Hup (VArr [VNum (1 # 10); VNum (2 # 10)]) () eq_refl).
Defined.

(** X17. The object-literal [document_search] needs both clients: when
    SUPABASE_URL, SUPABASE_KEY or OPENAI_API_KEY is unset or empty it answers
    that the search is not configured, and nothing is sent anywhere. *)
Theorem runtime_document_search_not_configured (host : JsHost) {S : Type}
    (backend : Event -> S -> outcome JsVal * S) (input : option DocumentSearchInput)
    (w : World S) :
  env_set "SUPABASE_URL" w = false \/ env_set "SUPABASE_KEY" w = false
  \/ env_set "OPENAI_API_KEY" w = false ->
  RuntimeTools.DocumentSearchTool_call host backend input w =
    Ret (VStr "Document search not configured.") w.
Proof.
  intros Hmissing. unfold RuntimeTools.DocumentSearchTool_call,
    RuntimeTools.supabase, RuntimeTools.embeddings.
  destruct Hmissing as [-> | [-> | ->]]; cbn [andb negb orb]; try reflexivity.
  - by destruct (env_set "SUPABASE_URL" w).
  - by destruct (env_set "SUPABASE_URL" w && env_set "SUPABASE_KEY" w).
Qed.

Lemma runtime_document_search_not_configured_witness :
  RuntimeTools.DocumentSearchTool_call utc_host rows_backend
    (Some (mkDocumentSearchInput "refunds" None)) (sample_world env_without_openai_key ()) =
  Ret (VStr "Document search not configured.") (sample_world env_without_openai_key ()).
Proof.
  apply (runtime_document_search_not_configured utc_host rows_backend).
  right. right. vm_compute. reflexivity.
Defined.

(** X18. A search that finds documents.  Whatever other fields the reply
    and its rows carry: when the reply has no error and a non-empty array of
    rows, the answer has one block per row, in the store's order, numbered
    from 1 and joined by line feeds.  The object-literal rendition prints
    [Result i: content] for every row; the class-based one prints the content
    and the similarity with two decimals, for rows whose similarity is a
    number. *)
Theorem document_search_formats_rows (host : JsHost) {S : Type}
    (backend : Event -> S -> outcome JsVal * S) (input : DocumentSearchInput)
    (w : World S) (embedding reply err : JsVal) (docs : list JsVal) (s1 s2 : S) :
  docs <> [] ->
  backend (EmbedQuery (VStr (query input))) (collab w) = (Returned embedding, s1) ->
  backend (match_documents_request embedding (search_limit input)) s1
    = (Returned reply, s2) ->
  get_prop reply "data" = Returned (VArr docs) ->
  get_prop reply "error" = Returned err ->
  truthy err = false ->
  (forall rows : list (JsVal * Q),
      Forall2 has_content_and_similarity docs rows ->
      returned (ClassTools.DocumentSearchTool_call host backend input w) =
        Some (VStr (String.concat nl
                (imap (fun i row =>
                         "Result " +:+ pretty (i + 1)%nat +:+ ":" +:+ nl +:+
                         "Content: " +:+ ToString host (fst row) +:+ nl +:+
                         "Similarity: " +:+ Number_toFixed host (snd row) 2 +:+ nl)
                      rows)))) /\
  (forall contents : list JsVal,
      Forall2 has_content docs contents ->
      RuntimeTools.supabase w = true -> RuntimeTools.embeddings w = true ->
      returned (RuntimeTools.DocumentSearchTool_call host backend (Some input) w) =
        Some (VStr (String.concat nl
                (imap (fun i content =>
                         "Result " +:+ pretty (i + 1)%nat +:+ ": " +:+ ToString host content)
                      contents)))).
Proof.
  intros Hne Hembed Hrpc Hdata Herr Hok. split.
  - intros rows Hrows.
    rewrite (class_document_search_eval host backend input w embedding reply _ err s1 s2
               Hembed Hrpc Hdata Herr).
    cbv zeta. rewrite Hok, (no_rows_nonempty docs Hne).
    rewrite (Array_map_rows has_content_and_similarity (ClassTools.format_result host)
               (fun row i =>
                  "Result " +:+ pretty (i + 1)%nat +:+ ":" +:+ nl +:+
                  "Content: " +:+ ToString host (fst row) +:+ nl +:+
                  "Similarity: " +:+ Number_toFixed host (snd row) 2 +:+ nl)
               docs rows Hrows); [reflexivity|].
    intros doc row i (Hcontent & Hsimilarity). unfold ClassTools.format_result.
    by rewrite Hcontent, Hsimilarity.
  - intros contents Hcontents Hs He.
    rewrite (runtime_document_search_eval host backend input w embedding reply _ err s1 s2
               Hs He Hembed Hrpc Hdata Herr).
    cbv zeta. rewrite Hok, (no_rows_nonempty docs Hne).
    rewrite (Array_map_rows has_content (RuntimeTools.format_result host)
               (fun content i =>
                  "Result " +:+ pretty (i + 1)%nat +:+ ": " +:+ ToString host content)
               docs contents Hcontents); [reflexivity|].
    intros doc content i Hcontent. unfold RuntimeTools.format_result.
    by rewrite Hcontent.
Qed.

Lemma document_search_formats_rows_witness :
  returned (RuntimeTools.DocumentSearchTool_call utc_host rows_backend
              (Some (mkDocumentSearchInput "refunds" (Some 2%Q))) (sample_world full_env ()))
    = Some (VStr ("Result 1: Refunds are issued within 14 days." +:+ nl +:+
                  "Result 2: Contact support to request a refund.")) /\
  returned (ClassTools.DocumentSearchTool_call utc_host rows_backend
              (mkDocumentSearchInput "refunds" (Some 2%Q)) (sample_world full_env ()))
    = Some (VStr ("Result 1:" +:+ nl +:+ "Content: Refunds are issued within 14 days." +:+ nl
                  +:+ "Similarity: 0.91" +:+ nl +:+ nl +:+
                  "Result 2:" +:+ nl +:+ "Content: Contact support to request a refund." +:+ nl
                  +:+ "Similarity: 0.83" +:+ nl)).
Proof.
  destruct (document_search_formats_rows utc_host rows_backend
              (mkDocumentSearchInput "refunds" (Some 2%Q)) (sample_world full_env ())
              (VArr [VNum (1 # 10); VNum (2 # 10)])
              (store_reply (VArr (map match_row two_rows)) VNull) VNull
              (map match_row two_rows) () ())
    as (Hclass & Hruntime);
    [discriminate|reflexivity|reflexivity|reflexivity|reflexivity|reflexivity|].
  split.
  - rewrite (Hruntime (map (fun row => VStr (fst row)) two_rows));
      [vm_compute; reflexivity| | |]; [|vm_compute; reflexivity..].
    repeat constructor.
  - rewrite (Hclass (map (fun row => (VStr (fst row), snd row)) two_rows));
      [vm_compute; reflexivity|].
    repeat constructor.
Defined.

(** ** [tools.ts]: [database_query] *)

Lemma filters_as_ops (filters : list (string * JsVal)) :
  forall q0 : list QueryOp,
    fold_left (fun q kv => q ++ [OpEq (fst kv) (snd kv)]) filters q0 =
      q0 ++ map (fun kv => OpEq (fst kv) (snd kv)) filters.
Proof.
  induction filters as [|kv filters IH]; intros q0; cbn [fold_left map].
  - by rewrite app_nil_r.
  - by rewrite IH, <- app_assoc.
Qed.

Section DatabaseQueryFacts.
Variable host : JsHost.
Context {S : Type}.
Variable backend : Event -> S -> outcome JsVal * S.

Lemma database_query_eval (input : DatabaseQueryInput) (w : World S) :
  includes ClassTools.allowedTables (table input) = true ->
  ClassTools.DatabaseQueryTool_call host backend input w =
    try_catch
      (reply <- remote backend (select_request input) ;;
       data <- lift_outcome (get_prop reply "data") ;;
       error <- lift_outcome (get_prop reply "error") ;;
       if truthy error then throw error
       else if no_rows data then ret (VStr "No data found matching your criteria.")
       else ret (VStr (JSON_stringify host data)))
      (fun error => ret (VStr ("Error querying database: " +:+ error_message error)))
      w.
Proof.
  intros Hallowed. unfold ClassTools.DatabaseQueryTool_call. cbv zeta.
  unfold try_catch. rewrite Hallowed. cbn [negb]. unfold select_request.
  by rewrite filters_as_ops.
Qed.

(** X19. For a table on the allow-list, [database_query] sends the store
    exactly one request, whatever the store answers: a read of all columns of
    that table, limited to the requested number of rows (10 when no limit is
    given), with one equality condition per filter, in the order of the
    filters.  It never writes and never calls a remote procedure. *)
Theorem database_query_request (input : DatabaseQueryInput) (w : World S) :
  includes ClassTools.allowedTables (table input) = true ->
  trace (final_world (ClassTools.DatabaseQueryTool_call host backend input w)) =
    trace w ++ [select_request input].
Proof.
  intros Hallowed. rewrite (database_query_eval input w Hallowed).
  unfold try_catch. unfold bind at 1. rewrite remote_eval.
  destruct (backend _ (collab w)) as [[reply|e] s']; [|reflexivity].
  unfold bind at 1.
  destruct (get_prop reply "data") as [data|e]; cbn [lift_outcome]; [|reflexivity].
  unfold ret at 1. unfold bind at 1.
  destruct (get_prop reply "error") as [err|e]; cbn [lift_outcome]; [|reflexivity].
  unfold ret at 1.
  destruct (truthy err); [reflexivity|]. destruct (no_rows data); reflexivity.
Qed.

(** X20. How [database_query] answers for a table on the allow-list,
    whatever other fields the reply carries.  An error reported by the store
    (or an exception of the client) becomes the text
    [Error querying database: ...], with the error's message when it is an
    Error object and [Unknown error] otherwise; no error and no rows give the
    fixed no-data sentence; otherwise the rows are printed as JSON. *)
Theorem database_query_answers (input : DatabaseQueryInput) (w : World S) :
  includes ClassTools.allowedTables (table input) = true ->
  (forall reply data err s',
      backend (select_request input) (collab w) = (Returned reply, s') ->
      get_prop reply "data" = Returned data ->
      get_prop reply "error" = Returned err ->
      ClassTools.DatabaseQueryTool_call host backend input w =
        Ret (VStr (if truthy err then "Error querying database: " +:+ error_message err
                   else if no_rows data then "No data found matching your criteria."
                   else JSON_stringify host data))
            (advance [select_request input] 0 s' w)) /\
  (forall e s',
      backend (select_request input) (collab w) = (Thrown e, s') ->
      ClassTools.DatabaseQueryTool_call host backend input w =
        Ret (VStr ("Error querying database: " +:+ error_message e))
            (advance [select_request input] 0 s' w)).
Proof.
  intros Hallowed. split.
  - intros reply data err s' Hreply Hdata Herr.
    rewrite (database_query_eval input w Hallowed).
    unfold try_catch. unfold bind at 1. rewrite remote_eval, Hreply.
    unfold bind at 1. rewrite Hdata. cbn [lift_outcome].
    unfold ret at 1. unfold bind at 1. rewrite Herr. cbn [lift_outcome]. unfold ret at 1.
    destruct (truthy err); [reflexivity|]. destruct (no_rows data); reflexivity.
  - intros e s' Hthrow. rewrite (database_query_eval input w Hallowed).
    unfold try_catch. unfold bind at 1. by rewrite remote_eval, Hthrow.
Qed.
End DatabaseQueryFacts.

Lemma database_query_request_witness :
  trace (final_world (ClassTools.DatabaseQueryTool_call utc_host empty_backend
           (mkDatabaseQueryInput "documents"
              (Some [("title", VStr "Refund policy"); ("id", VNum 7)]) None)
           (sample_world full_env ()))) =
  [StoreSelect "documents" "*"
     [OpLimit (VNum 10); OpEq "title" (VStr "Refund policy"); OpEq "id" (VNum 7)]].
Proof.
  exact (database_query_request utc_host empty_backend
           (mkDatabaseQueryInput "documents"
              (Some [("title", VStr "Refund policy"); ("id", VNum 7)]) None)
           (sample_world full_env ()) eq_refl).
Defined.

Lemma database_query_answers_witness :
  returned (ClassTools.DatabaseQueryTool_call utc_host refusing_backend
              (mkDatabaseQueryInput "documents" None None) (sample_world full_env ()))
    = Some (VStr "Error querying database: Unknown error") /\
  returned (ClassTools.DatabaseQueryTool_call utc_host empty_backend
              (mkDatabaseQueryInput "document_chunks" None (Some 3%Q))
              (sample_world full_env ()))
    = Some (VStr "No data found matching your criteria.").
Proof.
  split.
  - destruct (database_query_answers utc_host refusing_backend
                (mkDatabaseQueryInput "documents" None None) (sample_world full_env ())
                eq_refl) as (Hreply & _).
    by rewrite (Hreply _ _ _ _ eq_refl eq_refl eq_refl).
  - destruct (database_query_answers utc_host empty_backend
                (mkDatabaseQueryInput "document_chunks" None (Some 3%Q))
                (sample_world full_env ()) eq_refl) as (Hreply & _).
    by rewrite (Hreply _ _ _ _ eq_refl eq_refl eq_refl).
Defined.

(** ** [tools.ts]: the other statistics of [data_analysis] *)

Lemma is_zero_ord (x : float) :
  is_nan x = false -> PrimFloat.is_zero x = true -> ord x = 0.
Proof.
  intros Hx Hz. unfold PrimFloat.is_zero in Hz. rewrite (eqb_ord x zero Hx eq_refl) in Hz.
  apply Z.eqb_eq in Hz. exact Hz.
Qed.

Lemma min_step_spec (lowest number : float) :
  is_nan lowest = false -> is_nan number = false ->
  is_nan (min_step lowest number) = false /\
  ord (min_step lowest number) = Z.min (ord lowest) (ord number) /\
  (min_step lowest number = lowest \/ min_step lowest number = number).
Proof.
  intros Hl Hn. unfold min_step. rewrite Hl, Hn. cbn [orb].
  destruct (is_negative_zero number && is_positive_zero lowest) eqn:Hz.
  - apply andb_prop in Hz as [Hzn Hzl].
    apply andb_prop in Hzn as [Hzn _]. apply andb_prop in Hzl as [Hzl _].
    rewrite (is_zero_ord number Hn Hzn), (is_zero_ord lowest Hl Hzl).
    split; [exact Hn|]. split; [reflexivity|by right].
  - rewrite (ltb_ord number lowest Hn Hl).
    destruct (ord number <? ord lowest) eqn:Hlt;
      [apply Z.ltb_lt in Hlt|apply Z.ltb_ge in Hlt];
      (split; [done|]); (split; [lia|]); [by right|by left].
Qed.

Lemma max_step_spec (highest number : float) :
  is_nan highest = false -> is_nan number = false ->
  is_nan (max_step highest number) = false /\
  ord (max_step highest number) = Z.max (ord highest) (ord number) /\
  (max_step highest number = highest \/ max_step highest number = number).
Proof.
  intros Hh Hn. unfold max_step. rewrite Hh, Hn. cbn [orb].
  destruct (is_positive_zero number && is_negative_zero highest) eqn:Hz.
  - apply andb_prop in Hz as [Hzn Hzh].
    apply andb_prop in Hzn as [Hzn _]. apply andb_prop in Hzh as [Hzh _].
    rewrite (is_zero_ord number Hn Hzn), (is_zero_ord highest Hh Hzh).
    split; [exact Hn|]. split; [reflexivity|by right].
  - rewrite (ltb_ord highest number Hh Hn).
    destruct (ord highest <? ord number) eqn:Hlt;
      [apply Z.ltb_lt in Hlt|apply Z.ltb_ge in Hlt];
      (split; [done|]); (split; [lia|]); [by right|by left].
Qed.

Lemma fold_min_spec (v : list float) :
  numbers v ->
  forall init : float,
    is_nan init = false ->
    is_nan (fold_left min_step v init) = false /\
    ord (fold_left min_step v init) <= ord init /\
    Forall (fun x => ord (fold_left min_step v init) <= ord x) v /\
    (fold_left min_step v init = init \/ In (fold_left min_step v init) v).
Proof.
  induction 1 as [|x v Hx Hv IH]; intros init Hinit; cbn [fold_left].
  - split; [exact Hinit|]. split; [lia|]. split; [constructor|by left].
  - destruct (min_step_spec init x Hinit Hx) as (Hnan & Hord & Hsel).
    destruct (IH _ Hnan) as (Hr & Hle & Hall & Hin).
    split; [exact Hr|]. split; [lia|]. split.
    + constructor; [lia|exact Hall].
    + destruct Hin as [Heq|Hin]; [|by right; right].
      rewrite Heq. destruct Hsel as [->| ->]; [by left|by right; left].
Qed.

Lemma fold_max_spec (v : list float) :
  numbers v ->
  forall init : float,
    is_nan init = false ->
    is_nan (fold_left max_step v init) = false /\
    ord init <= ord (fold_left max_step v init) /\
    Forall (fun x => ord x <= ord (fold_left max_step v init)) v /\
    (fold_left max_step v init = init \/ In (fold_left max_step v init) v).
Proof.
  induction 1 as [|x v Hx Hv IH]; intros init Hinit; cbn [fold_left].
  - split; [exact Hinit|]. split; [lia|]. split; [constructor|by left].
  - destruct (max_step_spec init x Hinit Hx) as (Hnan & Hord & Hsel).
    destruct (IH _ Hnan) as (Hr & Hle & Hall & Hin).
    split; [exact Hr|]. split; [lia|]. split.
    + constructor; [lia|exact Hall].
    + destruct Hin as [Heq|Hin]; [|by right; right].
      rewrite Heq. destruct Hsel as [->| ->]; [by left|by right; left].
Qed.

(** [Math.min] and [Math.max] of a non-empty array of numbers, when the
    engine accepts the call: members of the array that bound every member. *)
Lemma Math_min_max_spec (host : JsHost) (v : list float) :
  v <> [] -> numbers v -> spread_error host (length v) = None ->
  exists lo hi : float,
    Math_min host v = Returned lo /\ Math_max host v = Returned hi /\
    is_nan lo = false /\ is_nan hi = false /\
    In lo v /\ In hi v /\
    Forall (fun x => ord lo <= ord x /\ ord x <= ord hi) v.
Proof.
  intros Hne Hv Hspread. unfold Math_min, Math_max. rewrite Hspread.
  destruct (fold_min_spec v Hv infinity eq_refl) as (Hnlo & _ & Hlos & Hinlo).
  destruct (fold_max_spec v Hv neg_infinity eq_refl) as (Hnhi & _ & Hhis & Hinhi).
  exists (fold_left min_step v infinity), (fold_left max_step v neg_infinity).
  repeat (split; [done|]).
  destruct v as [|x v]; [done|].
  apply Forall_cons in Hv as [Hx Hv'].
  split; [|split].
  - destruct Hinlo as [Heq|Hin]; [|exact Hin]. left.
    rewrite Heq in Hlos |- *. apply Forall_cons in Hlos as [Hle _].
    apply ord_greatest; [exact Hx|].
    pose proof (ord_bound x) as Hb. change (ord infinity) with (2099 * 2 ^ 53) in Hle. lia.
  - destruct Hinhi as [Heq|Hin]; [|exact Hin]. left.
    rewrite Heq in Hhis |- *. apply Forall_cons in Hhis as [Hle _].
    apply ord_least; [exact Hx|].
    pose proof (ord_bound x) as Hb. change (ord neg_infinity) with (- (2099 * 2 ^ 53)) in Hle.
    lia.
  - rewrite Forall_forall in Hlos, Hhis. apply Forall_forall. intros y Hy.
    split; [by apply Hlos|by apply Hhis].
Qed.

(** X21. [min] and [max] of [data_analysis] on a non-empty array of numbers.
    When the engine accepts the spread call, each reports a member of the
    array, no member is below the one or above the other, and the two
    renditions print it as [MIN: ...] with two decimals and as [min: ...] in
    the shortest form.  When the array is too long to be spread as the
    arguments of a call, [Math.min] and [Math.max] raise the engine's
    RangeError: the class-based rendition answers with that error as a
    string, the object-literal one lets it out. *)
Theorem data_analysis_min_max (host : JsHost) {S : Type} (v : list float) (w : World S) :
  v <> [] ->
  (numbers v -> spread_error host (length v) = None ->
   exists lo hi : float,
     statistic host "min" v = Returned (Some lo) /\
     statistic host "max" v = Returned (Some hi) /\
     In lo v /\ In hi v /\
     Forall (fun x => at_most lo x /\ at_most x hi) v /\
     ClassTools.DataAnalysisTool_call host (mkDataAnalysisInput "min" v) w =
       Ret (VStr ("MIN: " +:+ print_double (fun q => Number_toFixed host q 2) lo)) w /\
     ClassTools.DataAnalysisTool_call host (mkDataAnalysisInput "max" v) w =
       Ret (VStr ("MAX: " +:+ print_double (fun q => Number_toFixed host q 2) hi)) w /\
     RuntimeTools.DataAnalysisTool_call host (Some (mkDataAnalysisInput "min" v)) w =
       Ret (VStr ("min: " +:+ print_double (Number_toString host) lo)) w /\
     RuntimeTools.DataAnalysisTool_call host (Some (mkDataAnalysisInput "max" v)) w =
       Ret (VStr ("max: " +:+ print_double (Number_toString host) hi)) w) /\
  (forall e, spread_error host (length v) = Some e ->
     ClassTools.DataAnalysisTool_call host (mkDataAnalysisInput "min" v) w =
       Ret (VStr ("Error performing analysis: " +:+ error_message e)) w /\
     ClassTools.DataAnalysisTool_call host (mkDataAnalysisInput "max" v) w =
       Ret (VStr ("Error performing analysis: " +:+ error_message e)) w /\
     RuntimeTools.DataAnalysisTool_call host (Some (mkDataAnalysisInput "min" v)) w =
       Throw e w /\
     RuntimeTools.DataAnalysisTool_call host (Some (mkDataAnalysisInput "max" v)) w =
       Throw e w).
Proof.
  intros Hne.
  destruct (data_analysis_eval host "min" v w Hne) as (Hcmin & Hrmin).
  destruct (data_analysis_eval host "max" v w Hne) as (Hcmax & Hrmax).
  unfold statistic in Hcmin, Hrmin, Hcmax, Hrmax |- *.
  cbn [String.eqb Ascii.eqb Bool.eqb] in Hcmin, Hrmin, Hcmax, Hrmax |- *.
  split.
  - intros Hv Hspread.
    destruct (Math_min_max_spec host v Hne Hv Hspread)
      as (lo & hi & Hlo & Hhi & Hnlo & Hnhi & Hinlo & Hinhi & Hall).
    rewrite Hlo in Hcmin, Hrmin |- *. rewrite Hhi in Hcmax, Hrmax |- *.
    exists lo, hi. repeat (split; [done|]). split; [|done].
    unfold numbers in Hv. rewrite Forall_forall in Hall, Hv. apply Forall_forall.
    intros x Hx. destruct (Hall x Hx) as (H1 & H2).
    split; apply at_most_ord; auto.
  - intros e Hspread. unfold Math_min, Math_max in Hcmin, Hrmin, Hcmax, Hrmax.
    rewrite Hspread in Hcmin, Hrmin, Hcmax, Hrmax. done.
Qed.

Lemma data_analysis_min_max_witness :
  ClassTools.DataAnalysisTool_call utc_host
    (mkDataAnalysisInput "min" [4; -1; 1.5]%float) (sample_world ∅ ()) =
    Ret (VStr "MIN: -1.00") (sample_world ∅ ()) /\
  RuntimeTools.DataAnalysisTool_call utc_host
    (Some (mkDataAnalysisInput "max" [4; -1; 1.5]%float)) (sample_world ∅ ()) =
    Ret (VStr "max: 4") (sample_world ∅ ()).
Proof.
  destruct (data_analysis_min_max utc_host [4; -1; 1.5]%float (sample_world ∅ ()))
    as (Hok & _); [discriminate|].
  destruct Hok as (lo & hi & Hlo & Hhi & _ & _ & _ & Hcmin & _ & _ & Hrmax);
    [repeat constructor|reflexivity|].
  injection Hlo as <-. injection Hhi as <-.
  split; [exact Hcmin|exact Hrmax].
Defined.

(** X22. On an array of numbers of odd length that the engine can spread,
    the median that [data_analysis] computes is a member of the array and
    lies between the minimum and the maximum it computes.  (For an even
    length the average of the two middle numbers can overflow to Infinity,
    see [data_analysis_rounds].) *)
Theorem median_between_min_and_max (host : JsHost) (v : list float) :
  numbers v -> (length v mod 2 = 1)%nat -> spread_error host (length v) = None ->
  exists lo hi : float,
    Math_min host v = Returned lo /\ Math_max host v = Returned hi /\
    In (median v) v /\ at_most lo (median v) /\ at_most (median v) hi.
Proof.
  intros Hv Hodd Hspread.
  assert (Hne : v <> []) by (intros ->; discriminate Hodd).
  destruct (Math_min_max_spec host v Hne Hv Hspread)
    as (lo & hi & Hlo & Hhi & Hnlo & Hnhi & _ & _ & Hall).
  exists lo, hi. split; [exact Hlo|]. split; [exact Hhi|].
  unfold median. set (sorted := Array_sort (fun a b => (a - b)%float) v). cbv zeta.
  assert (Hperm : Permutation sorted v) by (by apply Array_sort_perm).
  assert (Hsl : length sorted = length v) by (by rewrite Hperm).
  rewrite Hsl, Hodd. cbn [Nat.eqb negb].
  assert (Hmid : (length v / 2 < length sorted)%nat).
  { rewrite Hsl. apply Nat.div_lt; [destruct v; [done|cbn; lia]|lia]. }
  assert (Hin : In (index sorted (length v / 2)) v).
  { apply (Permutation_in _ Hperm). unfold index. by apply nth_In. }
  split; [exact Hin|].
  rewrite List.Forall_forall in Hall. destruct (Hall _ Hin) as (H1 & H2).
  unfold numbers in Hv. rewrite List.Forall_forall in Hv.
  split; apply at_most_ord; auto.
Qed.

Lemma median_between_min_and_max_witness :
  exists lo hi : float,
    Math_min utc_host [7; 2; 9]%float = Returned lo /\
    Math_max utc_host [7; 2; 9]%float = Returned hi /\
    In (median [7; 2; 9]%float) [7; 2; 9]%float /\
    at_most lo (median [7; 2; 9]%float) /\ at_most (median [7; 2; 9]%float) hi.
Proof.
  apply (median_between_min_and_max utc_host [7; 2; 9]%float);
    [repeat constructor|reflexivity|reflexivity].
Defined.

(** X23. The [switch] of [data_analysis] knows exactly six operation names,
    in lower case; with values given, any other name makes both renditions
    answer that the operation is invalid. *)
Theorem data_analysis_invalid_operation (host : JsHost) {S : Type} (op : string)
    (v : list float) (w : World S) :
  v <> [] ->
  (statistic host op v = Returned None <-> op ∉ operations) /\
  (op ∉ operations ->
   ClassTools.DataAnalysisTool_call host (mkDataAnalysisInput op v) w =
     Ret (VStr "Error: Invalid operation.") w /\
   RuntimeTools.DataAnalysisTool_call host (Some (mkDataAnalysisInput op v)) w =
     Ret (VStr "Invalid operation.") w).
Proof.
  intros Hne.
  assert (Hiff : statistic host op v = Returned None <-> op ∉ operations).
  { unfold statistic, operations.
    repeat match goal with
           | |- context [String.eqb op ?s] =>
               destruct (String.eqb_spec op s) as [->|?]; cbv iota;
               [split;
                [try destruct (Math_min host v); try destruct (Math_max host v); discriminate
                |intros Hnot; exfalso; apply Hnot; repeat constructor]|]
           end.
    split; [|done]. intros _ Hin.
    repeat (apply elem_of_cons in Hin as [Heq|Hin]; [done|]).
    by apply elem_of_nil in Hin. }
  split; [exact Hiff|]. intros Hnot. apply Hiff in Hnot.
  destruct (data_analysis_eval host op v w Hne) as (Hc & Hr).
  rewrite Hnot in Hc, Hr. by split.
Qed.

Lemma data_analysis_invalid_operation_witness :
  ClassTools.DataAnalysisTool_call utc_host
    (mkDataAnalysisInput "MEAN" [1; 2]%float) (sample_world ∅ ()) =
    Ret (VStr "Error: Invalid operation.") (sample_world ∅ ()) /\
  RuntimeTools.DataAnalysisTool_call utc_host
    (Some (mkDataAnalysisInput "average" [1; 2]%float)) (sample_world ∅ ()) =
    Ret (VStr "Invalid operation.") (sample_world ∅ ()).
Proof.
  split.
  - apply (data_analysis_invalid_operation utc_host "MEAN" [1; 2]%float (sample_world ∅ ()));
      [discriminate|].
    unfold operations. intros Hin.
    repeat (apply elem_of_cons in Hin as [Heq|Hin]; [discriminate Heq|]).
    by apply elem_of_nil in Hin.
  - apply (data_analysis_invalid_operation utc_host "average" [1; 2]%float (sample_world ∅ ()));
      [discriminate|].
    unfold operations. intros Hin.
    repeat (apply elem_of_cons in Hin as [Heq|Hin]; [discriminate Heq|]).
    by apply elem_of_nil in Hin.
Defined.

(** *** The order of the values *)

Lemma Forall2_same_rank_refl (l : list float) : Forall2 same_rank l l.
Proof. induction l; constructor; [reflexivity|assumption]. Qed.

Lemma Forall2_same_rank_trans (l1 l2 l3 : list float) :
  Forall2 same_rank l1 l2 -> Forall2 same_rank l2 l3 -> Forall2 same_rank l1 l3.
Proof.
  intros H12. revert l3. induction H12 as [|x y l1 l2 Hxy H12 IH]; intros l3 H23.
  - exact H23.
  - inversion H23 as [|y' z l2' l3' Hyz H23']; subst.
    constructor; [unfold same_rank in *; lia|by apply IH].
Qed.

Ltac compare_ranks :=
  repeat match goal with
         | |- context [ord ?a <? ord ?b] =>
             let H := fresh "Hcmp" in
             destruct (ord a <? ord b) eqn:H;
             [apply Z.ltb_lt in H|apply Z.ltb_ge in H]
         end.

Lemma insert_by_rank_proper (x x' : float) (l l' : list float) :
  same_rank x x' -> Forall2 same_rank l l' ->
  Forall2 same_rank (insert_by_rank x l) (insert_by_rank x' l').
Proof.
  unfold same_rank. intros Hx. induction 1 as [|y y' l l' Hy Hrest IH]; cbn [insert_by_rank].
  - by repeat constructor.
  - compare_ranks; try lia; by repeat constructor.
Qed.

(** Two insertions commute, up to the order of equal numbers. *)
Lemma insert_by_rank_comm (x y : float) (l : list float) :
  Forall2 same_rank (insert_by_rank x (insert_by_rank y l))
                    (insert_by_rank y (insert_by_rank x l)).
Proof.
  induction l as [|z l IH]; cbn [insert_by_rank].
  - compare_ranks; try lia; repeat constructor; unfold same_rank; lia.
  - compare_ranks; cbn [insert_by_rank]; compare_ranks; try lia;
      repeat (constructor; [unfold same_rank; lia|]);
      solve [apply Forall2_same_rank_refl | exact IH].
Qed.

Lemma sort_by_rank_order (v v' : list float) :
  Permutation v v' -> Forall2 same_rank (sort_by_rank v) (sort_by_rank v').
Proof.
  induction 1 as [|x v v' Hperm IH|x y v|v1 v2 v3 H12 IH12 H23 IH23]; cbn [sort_by_rank].
  - constructor.
  - by apply insert_by_rank_proper.
  - apply insert_by_rank_comm.
  - by apply (Forall2_same_rank_trans _ _ _ IH12).
Qed.

Lemma same_rank_alike (a b : float) :
  is_nan a = false -> is_nan b = false -> same_rank a b ->
  alike (Prim2SF a) (Prim2SF b).
Proof.
  intros Ha Hb Hab. apply is_nan_spec in Ha, Hb.
  by apply SFord_inj; try apply Prim2SF_valid.
Qed.

Lemma same_double_refl (x : float) : same_double x x.
Proof.
  unfold same_double. destruct (is_nan x) eqn:Hx; [by right|left].
  unfold is_nan in Hx. by destruct (x =? x)%float.
Qed.

Lemma alike_same_double (x y : float) : alike (Prim2SF x) (Prim2SF y) -> same_double x y.
Proof.
  intros [Heq|(s & s' & Hx & Hy)].
  - apply Prim2SF_inj in Heq as ->. apply same_double_refl.
  - left. by rewrite FloatAxioms.eqb_spec, Hx, Hy.
Qed.

(** The average of the even case agrees on numbers that are alike. *)
Lemma middle_alike (a a' b b' : spec_float) :
  alike a a' -> alike b b' ->
  alike (SF64div (SF64add a b) (Prim2SF two)) (SF64div (SF64add a' b') (Prim2SF two)).
Proof.
  change (Prim2SF two) with (S754_finite false 4503599627370496 (-51)).
  unfold SF64div, SF64add.
  intros [->|(s1 & s1' & -> & ->)] [->|(s2 & s2' & -> & ->)].
  - by left.
  - destruct a' as [s|s| |s m e]; cbn [SFadd]; try (by left);
      destruct s, s2, s2'; cbn [SFdiv xorb]; first [by left|right; by eexists _, _].
  - destruct b' as [s|s| |s m e]; cbn [SFadd]; try (by left);
      destruct s, s1, s1'; cbn [SFdiv xorb]; first [by left|right; by eexists _, _].
  - destruct s1, s1', s2, s2'; cbn [SFadd SFdiv xorb]; first [by left|right; by eexists _, _].
Qed.

Lemma index_alike (s s' : list float) :
  Forall2 (fun a b => alike (Prim2SF a) (Prim2SF b)) s s' ->
  forall i, alike (Prim2SF (index s i)) (Prim2SF (index s' i)).
Proof.
  unfold index. induction 1 as [|x y s s' Hxy Hrest IH]; intros [|i]; cbn [nth];
    try (by left); [exact Hxy|apply IH].
Qed.

Lemma median_order (v v' : list float) :
  Permutation v v' -> numbers v -> same_double (median v) (median v').
Proof.
  intros Hperm Hv. pose proof (numbers_perm v v' Hperm Hv) as Hv'.
  unfold median. cbv zeta.
  rewrite (Array_sort_rank v Hv), (Array_sort_rank v' Hv').
  pose proof (sort_by_rank_order v v' Hperm) as Hsorted.
  assert (Hn : numbers (sort_by_rank v))
    by (apply (numbers_perm v); [symmetry; apply sort_by_rank_perm|exact Hv]).
  assert (Hn' : numbers (sort_by_rank v'))
    by (apply (numbers_perm v'); [symmetry; apply sort_by_rank_perm|exact Hv']).
  assert (Halike : Forall2 (fun a b => alike (Prim2SF a) (Prim2SF b))
                     (sort_by_rank v) (sort_by_rank v')).
  { revert Hn Hn'. generalize (sort_by_rank v) (sort_by_rank v') Hsorted.
    induction 1 as [|a b l l' Hab Hl IH]; intros Hn Hn'; [constructor|].
    apply Forall_cons in Hn as [Ha Hn]. apply Forall_cons in Hn' as [Hb Hn'].
    constructor; [by apply same_rank_alike|by apply IH]. }
  rewrite (Forall2_length _ _ _ Hsorted).
  pose proof (index_alike _ _ Halike) as Hindex.
  destruct (negb _); apply alike_same_double; [apply Hindex|].
  rewrite !div_spec, !add_spec. apply middle_alike; apply Hindex.
Qed.

Lemma numbers_or_not (v : list float) :
  numbers v \/ Exists (fun x => is_nan x = true) v.
Proof.
  induction v as [|x v [IH|IH]].
  - left. constructor.
  - destruct (is_nan x) eqn:Hx; [right; by left|left; by constructor].
  - right. by right.
Qed.

(** A NaN among the values makes [Math.min] and [Math.max] NaN. *)
Lemma fold_step_nan (step : float -> float -> float) (v : list float) :
  (forall a b, is_nan a = true \/ is_nan b = true -> is_nan (step a b) = true) ->
  forall init,
    is_nan init = true \/ Exists (fun x => is_nan x = true) v ->
    is_nan (fold_left step v init) = true.
Proof.
  intros Hstep. induction v as [|x v IH]; intros init Hnan; cbn [fold_left].
  - destruct Hnan as [Hinit|Hex]; [exact Hinit|inversion Hex].
  - apply IH. destruct Hnan as [Hinit|Hex].
    + left. apply Hstep. by left.
    + inversion Hex as [y l Hx|y l Hrest]; subst; [|by right].
      left. apply Hstep. by right.
Qed.

Lemma min_step_nan (a b : float) :
  is_nan a = true \/ is_nan b = true -> is_nan (min_step a b) = true.
Proof. unfold min_step. by intros [-> | ->]; rewrite ?orb_true_r. Qed.

Lemma max_step_nan (a b : float) :
  is_nan a = true \/ is_nan b = true -> is_nan (max_step a b) = true.
Proof. unfold max_step. by intros [-> | ->]; rewrite ?orb_true_r. Qed.

Lemma Math_min_max_order (host : JsHost) (v v' : list float) :
  Permutation v v' ->
  same_number (statistic host "min" v) (statistic host "min" v') /\
  same_number (statistic host "max" v) (statistic host "max" v').
Proof.
  intros Hperm.
  unfold statistic. cbn [String.eqb Ascii.eqb Bool.eqb].
  destruct (spread_error host (length v)) as [e|] eqn:Hspread.
  { unfold Math_min, Math_max. rewrite <- (Permutation_length Hperm), Hspread. by split. }
  assert (Hspread' : spread_error host (length v') = None)
    by (by rewrite <- (Permutation_length Hperm)).
  destruct (numbers_or_not v) as [Hv|Hnan].
  - pose proof (numbers_perm v v' Hperm Hv) as Hv'.
    destruct v as [|x v].
    { apply Permutation_nil in Hperm as ->. unfold Math_min, Math_max. rewrite Hspread.
      split; apply same_double_refl. }
    assert (Hne : x :: v <> []) by done.
    assert (Hne' : v' <> []).
    { intros ->. symmetry in Hperm. by apply Permutation_nil in Hperm. }
    destruct (Math_min_max_spec host _ Hne Hv Hspread)
      as (lo & hi & -> & -> & Hnlo & Hnhi & Hlo & Hhi & Hall).
    destruct (Math_min_max_spec host _ Hne' Hv' Hspread')
      as (lo' & hi' & -> & -> & Hnlo' & Hnhi' & Hlo' & Hhi' & Hall').
    rewrite List.Forall_forall in Hall, Hall'.
    apply (Permutation_in _ Hperm) in Hlo, Hhi.
    apply (Permutation_in _ (Permutation_sym Hperm)) in Hlo', Hhi'.
    pose proof (Hall _ Hlo') as H1. pose proof (Hall _ Hhi') as H2.
    pose proof (Hall' _ Hlo) as H3. pose proof (Hall' _ Hhi) as H4.
    cbv beta in H1, H2, H3, H4. cbn [same_number].
    split; left; rewrite eqb_ord by done; apply Z.eqb_eq; lia.
  - assert (Hnan' : Exists (fun x => is_nan x = true) v') by (by rewrite <- Hperm).
    unfold Math_min, Math_max. rewrite Hspread, Hspread'. cbn [same_number].
    split; right; split;
      first [apply (fold_step_nan min_step); [apply min_step_nan|by right]
            |apply (fold_step_nan max_step); [apply max_step_nan|by right]].
Qed.

(** X24. The minimum, the maximum and the count that [data_analysis]
    computes do not depend on the order in which the values are given, and
    neither does the median of numbers (no NaN among them, for which the
    comparator of the sort is inconsistent): rearranged input gives the same
    number (up to the sign of a zero, or NaN on both sides), or the same
    exception.  (The two sums are left aside: the handlers add in array
    order, and the addition of doubles is not associative.) *)
Theorem statistic_order_independent (host : JsHost) (op : string) (v v' : list float) :
  Permutation v v' ->
  op ∈ ["median"; "count"; "min"; "max"] ->
  (op = "median" -> numbers v) ->
  same_number (statistic host op v) (statistic host op v').
Proof.
  intros Hperm Hop Hv.
  destruct (Math_min_max_order host v v' Hperm) as (Hmin & Hmax).
  repeat (apply elem_of_cons in Hop as [->|Hop]).
  - unfold statistic. cbn [String.eqb Ascii.eqb Bool.eqb same_number].
    apply median_order; [exact Hperm|by apply Hv].
  - unfold statistic. cbn [String.eqb Ascii.eqb Bool.eqb same_number].
    rewrite (Permutation_length Hperm). apply same_double_refl.
  - exact Hmin.
  - exact Hmax.
  - by apply elem_of_nil in Hop.
Qed.

Lemma statistic_order_independent_witness :
  same_number (statistic utc_host "median" [3; 1; 2; 1]%float)
              (statistic utc_host "median" [1; 3; 1; 2]%float).
Proof.
  apply statistic_order_independent.
  - apply perm_trans with [1; 3; 2; 1]%float; [apply perm_swap|].
    do 2 apply perm_skip. apply perm_swap.
  - apply elem_of_cons. by left.
  - intros _. repeat constructor.
Defined.


(** ** [tools.ts]: [datetime] *)

Section DateTimeMore.
Variable host : JsHost.
Context {S : Type}.

Lemma datetime_add_days_eval (d : Z) (fmt : option string) (w : World S) :
  ClassTools.DateTimeTool_call host (mkDateTimeInput "add_days" (Some d) fmt) w =
    Ret (VStr (match add_days host (Some (clock w (ticks w))) d with
               | Some u => "Date after " +:+ pretty d +:+ " days: " +:+ Date_toISOString host u
               | None => "Error with datetime: Invalid time value"
               end)) (tick w) /\
  RuntimeTools.DateTimeTool_call host (Some (mkDateTimeInput "add_days" (Some d) fmt)) w =
    match add_days host (Some (clock w (ticks w))) d with
    | Some u =>
        Ret (VStr ("Date after " +:+ pretty d +:+ " days: " +:+ Date_toISOString host u))
            (tick w)
    | None => Throw (VError "Invalid time value") (tick w)
    end.
Proof.
  unfold ClassTools.DateTimeTool_call, RuntimeTools.DateTimeTool_call, try_catch, bind,
    new_Date, bind, Date_now, ret.
  cbn [option_map mbind option_bind action days String.eqb Ascii.eqb Bool.eqb].
  destruct (add_days host (Some (clock w (ticks w))) d); split; reflexivity.
Qed.

(** X25. In a zone that keeps one UTC offset, [add_days] moves the instant
    read from the clock by exactly [days] times 24 hours, as long as the
    result is a valid date; both renditions report that instant, read the
    clock once, and ignore a [format] argument. *)
Theorem datetime_add_days_exact (offset d : Z) (fmt : option string) (w : World S) :
  (forall x, LocalTZA_utc host x = offset) ->
  (forall x, LocalTZA_local host x = offset) ->
  Z.abs (clock w (ticks w) + d * msPerDay) <= maxTimeValue ->
  ClassTools.DateTimeTool_call host (mkDateTimeInput "add_days" (Some d) fmt) w =
    Ret (VStr ("Date after " +:+ pretty d +:+ " days: "
               +:+ Date_toISOString host (clock w (ticks w) + d * msPerDay))) (tick w) /\
  RuntimeTools.DateTimeTool_call host (Some (mkDateTimeInput "add_days" (Some d) fmt)) w =
    Ret (VStr ("Date after " +:+ pretty d +:+ " days: "
               +:+ Date_toISOString host (clock w (ticks w) + d * msPerDay))) (tick w).
Proof.
  intros Hutc Hlocal Hrange.
  pose proof (datetime_add_days_eval d fmt w) as Heval.
  by rewrite (add_days_constant_offset host offset _ d Hutc Hlocal Hrange) in Heval.
Qed.

(** X26. When the shifted date falls outside the range of Date, printing it
    raises a RangeError: the class-based [datetime] turns it into the answer
    [Error with datetime: Invalid time value], the object-literal one lets the
    exception out. *)
Theorem datetime_add_days_out_of_range (d : Z) (fmt : option string) (w : World S) :
  add_days host (Some (clock w (ticks w))) d = None ->
  ClassTools.DateTimeTool_call host (mkDateTimeInput "add_days" (Some d) fmt) w =
    Ret (VStr "Error with datetime: Invalid time value") (tick w) /\
  RuntimeTools.DateTimeTool_call host (Some (mkDateTimeInput "add_days" (Some d) fmt)) w =
    Throw (VError "Invalid time value") (tick w).
Proof.
  intros Hnone. pose proof (datetime_add_days_eval d fmt w) as Heval.
  by rewrite Hnone in Heval.
Qed.

(** X27. Every request that is neither [current] nor an [add_days] with a
    day count.  The class-based [datetime] formats the date for [format] with
    a non-empty format string and rejects everything else; the object-literal
    one rejects nothing and answers every such request, and a call without
    arguments, with the date in the host's locale. *)
Theorem datetime_other_actions (input : DateTimeInput) (w : World S) :
  action input <> "current" ->
  action input <> "add_days" \/ days input = None ->
  ClassTools.DateTimeTool_call host input w =
    Ret (VStr (if String.eqb (action input) "format" && nonempty (format input)
               then "Formatted date: "
                    +:+ Date_toLocaleDateString host (clock w (ticks w)) +:+ " "
                    +:+ Date_toLocaleTimeString host (clock w (ticks w))
               else "Error: Invalid action or missing parameters.")) (tick w) /\
  RuntimeTools.DateTimeTool_call host (Some input) w =
    Ret (VStr ("Formatted date: " +:+ Date_toLocaleString host (clock w (ticks w)))) (tick w) /\
  RuntimeTools.DateTimeTool_call host None w =
    Ret (VStr ("Formatted date: " +:+ Date_toLocaleString host (clock w (ticks w)))) (tick w).
Proof.
  intros Hcurrent Hadd.
  unfold ClassTools.DateTimeTool_call, RuntimeTools.DateTimeTool_call, try_catch, bind,
    new_Date, bind, Date_now, ret.
  cbn [option_map mbind option_bind].
  destruct (String.eqb_spec (action input) "current") as [Heq|_]; [done|].
  destruct (String.eqb_spec (action input) "add_days") as [Heq|_].
  - destruct Hadd as [Hne| ->]; [done|].
    destruct (String.eqb (action input) "format" && nonempty (format input));
      repeat split.
  - destruct (days input);
      destruct (String.eqb (action input) "format" && nonempty (format input));
      repeat split.
Qed.
End DateTimeMore.

Lemma datetime_add_days_exact_witness :
  returned (ClassTools.DateTimeTool_call utc_host
              (mkDateTimeInput "add_days" (Some 30) (Some "iso")) (sample_world ∅ ()))
    = Some (VStr "Date after 30 days: 2025-07-15T12:00:00.000Z").
Proof.
  destruct (datetime_add_days_exact utc_host 0 30 (Some "iso") (sample_world ∅ ()))
    as (Hclass & _).
  - reflexivity.
  - reflexivity.
  - vm_compute. discriminate.
  - rewrite Hclass. vm_compute. reflexivity.
Defined.

Lemma datetime_add_days_out_of_range_witness :
  returned (ClassTools.DateTimeTool_call utc_host
              (mkDateTimeInput "add_days" (Some 1000000000) None) (sample_world ∅ ()))
    = Some (VStr "Error with datetime: Invalid time value") /\
  thrown (RuntimeTools.DateTimeTool_call utc_host
            (Some (mkDateTimeInput "add_days" (Some 1000000000) None)) (sample_world ∅ ()))
    = Some (VError "Invalid time value").
Proof.
  destruct (datetime_add_days_out_of_range utc_host 1000000000 None (sample_world ∅ ()))
    as (Hclass & Hruntime).
  - vm_compute. reflexivity.
  - rewrite Hclass, Hruntime. split; reflexivity.
Defined.

Lemma datetime_other_actions_witness :
  returned (ClassTools.DateTimeTool_call utc_host
              (mkDateTimeInput "add_days" None None) (sample_world ∅ ()))
    = Some (VStr "Error: Invalid action or missing parameters.") /\
  returned (ClassTools.DateTimeTool_call utc_host
              (mkDateTimeInput "format" None None) (sample_world ∅ ()))
    = Some (VStr "Error: Invalid action or missing parameters.").
Proof.
  split.
  - destruct (datetime_other_actions utc_host
                (mkDateTimeInput "add_days" None None) (sample_world ∅ ()))
      as (Hclass & _); [discriminate|by right|].
    rewrite Hclass. reflexivity.
  - destruct (datetime_other_actions utc_host
                (mkDateTimeInput "format" None None) (sample_world ∅ ()))
      as (Hclass & _); [discriminate|by left|].
    rewrite Hclass. reflexivity.
Defined.

(** ** [tools.ts]: [conversation_memory] *)

Section ConversationMemoryFacts.
Variable host : JsHost.
Context {S : Type}.
Variable backend : Event -> S -> outcome JsVal * S.

(** X28. Saving a conversation.  Without a message (absent or empty) the
    class-based tool answers that one is required, and neither reads the
    clock nor contacts the store.  With a message it reads the clock once and
    sends one write to [agent_conversations]: the conversation id, the
    message, and the clock reading as an ISO string; the answer is the
    success sentence, or the store's error as a string, read from the [error]
    field of the reply whatever else the reply carries. *)
Theorem conversation_memory_save (conversation : string) (msg : option string)
    (w : World S) :
  (nonempty msg = false ->
   ClassTools.ConversationMemoryTool_call host backend
     (mkConversationMemoryInput "save" conversation msg) w =
     Ret (VStr "Error: Message is required for save action.") w) /\
  (forall text, msg = Some text -> text <> EmptyString ->
     let request := save_request host conversation text (clock w (ticks w)) in
     trace (final_world (ClassTools.ConversationMemoryTool_call host backend
                           (mkConversationMemoryInput "save" conversation msg) w))
       = trace w ++ [request] /\
     (forall reply err s',
        backend request (collab w) = (Returned reply, s') ->
        get_prop reply "error" = Returned err ->
        ClassTools.ConversationMemoryTool_call host backend
          (mkConversationMemoryInput "save" conversation msg) w =
          Ret (VStr (if truthy err
                     then "Error with conversation memory: " +:+ error_message err
                     else "Conversation saved successfully."))
              (advance [request] 1 s' w)) /\
     (forall e s',
        backend request (collab w) = (Thrown e, s') ->
        ClassTools.ConversationMemoryTool_call host backend
          (mkConversationMemoryInput "save" conversation msg) w =
          Ret (VStr ("Error with conversation memory: " +:+ error_message e))
              (advance [request] 1 s' w))).
Proof.
  split.
  - intros Hmissing. unfold ClassTools.ConversationMemoryTool_call, try_catch.
    cbn [memory_action message String.eqb Ascii.eqb Bool.eqb]. by rewrite Hmissing.
  - intros text -> Htext request.
    assert (Hnonempty : nonempty (Some text) = true).
    { unfold nonempty. by destruct (String.eqb_spec text EmptyString). }
    assert (Heval :
      ClassTools.ConversationMemoryTool_call host backend
        (mkConversationMemoryInput "save" conversation (Some text)) w =
        try_catch
          (reply <- remote backend request ;;
           error <- lift_outcome (get_prop reply "error") ;;
           if truthy error then throw error
           else ret (VStr "Conversation saved successfully."))
          (fun error =>
             ret (VStr ("Error with conversation memory: " +:+ error_message error)))
          (tick w)).
    { unfold ClassTools.ConversationMemoryTool_call, try_catch.
      cbn [memory_action message conversationId String.eqb Ascii.eqb Bool.eqb].
      rewrite Hnonempty. cbn [negb]. reflexivity. }
    rewrite Heval. unfold try_catch. split; [|split].
    + unfold bind at 1. rewrite remote_eval. cbn [collab tick].
      destruct (backend request (collab w)) as [[reply|e] s']; [|reflexivity].
      unfold bind at 1.
      destruct (get_prop reply "error") as [err|e]; cbn [lift_outcome]; [|reflexivity].
      unfold ret at 1. destruct (truthy err); reflexivity.
    + intros reply err s' Hreply Herr. unfold bind at 1. rewrite remote_eval.
      cbn [collab tick]. rewrite Hreply. unfold bind at 1. rewrite Herr.
      cbn [lift_outcome]. unfold ret at 1. destruct (truthy err); reflexivity.
    + intros e s' Hthrow. unfold bind at 1. rewrite remote_eval.
      cbn [collab tick]. by rewrite Hthrow.
Qed.

(** X29. Retrieving a conversation, and every other action.  [retrieve]
    sends one read of the [messages] column of the single row with the given
    id.  From the reply, whatever else it carries: a reported error becomes a
    string, stored messages are handed back as they are, and an absent row or
    empty messages give the no-history sentence.  An action that is neither
    [save] nor [retrieve] is rejected without contacting the store. *)
Theorem conversation_memory_retrieve (conversation : string) (msg : option string)
    (w : World S) :
  (trace (final_world (ClassTools.ConversationMemoryTool_call host backend
                         (mkConversationMemoryInput "retrieve" conversation msg) w))
     = trace w ++ [retrieve_request conversation]) /\
  (forall reply data err s',
      backend (retrieve_request conversation) (collab w) = (Returned reply, s') ->
      get_prop reply "data" = Returned data ->
      get_prop reply "error" = Returned err ->
      ClassTools.ConversationMemoryTool_call host backend
        (mkConversationMemoryInput "retrieve" conversation msg) w =
        Ret (if truthy err
             then VStr ("Error with conversation memory: " +:+ error_message err)
             else if truthy (ClassTools.optional_messages data)
                  then ClassTools.optional_messages data
                  else VStr "No conversation history found.")
            (advance [retrieve_request conversation] 0 s' w)) /\
  (forall other, other <> "save" -> other <> "retrieve" ->
     ClassTools.ConversationMemoryTool_call host backend
       (mkConversationMemoryInput other conversation msg) w =
       Ret (VStr "Error: Invalid action.") w).
Proof.
  split; [|split].
  - unfold ClassTools.ConversationMemoryTool_call, try_catch.
    cbn [memory_action conversationId String.eqb Ascii.eqb Bool.eqb].
    fold (retrieve_request conversation).
    unfold bind at 1. rewrite remote_eval.
    destruct (backend _ (collab w)) as [[reply|e] s']; [|reflexivity].
    unfold bind at 1.
    destruct (get_prop reply "data") as [data|e]; cbn [lift_outcome]; [|reflexivity].
    unfold ret at 1. unfold bind at 1.
    destruct (get_prop reply "error") as [err|e]; cbn [lift_outcome]; [|reflexivity].
    unfold ret at 1. destruct (truthy err); reflexivity.
  - intros reply data err s' Hreply Hdata Herr.
    unfold ClassTools.ConversationMemoryTool_call, try_catch.
    cbn [memory_action conversationId String.eqb Ascii.eqb Bool.eqb].
    fold (retrieve_request conversation).
    unfold bind at 1. rewrite remote_eval, Hreply. unfold bind at 1.
    rewrite Hdata. cbn [lift_outcome].
    unfold ret at 1. unfold bind at 1. rewrite Herr. cbn [lift_outcome]. unfold ret at 1.
    destruct (truthy err); [reflexivity|]. cbv zeta.
    destruct (truthy (ClassTools.optional_messages data)); reflexivity.
  - intros other Hsave Hretrieve.
    unfold ClassTools.ConversationMemoryTool_call, try_catch. cbn [memory_action].
    destruct (String.eqb_spec other "save") as [Heq|_]; [done|].
    destruct (String.eqb_spec other "retrieve") as [Heq|_]; [done|].
    reflexivity.
Qed.
End ConversationMemoryFacts.

Lemma conversation_memory_save_witness :
  returned (ClassTools.ConversationMemoryTool_call utc_host refusing_backend
              (mkConversationMemoryInput "save" "c-17" (Some EmptyString))
              (sample_world full_env ()))
    = Some (VStr "Error: Message is required for save action.") /\
  trace (final_world (ClassTools.ConversationMemoryTool_call utc_host empty_backend
                        (mkConversationMemoryInput "save" "c-17" (Some "Where is my order?"))
                        (sample_world full_env ())))
    = [StoreUpsert "agent_conversations"
         [("id", VStr "c-17"); ("messages", VStr "Where is my order?");
          ("updated_at", VStr "2025-06-15T12:00:00.000Z")]] /\
  returned (ClassTools.ConversationMemoryTool_call utc_host empty_backend
              (mkConversationMemoryInput "save" "c-17" (Some "Where is my order?"))
              (sample_world full_env ()))
    = Some (VStr "Conversation saved successfully.") /\
  returned (ClassTools.ConversationMemoryTool_call utc_host refusing_backend
              (mkConversationMemoryInput "save" "c-17" (Some "Where is my order?"))
              (sample_world full_env ()))
    = Some (VStr "Error with conversation memory: Unknown error").
Proof.
  split; [|split; [|split]].
  - destruct (conversation_memory_save utc_host refusing_backend "c-17" (Some EmptyString)
                (sample_world full_env ())) as (Hmissing & _).
    by rewrite (Hmissing eq_refl).
  - destruct (conversation_memory_save utc_host empty_backend "c-17"
                (Some "Where is my order?") (sample_world full_env ())) as (_ & Hsave).
    destruct (Hsave "Where is my order?" eq_refl) as (Htrace & _); [discriminate|].
    rewrite Htrace. vm_compute. reflexivity.
  - destruct (conversation_memory_save utc_host empty_backend "c-17"
                (Some "Where is my order?") (sample_world full_env ())) as (_ & Hsave).
    destruct (Hsave "Where is my order?" eq_refl) as (_ & Hreply & _); [discriminate|].
    by rewrite (Hreply _ _ _ eq_refl eq_refl).
  - destruct (conversation_memory_save utc_host refusing_backend "c-17"
                (Some "Where is my order?") (sample_world full_env ())) as (_ & Hsave).
    destruct (Hsave "Where is my order?" eq_refl) as (_ & Hreply & _); [discriminate|].
    by rewrite (Hreply _ _ _ eq_refl eq_refl).
Defined.

Lemma conversation_memory_retrieve_witness :
  returned (ClassTools.ConversationMemoryTool_call utc_host history_backend
              (mkConversationMemoryInput "retrieve" "c-17" None) (sample_world full_env ()))
    = Some (VStr "Where is my order?") /\
  returned (ClassTools.ConversationMemoryTool_call utc_host empty_backend
              (mkConversationMemoryInput "retrieve" "c-17" None) (sample_world full_env ()))
    = Some (VStr "No conversation history found.") /\
  returned (ClassTools.ConversationMemoryTool_call utc_host history_backend
              (mkConversationMemoryInput "delete" "c-17" None) (sample_world full_env ()))
    = Some (VStr "Error: Invalid action.").
Proof.
  split; [|split].
  - destruct (conversation_memory_retrieve utc_host history_backend "c-17" None
                (sample_world full_env ())) as (_ & Hreply & _).
    by rewrite (Hreply _ _ _ _ eq_refl eq_refl eq_refl).
  - destruct (conversation_memory_retrieve utc_host empty_backend "c-17" None
                (sample_world full_env ())) as (_ & Hreply & _).
    by rewrite (Hreply _ _ _ _ eq_refl eq_refl eq_refl).
  - destruct (conversation_memory_retrieve utc_host history_backend "c-17" None
                (sample_world full_env ())) as (_ & _ & Hother).
    rewrite (Hother "delete"); [reflexivity|discriminate|discriminate].
Defined.

(** ** [tools.ts]: which tools reach the collaborators *)

Section Offline.
Variable host : JsHost.
Context {S : Type}.
Variable backend : Event -> S -> outcome JsVal * S.

Lemma runtime_data_analysis_offline (x : option DataAnalysisInput) :
  offline (S := S) (RuntimeTools.DataAnalysisTool_call host x).
Proof.
  intros w. unfold RuntimeTools.DataAnalysisTool_call, bind.
  destruct x as [i|]; [|by split].
  destruct (Nat.eqb _ _); [by split|]. by destruct (statistic _ _ _) as [[r|]|e].
Qed.

Lemma class_data_analysis_offline (x : DataAnalysisInput) :
  offline (S := S) (ClassTools.DataAnalysisTool_call host x).
Proof.
  intros w. unfold ClassTools.DataAnalysisTool_call, try_catch, bind.
  destruct (Nat.eqb _ _); [by split|]. by destruct (statistic _ _ _) as [[r|]|e].
Qed.

Lemma runtime_datetime_offline (x : option DateTimeInput) :
  offline (S := S) (RuntimeTools.DateTimeTool_call host x).
Proof.
  intros w. unfold RuntimeTools.DateTimeTool_call, bind, new_Date, bind, Date_now, ret.
  destruct x as [[a d f]|]; cbn [option_map mbind option_bind action days]; [|by split].
  destruct (String.eqb a "current"); [by split|].
  destruct (String.eqb a "add_days"), d as [d|]; try by split.
  by destruct (add_days host _ d).
Qed.

Lemma class_datetime_offline (x : DateTimeInput) :
  offline (S := S) (ClassTools.DateTimeTool_call host x).
Proof.
  intros w. unfold ClassTools.DateTimeTool_call, try_catch, bind, new_Date, bind,
    Date_now, ret.
  destruct x as [a d f]; cbn [action days format].
  destruct (String.eqb a "current"); [by split|].
  destruct (String.eqb a "add_days"), d as [d|];
    try (by destruct (String.eqb a "format" && nonempty f)).
  by destruct (add_days host _ d).
Qed.

Lemma runtime_conversation_memory_offline (x : option ConversationMemoryInput) :
  offline (S := S) (RuntimeTools.ConversationMemoryTool_call x).
Proof.
  intros w. unfold RuntimeTools.ConversationMemoryTool_call.
  destruct x as [i|]; cbn [option_map]; [|by split].
  by destruct (String.eqb _ _).
Qed.

(** X30. Which tools reach the collaborators.  Of the four object-literal
    tools only [document_search] can: [data_analysis], [datetime] and
    [conversation_memory] send no request and leave the store as it is on
    every input, so that nothing is saved by the latter.  In the class-based
    set, [data_analysis] and [datetime] are of that kind as well. *)
Theorem tools_offline :
  (forall tool : Tool S,
      tool ∈ RuntimeTools.allTools host backend ->
      name tool <> "document_search" ->
      forall x : input tool, offline (call tool x)) /\
  (forall tool : Tool S,
      tool ∈ ClassTools.allTools host backend ->
      name tool = "data_analysis" \/ name tool = "datetime" ->
      forall x : input tool, offline (call tool x)).
Proof.
  split; intros tool Hin Hname.
  - unfold RuntimeTools.allTools in Hin.
    repeat (apply elem_of_cons in Hin as [->|Hin]).
    + by destruct Hname.
    + apply runtime_data_analysis_offline.
    + apply runtime_datetime_offline.
    + apply runtime_conversation_memory_offline.
    + by apply elem_of_nil in Hin.
  - unfold ClassTools.allTools in Hin.
    repeat (apply elem_of_cons in Hin as [->|Hin]).
    + by destruct Hname.
    + by destruct Hname.
    + apply class_data_analysis_offline.
    + by destruct Hname.
    + apply class_datetime_offline.
    + by apply elem_of_nil in Hin.
Qed.
End Offline.
